(** * gestor-dga: the diagnostic core, embedded and verified

    A shallow embedding of the Python sources under [src/dga]:

    - [domain/models]: [FaultType], [GasReading], [MethodResult];
    - [application/services/normative_methods]: [gas_ratios] and the six
      normative classifiers;
    - [application/services/normative_diagnosis_service.py]: the consensus
      engine;
    - [application/services/ai_engine]: data preparation, the fold and
      ranking logic of [model_trainer.py] and [model_evaluator.py], the
      fault classifier and the AI service;
    - [application/services/unified_diagnosis_service.py].

    Conventions of the embedding.  Python [float] values are exact
    rationals ([Q]), except the cross-validation scores, which scikit-learn
    may report as [nan] ([pyfloat.float]); Python [int] values are [Z];
    [str] is [string];
    a [dict] is an association list in insertion order (Python dictionaries
    keep it, and [Counter.most_common] depends on it).  Code that can raise
    returns in the error monad [result]; scikit-learn and numpy reductions
    are oracles taken as [Section] variables, and every call to them is
    recorded in a trace.  Where two [int] are divided (the percentage of
    [compare]) the arithmetic is that of binary64.  The files of the model
    directory are a store from locations to contents; joblib and the
    operating system are oracles as well. *)

From Stdlib Require Import ZArith QArith Qabs List String Ascii Bool Lia Lqa.
From Stdlib Require Import Sorting.Sorted Sorting.Permutation DecimalString.
Import ListNotations.

Set Implicit Arguments.

(** ** Python prelude: exceptions, division, rounding, strings *)

Module Py.

Inductive exn : Type :=
| ZeroDivisionError
| IndexError
| KeyError (key : string)
| ValueError (msg : string)
| InvalidGasValueError (field_name : string) (value : Q).

Inductive result (A : Type) : Type :=
| Ok (a : A)
| Raise (e : exn).

Arguments Ok {A} a.
Arguments Raise {A} e.

Definition bind {A B : Type} (c : result A) (k : A -> result B) : result B :=
  match c with
  | Ok a => k a
  | Raise e => Raise e
  end.

Fixpoint mapM {A B : Type} (f : A -> result B) (l : list A)
  : result (list B) :=
  match l with
  | [] => Ok []
  | x :: l' =>
      bind (f x) (fun y => bind (mapM f l') (fun ys => Ok (y :: ys)))
  end.

(** Comparisons of floats, as booleans. *)
Definition Qlt_bool (x y : Q) : bool := negb (Qle_bool y x).
Definition Qgt_bool (x y : Q) : bool := Qlt_bool y x.
Definition Qge_bool (x y : Q) : bool := Qle_bool y x.

(** [x / y] on floats. *)
Definition truediv (x y : Q) : result Q :=
  if Qeq_bool y 0 then Raise ZeroDivisionError else Ok (x / y).

(** Round half to even, to an integer. *)
Definition round_half_even (x : Q) : Z :=
  let n := Qnum x in
  let d := Zpos (Qden x) in
  let q := (n / d)%Z in
  let r := (n mod d)%Z in
  match (2 * r ?= d)%Z with
  | Lt => q
  | Gt => (q + 1)%Z
  | Eq => if Z.even q then q else (q + 1)%Z
  end.

(** [round(x, ndigits)] for a non-negative number of digits. *)
Definition round (x : Q) (ndigits : nat) : Q :=
  let scale := Pos.pow 10 (Pos.of_nat ndigits) in
  match ndigits with
  | O => inject_Z (round_half_even x)
  | S _ => Qmake (round_half_even (x * inject_Z (Zpos scale))) scale
  end.

(** [str.lower] on ASCII text. *)
Definition ascii_lower (c : ascii) : ascii :=
  let n := nat_of_ascii c in
  if (Nat.leb 65 n && Nat.leb n 90)%bool then ascii_of_nat (n + 32) else c.

Fixpoint lower (s : string) : string :=
  match s with
  | EmptyString => EmptyString
  | String c s' => String (ascii_lower c) (lower s')
  end.

(** [str(n)] for an [int]. *)
Definition str_of_int (n : Z) : string :=
  NilZero.string_of_int (Z.to_int n).

(** [d.get(k)] and [d[k]] on a dictionary with string keys. *)
Fixpoint dict_get {V : Type} (d : list (string * V)) (k : string)
  : option V :=
  match d with
  | [] => None
  | (k', v) :: d' => if String.eqb k' k then Some v else dict_get d' k
  end.

(** [d[k] = v]: an existing key keeps its position. *)
Fixpoint dict_set {V : Type} (d : list (string * V)) (k : string) (v : V)
  : list (string * V) :=
  match d with
  | [] => [(k, v)]
  | (k', v') :: d' =>
      if String.eqb k' k then (k', v) :: d' else (k', v') :: dict_set d' k v
  end.

(** [max(xs)] and [min(xs)] on a list of [int]: an empty argument raises. *)
Definition max_Z (xs : list Z) : result Z :=
  match xs with
  | [] => Raise (ValueError "max() arg is an empty sequence")
  | x :: xs' => Ok (fold_left Z.max xs' x)
  end.

Definition min_Z (xs : list Z) : result Z :=
  match xs with
  | [] => Raise (ValueError "min() arg is an empty sequence")
  | x :: xs' => Ok (fold_left Z.min xs' x)
  end.

End Py.

Import Py.

Declare Scope py_scope.
Delimit Scope py_scope with py.
Notation "x <- c ;; k" := (bind c (fun x => k))
  (at level 61, c at next level, right associativity) : py_scope.
Notation "' pat <- c ;; k" := (bind c (fun x => match x with pat => k end))
  (at level 61, pat pattern, c at next level, right associativity) : py_scope.

Local Open Scope Q_scope.
Local Open Scope py_scope.

(** ** domain/models/fault_type.py *)

Inductive FaultType : Type :=
| N | PD | D1 | D2 | T1 | T2 | T3 | DT | S.

Definition FaultType_eq_dec (a b : FaultType) : {a = b} + {a <> b}.
Proof. decide equality. Defined.

Definition FaultType_eqb (a b : FaultType) : bool :=
  if FaultType_eq_dec a b then true else false.

(** [ft.name] *)
Definition name (ft : FaultType) : string :=
  match ft with
  | N => "N" | PD => "PD" | D1 => "D1" | D2 => "D2" | T1 => "T1"
  | T2 => "T2" | T3 => "T3" | DT => "DT" | S => "S"
  end%string.

(** ** domain/models/gas_reading.py *)

Record GasReading : Type := mkGasReading {
  h2 : Q; ch4 : Q; c2h6 : Q; c2h4 : Q; c2h2 : Q;
  co : Q; co2 : Q; o2 : Q; n2 : Q
}.

Definition gas_fields (r : GasReading) : list (string * Q) :=
  [("h2", h2 r); ("ch4", ch4 r); ("c2h6", c2h6 r); ("c2h4", c2h4 r);
   ("c2h2", c2h2 r); ("co", co r); ("co2", co2 r); ("o2", o2 r);
   ("n2", n2 r)]%string.

(** [__post_init__]: the fields are checked in canonical order and the
    first negative one raises; the exception carries the field name and the
    value its message is formatted from.  The [isinstance] test always
    passes on numbers. *)
Fixpoint check_fields (fs : list (string * Q)) : result unit :=
  match fs with
  | [] => Ok tt
  | (field_name, value) :: fs' =>
      if Qlt_bool value 0
      then Raise (InvalidGasValueError field_name value)
      else check_fields fs'
  end.

Definition post_init (r : GasReading) : result unit :=
  check_fields (gas_fields r).

(** A reading that the constructor accepts. *)
Definition valid_reading (r : GasReading) : Prop := post_init r = Ok tt.

(** ** domain/models/method_result.py *)

(** Values stored in the [details] dictionary. *)
Inductive DetailValue : Type :=
| VBool (b : bool)
| VFloat (x : Q)
| VInt (n : Z)
| VStr (s : string)
| VIntDict (d : list (string * Z))
| VFloatDict (d : list (string * Q)).

Record MethodResult : Type := mkMethodResult {
  method_name : string;
  fault_type : FaultType;
  description : string;
  details : list (string * DetailValue)
}.

(** ** application/services/normative_methods/gas_ratios.py *)

Module gas_ratios.

Definition safe_ratio (numerator denominator : Q) : result Q :=
  if Qle_bool denominator 0
  then Ok (if Qgt_bool numerator 0 then 999 else 0)
  else truediv numerator denominator.

Definition ratio_ch4_h2 (reading : GasReading) : result Q :=
  safe_ratio (ch4 reading) (h2 reading).

Definition ratio_c2h2_c2h4 (reading : GasReading) : result Q :=
  safe_ratio (c2h2 reading) (c2h4 reading).

Definition ratio_c2h4_c2h6 (reading : GasReading) : result Q :=
  safe_ratio (c2h4 reading) (c2h6 reading).

Definition ratio_c2h6_c2h2 (reading : GasReading) : result Q :=
  safe_ratio (c2h6 reading) (c2h2 reading).

Definition ratio_c2h2_ch4 (reading : GasReading) : result Q :=
  safe_ratio (c2h2 reading) (ch4 reading).

Definition total_combustible_gases (reading : GasReading) : Q :=
  h2 reading + ch4 reading + c2h6 reading
  + c2h4 reading + c2h2 reading + co reading.

Definition duval_triangle_percentages (reading : GasReading)
  : result (Q * Q * Q) :=
  let total := ch4 reading + c2h4 reading + c2h2 reading in
  if Qle_bool total 0 then Ok (0, 0, 0)
  else
    q_ch4 <- truediv (ch4 reading) total ;;
    let pct_ch4 := q_ch4 * 100 in
    q_c2h4 <- truediv (c2h4 reading) total ;;
    let pct_c2h4 := q_c2h4 * 100 in
    q_c2h2 <- truediv (c2h2 reading) total ;;
    let pct_c2h2 := q_c2h2 * 100 in
    Ok (pct_ch4, pct_c2h4, pct_c2h2).

Definition duval_pentagon_percentages (reading : GasReading)
  : result (Q * Q * Q * Q * Q) :=
  let total :=
    h2 reading + ch4 reading + c2h6 reading + c2h4 reading + c2h2 reading in
  if Qle_bool total 0 then Ok (0, 0, 0, 0, 0)
  else
    q_h2 <- truediv (h2 reading) total ;;
    let pct_h2 := q_h2 * 100 in
    q_ch4 <- truediv (ch4 reading) total ;;
    let pct_ch4 := q_ch4 * 100 in
    q_c2h6 <- truediv (c2h6 reading) total ;;
    let pct_c2h6 := q_c2h6 * 100 in
    q_c2h4 <- truediv (c2h4 reading) total ;;
    let pct_c2h4 := q_c2h4 * 100 in
    q_c2h2 <- truediv (c2h2 reading) total ;;
    let pct_c2h2 := q_c2h2 * 100 in
    Ok (pct_h2, pct_ch4, pct_c2h6, pct_c2h4, pct_c2h2).

Definition ratio_c2h6_ch4 (reading : GasReading) : result Q :=
  safe_ratio (c2h6 reading) (ch4 reading).

Definition ratio_co2_co (reading : GasReading) : result Q :=
  safe_ratio (co2 reading) (co reading).

Definition total_hydrocarbons (reading : GasReading) : Q :=
  ch4 reading + c2h6 reading + c2h4 reading + c2h2 reading.

End gas_ratios.

(** ** application/services/normative_methods/ieee_c57_104.py *)

Module ieee_c57_104.

Definition METHOD_NAME : string := "IEEE C57.104-2019".

Definition _GAS_LIMITS : list (string * (Q * Q * Q)) :=
  [("h2", (100, 200, 500));
   ("ch4", (75, 125, 200));
   ("c2h6", (65, 100, 150));
   ("c2h4", (50, 100, 200));
   ("c2h2", (2, 10, 35));
   ("co", (350, 570, 1400));
   ("co2", (2500, 4000, 10000))]%string.

Definition _TDCG_LIMITS : Q * Q * Q := (720, 1920, 4630).

Definition _CONDITION_LABELS : list (Z * string) :=
  [(1, "Condicion 1: Funcionamiento normal");
   (2, "Condicion 2: Normal con gases por encima de valores tipicos");
   (3, "Condicion 3: Anormal, se requiere investigacion");
   (4, "Condicion 4: Peligrosa, se requiere accion inmediata")]%Z%string.

Definition _gas_condition (gas_name : string) (value : Q) : Z :=
  match dict_get _GAS_LIMITS gas_name with
  | None => 1
  | Some (l0, l1, l2) =>
      if Qle_bool value l0 then 1
      else if Qle_bool value l1 then 2
      else if Qle_bool value l2 then 3
      else 4
  end%Z.

Definition _tdcg_condition (tdcg : Q) : Z :=
  let '(l0, l1, l2) := _TDCG_LIMITS in
  (if Qle_bool tdcg l0 then 1
   else if Qle_bool tdcg l1 then 2
   else if Qle_bool tdcg l2 then 3
   else 4)%Z.

Definition _suggest_fault_type (reading : GasReading) : result FaultType :=
  r1 <- gas_ratios.ratio_ch4_h2 reading ;;
  r2 <- gas_ratios.ratio_c2h2_c2h4 reading ;;
  r3 <- gas_ratios.ratio_c2h4_c2h6 reading ;;
  if Qgt_bool (c2h2 reading) 10 then
    if Qgt_bool r2 2 then Ok D1 else Ok D2
  else if Qgt_bool r3 4 then Ok T3
  else if Qgt_bool r3 1 then Ok T2
  else if (Qgt_bool r1 1 && Qle_bool r3 1)%bool then Ok T1
  else if (Qgt_bool (h2 reading) 100 && Qlt_bool r1 (1 # 10))%bool then Ok PD
  else Ok S.

Fixpoint label_of (labels : list (Z * string)) (k : Z) : result string :=
  match labels with
  | [] => Raise (KeyError (str_of_int k))
  | (k', v) :: labels' => if Z.eqb k' k then Ok v else label_of labels' k
  end.

Definition diagnose (reading : GasReading) : result MethodResult :=
  let gas_values :=
    [("h2", h2 reading); ("ch4", ch4 reading); ("c2h6", c2h6 reading);
     ("c2h4", c2h4 reading); ("c2h2", c2h2 reading); ("co", co reading);
     ("co2", co2 reading)]%string in
  let individual_conditions :=
    map (fun gv => (fst gv, _gas_condition (fst gv) (snd gv))) gas_values in
  let tdcg := gas_ratios.total_combustible_gases reading in
  let tdcg_cond := _tdcg_condition tdcg in
  worst <- max_Z (map snd individual_conditions) ;;
  let overall := Z.max worst tdcg_cond in
  fault <- (if (overall <=? 2)%Z then Ok N else _suggest_fault_type reading) ;;
  description <- label_of _CONDITION_LABELS overall ;;
  Ok {| method_name := METHOD_NAME;
        fault_type := fault;
        description := description;
        details :=
          [("overall_condition", VInt overall);
           ("tdcg_ppm", VFloat (round tdcg 2));
           ("tdcg_condition", VInt tdcg_cond);
           ("individual_conditions", VIntDict individual_conditions)]%string
     |}.

End ieee_c57_104.

(** Ratio-code tables shared in shape by IEC 60599 and Rogers: a dictionary
    keyed by a triple of codes. *)
Fixpoint table_get (t : list ((Z * Z * Z) * (FaultType * string)))
  (key : Z * Z * Z) : option (FaultType * string) :=
  match t with
  | [] => None
  | ((a, b, c), v) :: t' =>
      let '(x, y, z) := key in
      if ((a =? x) && (b =? y) && (c =? z))%Z%bool then Some v
      else table_get t' key
  end.

Definition pattern_str (c1 c2 c5 : Z) : string :=
  ("(" ++ str_of_int c1 ++ ", " ++ str_of_int c2 ++ ", "
       ++ str_of_int c5 ++ ")")%string.

(** ** application/services/normative_methods/iec_60599.py *)

Module iec_60599.

Definition METHOD_NAME : string := "IEC 60599:2022".

Definition _code_r1 (ratio : Q) : Z :=
  (if Qlt_bool ratio (1 # 10) then 0
   else if Qle_bool ratio 1 then 1
   else 2)%Z.

Definition _code_r2 (ratio : Q) : Z :=
  (if Qlt_bool ratio (1 # 10) then 0
   else if Qle_bool ratio 1 then 1
   else 2)%Z.

Definition _code_r5 (ratio : Q) : Z :=
  (if Qlt_bool ratio 1 then 0
   else if Qle_bool ratio 3 then 1
   else 2)%Z.

Definition _DIAGNOSIS_TABLE : list ((Z * Z * Z) * (FaultType * string)) :=
  [((0, 0, 0), (PD, "Descargas parciales de baja energia"));
   ((1, 0, 0), (D1, "Descargas de baja energia (chispas)"));
   ((2, 0, 0), (D1, "Descargas de baja energia con C2H2 elevado"));
   ((1, 0, 1), (D2, "Descargas de alta energia"));
   ((1, 0, 2), (D2, "Descargas de alta energia severas"));
   ((2, 0, 1), (D2, "Descargas de alta energia con arco"));
   ((2, 0, 2), (D2, "Descargas de alta energia con arco severo"));
   ((0, 1, 0), (T1, "Falla termica baja temperatura (< 300 °C)"));
   ((0, 2, 0), (T1, "Falla termica baja temperatura (< 300 °C)"));
   ((0, 2, 1), (T2, "Falla termica media temperatura (300-700 °C)"));
   ((0, 1, 1), (T2, "Falla termica media temperatura (300-700 °C)"));
   ((0, 2, 2), (T3, "Falla termica alta temperatura (> 700 °C)"));
   ((0, 1, 2), (T3, "Falla termica alta temperatura (> 700 °C)"));
   ((1, 1, 0), (DT, "Mezcla de descarga y falla termica"));
   ((2, 1, 0), (DT, "Mezcla de descarga y falla termica"));
   ((1, 2, 0), (DT, "Mezcla de descarga y falla termica"));
   ((2, 2, 0), (DT, "Mezcla de descarga y falla termica"));
   ((1, 1, 1), (DT, "Mezcla de descarga y falla termica"));
   ((2, 1, 1), (DT, "Mezcla de descarga y falla termica"));
   ((1, 2, 1), (DT, "Mezcla de descarga y falla termica"));
   ((2, 2, 1), (DT, "Mezcla de descarga y falla termica"));
   ((1, 1, 2), (DT, "Mezcla de descarga y falla termica"));
   ((2, 1, 2), (DT, "Mezcla de descarga y falla termica"));
   ((1, 2, 2), (DT, "Mezcla de descarga y falla termica"));
   ((2, 2, 2), (DT, "Mezcla de descarga y falla termica"))]%Z%string.

Definition diagnose (reading : GasReading) : result MethodResult :=
  r1 <- gas_ratios.ratio_c2h2_c2h4 reading ;;
  r2 <- gas_ratios.ratio_ch4_h2 reading ;;
  r5 <- gas_ratios.ratio_c2h4_c2h6 reading ;;
  let c1 := _code_r1 r1 in
  let c2 := _code_r2 r2 in
  let c5 := _code_r5 r5 in
  let '(fault_type, description) :=
    match table_get _DIAGNOSIS_TABLE (c1, c2, c5) with
    | Some res => res
    | None => (N, "No se identifica un patron de falla definido"%string)
    end in
  Ok {| method_name := METHOD_NAME;
        fault_type := fault_type;
        description := description;
        details :=
          [("R1_C2H2_C2H4", VFloat (round r1 4));
           ("R2_CH4_H2", VFloat (round r2 4));
           ("R5_C2H4_C2H6", VFloat (round r5 4));
           ("code_R1", VInt c1);
           ("code_R2", VInt c2);
           ("code_R5", VInt c5);
           ("pattern", VStr (pattern_str c1 c2 c5))]%string
     |}.

End iec_60599.

(** ** application/services/normative_methods/rogers.py *)

Module rogers.

Definition METHOD_NAME : string := "Rogers".

Definition _code_r1 (ratio : Q) : Z :=
  (if Qlt_bool ratio (1 # 10) then 5
   else if Qle_bool ratio 1 then 0
   else if Qle_bool ratio 3 then 1
   else 2)%Z.

Definition _code_r2 (ratio : Q) : Z :=
  (if Qlt_bool ratio (1 # 10) then 0
   else if Qle_bool ratio 3 then 1
   else 2)%Z.

Definition _code_r5 (ratio : Q) : Z :=
  (if Qlt_bool ratio 1 then 0
   else if Qle_bool ratio 3 then 1
   else 2)%Z.

Definition _DIAGNOSIS_TABLE : list ((Z * Z * Z) * (FaultType * string)) :=
  [((0, 0, 0), (N, "Deterioro normal por envejecimiento"));
   ((5, 0, 0), (PD, "Descargas parciales de baja energia"));
   ((0, 1, 0), (D1, "Descargas de baja energia"));
   ((1, 1, 0), (D1, "Descargas de baja energia"));
   ((0, 2, 0), (D2, "Descargas de alta energia (arco)"));
   ((0, 1, 1), (D2, "Descargas de alta energia"));
   ((0, 1, 2), (D2, "Descargas de alta energia con calentamiento"));
   ((0, 2, 1), (D2, "Descargas de alta energia"));
   ((0, 2, 2), (D2, "Descargas de alta energia"));
   ((1, 0, 0), (T1, "Falla termica menor a 300 °C"));
   ((2, 0, 0), (T1, "Falla termica menor a 300 °C (CH4 alto)"));
   ((2, 0, 1), (T2, "Falla termica entre 300 y 700 °C"));
   ((1, 0, 1), (T2, "Falla termica entre 300 y 700 °C"));
   ((2, 0, 2), (T3, "Falla termica mayor a 700 °C"));
   ((1, 0, 2), (T3, "Falla termica mayor a 700 °C"))]%Z%string.

Definition diagnose (reading : GasReading) : result MethodResult :=
  r1 <- gas_ratios.ratio_ch4_h2 reading ;;
  r2 <- gas_ratios.ratio_c2h2_c2h4 reading ;;
  r5 <- gas_ratios.ratio_c2h4_c2h6 reading ;;
  let c1 := _code_r1 r1 in
  let c2 := _code_r2 r2 in
  let c5 := _code_r5 r5 in
  let '(fault_type, description) :=
    match table_get _DIAGNOSIS_TABLE (c1, c2, c5) with
    | Some res => res
    | None => (N, "Combinacion de codigos sin diagnostico definido"%string)
    end in
  Ok {| method_name := METHOD_NAME;
        fault_type := fault_type;
        description := description;
        details :=
          [("R1_CH4_H2", VFloat (round r1 4));
           ("R2_C2H2_C2H4", VFloat (round r2 4));
           ("R5_C2H4_C2H6", VFloat (round r5 4));
           ("code_R1", VInt c1);
           ("code_R2", VInt c2);
           ("code_R5", VInt c5);
           ("pattern", VStr (pattern_str c1 c2 c5))]%string
     |}.

End rogers.

(** ** application/services/normative_methods/dornenburg.py *)

Module dornenburg.

Definition METHOD_NAME : string := "Dornenburg".

Definition _L1_LIMITS : list (string * Q) :=
  [("h2", 100); ("ch4", 120); ("c2h2", 1);
   ("c2h4", 50); ("c2h6", 65); ("co", 350)]%string.

(** [any(gas_map[gas] > limit for gas, limit in limits.items())] *)
Fixpoint any_exceeds (gas_map limits : list (string * Q)) : result bool :=
  match limits with
  | [] => Ok false
  | (gas, limit) :: limits' =>
      match dict_get gas_map gas with
      | None => Raise (KeyError gas)
      | Some value =>
          if Qgt_bool value limit then Ok true
          else any_exceeds gas_map limits'
      end
  end.

Definition _exceeds_l1 (reading : GasReading) : result bool :=
  let gas_map :=
    [("h2", h2 reading); ("ch4", ch4 reading); ("c2h2", c2h2 reading);
     ("c2h4", c2h4 reading); ("c2h6", c2h6 reading);
     ("co", co reading)]%string in
  any_exceeds gas_map _L1_LIMITS.

Definition _classify (r1 r2 r3 r4 : Q) : FaultType * string :=
  (if (Qgt_bool r1 1 && Qlt_bool r2 (1 # 10))%bool then
     if Qgt_bool r4 (4 # 10)
     then (T2, "Falla termica (descomposicion de aceite)")
     else (T1, "Falla termica de baja temperatura")
   else if (Qlt_bool r1 (1 # 10) && Qlt_bool r2 (1 # 10))%bool then
     (PD, "Descargas parciales (efecto corona)")
   else if (Qgt_bool r2 (1 # 10) && Qgt_bool r3 (3 # 10))%bool then
     (D2, "Descargas de alta energia (arco electrico)")
   else if Qgt_bool r2 (1 # 10) then
     (D1, "Descargas de baja energia")
   else if Qgt_bool r1 1 then
     (T1, "Posible falla termica")
   else
     (N, "Sin patron de falla definido por Dornenburg"))%string.

Definition diagnose (reading : GasReading) : result MethodResult :=
  exceeds <- _exceeds_l1 reading ;;
  if negb exceeds then
    Ok {| method_name := METHOD_NAME;
          fault_type := N;
          description :=
            "Gases por debajo de limites L1; metodo no aplicable";
          details :=
            [("applicable", VBool false);
             ("l1_limits", VFloatDict _L1_LIMITS)]%string |}
  else
    r1 <- gas_ratios.ratio_ch4_h2 reading ;;
    r2 <- gas_ratios.ratio_c2h2_c2h4 reading ;;
    r3 <- gas_ratios.ratio_c2h2_ch4 reading ;;
    r4 <- gas_ratios.ratio_c2h6_c2h2 reading ;;
    let '(fault_type, description) := _classify r1 r2 r3 r4 in
    Ok {| method_name := METHOD_NAME;
          fault_type := fault_type;
          description := description;
          details :=
            [("applicable", VBool true);
             ("R1_CH4_H2", VFloat (round r1 4));
             ("R2_C2H2_C2H4", VFloat (round r2 4));
             ("R3_C2H2_CH4", VFloat (round r3 4));
             ("R4_C2H6_C2H2", VFloat (round r4 4))]%string |}.

End dornenburg.

(** ** application/services/normative_methods/duval_triangle.py *)

Module duval_triangle.

Definition METHOD_NAME : string := "Triangulo de Duval 1".

Definition _classify_zone (pct_ch4 pct_c2h4 pct_c2h2 : Q)
  : FaultType * string :=
  (if Qgt_bool pct_c2h2 13 then
     if Qlt_bool pct_c2h4 23 then (D1, "Descargas de baja energia")
     else if Qgt_bool pct_c2h2 29 then (D2, "Descargas de alta energia")
     else (D2, "Descargas de alta energia")
   else if Qle_bool pct_c2h2 4 then
     if Qlt_bool pct_c2h4 20 then
       if Qgt_bool pct_ch4 98 then (PD, "Descargas parciales")
       else (T1, "Falla termica < 300 °C")
     else if Qlt_bool pct_c2h4 50 then (T2, "Falla termica 300-700 °C")
     else (T3, "Falla termica > 700 °C")
   else if Qlt_bool pct_c2h4 23 then (D1, "Descargas de baja energia")
   else (DT, "Mezcla de falla termica y electrica"))%string.

Definition diagnose (reading : GasReading) : result MethodResult :=
  '(pct_ch4, pct_c2h4, pct_c2h2) <-
    gas_ratios.duval_triangle_percentages reading ;;
  if (Qeq_bool pct_ch4 0 && Qeq_bool pct_c2h4 0 && Qeq_bool pct_c2h2 0)%bool
  then
    Ok {| method_name := METHOD_NAME;
          fault_type := N;
          description := "Gases insuficientes para aplicar el triangulo";
          details :=
            [("applicable", VBool false);
             ("pct_CH4", VFloat 0); ("pct_C2H4", VFloat 0);
             ("pct_C2H2", VFloat 0)]%string |}
  else
    let '(fault_type, description) :=
      _classify_zone pct_ch4 pct_c2h4 pct_c2h2 in
    Ok {| method_name := METHOD_NAME;
          fault_type := fault_type;
          description := description;
          details :=
            [("applicable", VBool true);
             ("pct_CH4", VFloat (round pct_ch4 2));
             ("pct_C2H4", VFloat (round pct_c2h4 2));
             ("pct_C2H2", VFloat (round pct_c2h2 2))]%string |}.

End duval_triangle.

(** ** application/services/normative_methods/duval_pentagon.py *)

Module duval_pentagon.

Definition METHOD_NAME : string := "Pentagono de Duval 1".

Definition _classify_zone (pct_h2 pct_ch4 pct_c2h6 pct_c2h4 pct_c2h2 : Q)
  : FaultType * string :=
  (if (Qgt_bool pct_h2 60 && Qlt_bool pct_c2h2 5
       && Qlt_bool pct_c2h4 10)%bool then
     (PD, "Descargas parciales (predomina H2)")
   else if Qgt_bool pct_c2h2 15 then
     if Qgt_bool pct_c2h4 25 then (D2, "Descargas de alta energia")
     else (D1, "Descargas de baja energia")
   else if Qgt_bool pct_c2h2 5 then
     if Qgt_bool pct_c2h4 30 then (D2, "Descargas de alta energia (arco)")
     else if Qgt_bool pct_h2 30 then (D1, "Descargas de baja energia")
     else (DT, "Mezcla de descarga y falla termica")
   else if Qgt_bool pct_c2h4 50 then (T3, "Falla termica > 700 °C")
   else if Qgt_bool pct_c2h4 25 then
     if Qgt_bool pct_c2h6 20 then (T2, "Falla termica 300-700 °C")
     else (T3, "Falla termica > 700 °C")
   else if Qgt_bool pct_c2h4 10 then
     if Qgt_bool pct_c2h6 30 then (S, "Sobrecalentamiento")
     else (T2, "Falla termica 300-700 °C")
   else if Qgt_bool pct_ch4 40 then
     if Qgt_bool pct_c2h6 20
     then (S, "Sobrecalentamiento (aceite/celulosa)")
     else (T1, "Falla termica < 300 °C")
   else if Qgt_bool pct_c2h6 40 then (S, "Sobrecalentamiento")
   else if Qgt_bool pct_h2 40 then (PD, "Descargas parciales")
   else (T1, "Falla termica de baja temperatura"))%string.

Definition diagnose (reading : GasReading) : result MethodResult :=
  '(pct_h2, pct_ch4, pct_c2h6, pct_c2h4, pct_c2h2) <-
    gas_ratios.duval_pentagon_percentages reading ;;
  if (Qeq_bool pct_h2 0 && Qeq_bool pct_ch4 0 && Qeq_bool pct_c2h6 0)%bool
  then
    Ok {| method_name := METHOD_NAME;
          fault_type := N;
          description := "Gases insuficientes para aplicar el pentagono";
          details :=
            [("applicable", VBool false);
             ("pct_H2", VFloat 0); ("pct_CH4", VFloat 0);
             ("pct_C2H6", VFloat 0); ("pct_C2H4", VFloat 0);
             ("pct_C2H2", VFloat 0)]%string |}
  else
    let '(fault_type, description) :=
      _classify_zone pct_h2 pct_ch4 pct_c2h6 pct_c2h4 pct_c2h2 in
    Ok {| method_name := METHOD_NAME;
          fault_type := fault_type;
          description := description;
          details :=
            [("applicable", VBool true);
             ("pct_H2", VFloat (round pct_h2 2));
             ("pct_CH4", VFloat (round pct_ch4 2));
             ("pct_C2H6", VFloat (round pct_c2h6 2));
             ("pct_C2H4", VFloat (round pct_c2h4 2));
             ("pct_C2H2", VFloat (round pct_c2h2 2))]%string |}.

End duval_pentagon.

(** ** application/services/normative_diagnosis_service.py *)

Module normative_diagnosis_service.

Record NormativeDiagnosisResult : Type := mkNormativeDiagnosisResult {
  results : list MethodResult;
  consensus_fault : FaultType;
  vote_counts : list (string * Z);
  agreement_pct : Q
}.

Definition _METHODS : list (GasReading -> result MethodResult) :=
  [ieee_c57_104.diagnose;
   iec_60599.diagnose;
   rogers.diagnose;
   dornenburg.diagnose;
   duval_triangle.diagnose;
   duval_pentagon.diagnose].

(** [collections.Counter]: a dictionary from element to count, in order of
    first insertion. *)
Fixpoint counter_incr (f : FaultType) (c : list (FaultType * Z))
  : list (FaultType * Z) :=
  match c with
  | [] => [(f, 1%Z)]
  | (g, n) :: c' =>
      if FaultType_eqb g f then (g, (n + 1)%Z) :: c'
      else (g, n) :: counter_incr f c'
  end.

Definition Counter (votes : list FaultType) : list (FaultType * Z) :=
  fold_left (fun c f => counter_incr f c) votes [].

(** [max(items, key=itemgetter(1))]: the first item of greatest count. *)
Fixpoint max_by_count (best : FaultType * Z) (items : list (FaultType * Z))
  : FaultType * Z :=
  match items with
  | [] => best
  | it :: items' =>
      if (snd best <? snd it)%Z then max_by_count it items'
      else max_by_count best items'
  end.

(** [counter.most_common(1)]: [heapq.nlargest(1, items, key)], which for
    one element is [max] over the items in dictionary order. *)
Definition most_common_1 (c : list (FaultType * Z))
  : list (FaultType * Z) :=
  match c with
  | [] => []
  | it :: c' => [max_by_count it c']
  end.

(** [xs[0]] *)
Definition head_item {A : Type} (xs : list A) : result A :=
  match xs with
  | [] => Raise IndexError
  | x :: _ => Ok x
  end.

Definition _compute_consensus (results : list MethodResult)
  : result (FaultType * list (string * Z) * Q) :=
  let votes := map fault_type results in
  let counter := Counter votes in
  let total := Z.of_nat (List.length votes) in
  '(most_common_fault, most_common_count) <-
    head_item (most_common_1 counter) ;;
  let vote_dict :=
    fold_left (fun d it => dict_set d (name (fst it)) (snd it)) counter [] in
  agreement <-
    (if (total >? 0)%Z
     then q <- truediv (inject_Z most_common_count) (inject_Z total) ;;
          Ok (q * 100)
     else Ok 0) ;;
  Ok (most_common_fault, vote_dict, round agreement 1).

Definition diagnose_all (reading : GasReading)
  : result NormativeDiagnosisResult :=
  results <- mapM (fun method => method reading) _METHODS ;;
  '(consensus, counts, pct) <- _compute_consensus results ;;
  Ok {| results := results;
        consensus_fault := consensus;
        vote_counts := counts;
        agreement_pct := pct |}.

Fixpoint find_method (methods : list (GasReading -> result MethodResult))
  (reading : GasReading) (method_name' : string)
  : result (option MethodResult) :=
  match methods with
  | [] => Ok None
  | method :: methods' =>
      res <- method reading ;;
      if String.eqb (lower (method_name res)) (lower method_name')
      then Ok (Some res)
      else find_method methods' reading method_name'
  end.

Definition diagnose_single (reading : GasReading) (method_name' : string)
  : result (option MethodResult) :=
  find_method _METHODS reading method_name'.

Definition available_methods : list string :=
  [ieee_c57_104.METHOD_NAME;
   iec_60599.METHOD_NAME;
   rogers.METHOD_NAME;
   dornenburg.METHOD_NAME;
   duval_triangle.METHOD_NAME;
   duval_pentagon.METHOD_NAME].

End normative_diagnosis_service.

(** ** Floats that may be NaN, and [list.sort] *)

Module pyfloat.

(** A float that is a number or [nan].  [cross_val_score] is called
    without [error_score], whose default is [np.nan]: a fold whose fit or
    scoring fails is reported as [nan], and so is the mean of its scores. *)
Inductive float : Type :=
| Num (q : Q)
| NaN.

(** [x < y]: false as soon as one side is [nan]. *)
Definition lt (x y : float) : bool :=
  match x, y with
  | Num p, Num q => Qlt_bool p q
  | _, _ => false
  end.

(** [round(x, ndigits)]: [nan] stays [nan]. *)
Definition round (x : float) (ndigits : nat) : float :=
  match x with
  | Num q => Num (Py.round q ndigits)
  | NaN => NaN
  end.

End pyfloat.

Module pylist.

Section Sort.

Variable A : Type.

(** [key(x) < key(y)], the only comparison [list.sort] makes. *)
Variable lt : A -> A -> bool.

(** The insertion of [pivot] into the slice [s] the way CPython's
    [binarysort] finds its place: probe the middle element, go left when
    the pivot is smaller and right otherwise.  The slice at least halves
    at each probe, so [length s] probes are enough. *)
Fixpoint binary_insert (fuel : nat) (pivot : A) (s : list A) : list A :=
  match fuel with
  | O => pivot :: s
  | Datatypes.S fuel' =>
      match s with
      | [] => [pivot]
      | _ :: _ =>
          let p := Nat.div (List.length s) 2 in
          match nth_error s p with
          | Some x =>
              if lt pivot x
              then binary_insert fuel' pivot (firstn p s) ++ skipn p s
              else firstn (Datatypes.S p) s
                   ++ binary_insert fuel' pivot (skipn (Datatypes.S p) s)
          | None => pivot :: s
          end
      end
  end.

(** [count_run]: the longest run the list starts with, either ascending
    (no element smaller than the one before it) or strictly descending. *)
Fixpoint ascending_run (prev : A) (l : list A) : list A * list A :=
  match l with
  | [] => ([], [])
  | x :: l' =>
      if lt x prev then ([], l)
      else let (run, rest) := ascending_run x l' in (x :: run, rest)
  end.

Fixpoint descending_run (prev : A) (l : list A) : list A * list A :=
  match l with
  | [] => ([], [])
  | x :: l' =>
      if lt x prev
      then let (run, rest) := descending_run x l' in (x :: run, rest)
      else ([], l)
  end.

(** The first run, a descending one reversed in place, and what follows. *)
Definition count_run (l : list A) : list A * list A :=
  match l with
  | [] => ([], [])
  | [a] => ([a], [])
  | a :: b :: l' =>
      if lt b a
      then let (run, rest) := descending_run b l' in
           (rev (a :: b :: run), rest)
      else let (run, rest) := ascending_run b l' in
           (a :: b :: run, rest)
  end.

(** [binarysort]: the elements after the run are inserted one by one. *)
Definition binarysort (run rest : list A) : list A :=
  fold_left (fun sorted pivot =>
               binary_insert (List.length sorted) pivot sorted)
            rest run.

(** [l.sort(key=..., reverse=...)] as CPython runs it on a list shorter
    than 64 elements (the trainer sorts four): a reverse sort reverses the
    list, sorts it forward and reverses the result; the forward sort
    extends the first run to the whole list by binary insertion. *)
Definition sort (reverse : bool) (l : list A) : list A :=
  let l := if reverse then rev l else l in
  let (run, rest) := count_run l in
  let sorted := binarysort run rest in
  if reverse then rev sorted else sorted.

End Sort.

End pylist.

(** ** Arithmetic in binary64, where integers are divided *)

Module binary64.

(** [2 ** e] *)
Definition pow2 (e : Z) : Q :=
  match e with
  | Z0 => 1
  | Zpos p => inject_Z (Z.pow 2 (Zpos p))
  | Zneg p => 1 / inject_Z (Z.pow 2 (Zpos p))
  end.

(** The binary exponent of a positive number: the greatest [e] with
    [2 ** e <= q]. *)
Definition exponent (q : Q) : Z :=
  let k := (Z.log2 (Qnum q) - Z.log2 (Zpos (Qden q)))%Z in
  if Qle_bool (pow2 k) q then k else (k - 1)%Z.

(** The float nearest to a real number: 53 significant bits, ties to
    even.  Overflow and subnormal numbers are left out; the values
    rounded here lie between 0 and 100. *)
Definition nearest (q : Q) : Q :=
  if Qeq_bool q 0 then 0
  else
    let a := Qabs q in
    let e := (exponent a - 52)%Z in
    let r := inject_Z (round_half_even (a / pow2 e)) * pow2 e in
    if Qlt_bool q 0 then - r else r.

(** [a / b] on two [int], [x * y] on two floats, and [round(x, ndigits)]
    on a float: each is the exact result, rounded to the nearest float. *)
Definition int_truediv (a b : Z) : result Q :=
  if (b =? 0)%Z then Raise ZeroDivisionError
  else Ok (nearest (inject_Z a / inject_Z b)).

Definition mul (x y : Q) : Q := nearest (x * y).

Definition round (x : Q) (ndigits : nat) : Q := nearest (Py.round x ndigits).

End binary64.

(** ** numpy and scikit-learn: the part of their interface the engine uses *)

Module np.

(** [np.unique(y)]: the sorted distinct values. *)
Fixpoint insert_unique (v : Z) (s : list Z) : list Z :=
  match s with
  | [] => [v]
  | x :: s' =>
      if (v <? x)%Z then v :: s
      else if (v =? x)%Z then s
      else x :: insert_unique v s'
  end.

Definition unique (y : list Z) : list Z := fold_right insert_unique [] y.

Definition count (v : Z) (y : list Z) : Z :=
  Z.of_nat (count_occ Z.eq_dec y v).

(** [np.bincount(y)]: entry [i] counts the occurrences of [i], for [i] up
    to the largest value; a negative value raises. *)
Definition bincount (y : list Z) : result (list Z) :=
  if existsb (fun v => (v <? 0)%Z) y
  then Raise (ValueError "'list' argument must have no negative elements")
  else
    let size :=
      match y with
      | [] => O
      | v :: y' => Datatypes.S (Z.to_nat (fold_left Z.max y' v))
      end in
    Ok (map (fun i => count (Z.of_nat i) y) (seq 0 size)).

(** [a[idx]] with an array of indices. *)
Definition take (a : list Z) (idx : list Z) : result (list Z) :=
  mapM (fun i =>
          match nth_error a (Z.to_nat i) with
          | Some v => Ok v
          | None => Raise IndexError
          end) idx.

End np.

Module sklearn.

Inductive Estimator : Type :=
| StandardScaler
| RandomForestClassifier (n_estimators : Z) (max_depth : option Z)
    (min_samples_split min_samples_leaf random_state n_jobs : Z)
| SVC (kernel : string) (C : Q) (gamma : string) (random_state : Z)
    (probability : bool)
| KNeighborsClassifier (n_neighbors : Z) (weights metric : string)
    (n_jobs : Z)
| MLPClassifier (hidden_layer_sizes : list Z) (activation solver : string)
    (max_iter random_state : Z) (early_stopping : bool)
    (validation_fraction : Q).

(** An unfitted pipeline: its named steps. *)
Definition Pipeline : Type := list (string * Estimator).

Record StratifiedKFold : Type := mkStratifiedKFold {
  n_splits : Z;
  shuffle : bool;
  random_state : Z
}.

(** Calls into the library, in the order they are made. *)
Inductive Event : Type :=
| CrossValScore (pipeline : Pipeline) (cv : StratifiedKFold)
| CrossValPredict (pipeline : Pipeline) (cv : StratifiedKFold)
| Fit (pipeline : Pipeline).

Definition Trace : Type := list Event.

(** Computations that call the library: the trace is threaded through and
    kept when an exception propagates. *)
Definition traced (A : Type) : Type := Trace -> result A * Trace.

Definition tret {A : Type} (a : A) : traced A := fun t => (Ok a, t).

Definition traise {A : Type} (e : exn) : traced A := fun t => (Raise e, t).

Definition tbind {A B : Type} (c : traced A) (k : A -> traced B)
  : traced B :=
  fun t =>
    match c t with
    | (Ok a, t') => k a t'
    | (Raise e, t') => (Raise e, t')
    end.

Definition lift {A : Type} (r : result A) : traced A := fun t => (r, t).

(** A library call: recorded, then answered by the oracle. *)
Definition call {A : Type} (ev : Event) (answer : result A) : traced A :=
  fun t => (answer, t ++ [ev]).

(** The fold count a trace entry was run with. *)
Definition splits_of (ev : Event) : option Z :=
  match ev with
  | CrossValScore _ cv => Some (n_splits cv)
  | CrossValPredict _ cv => Some (n_splits cv)
  | Fit _ => None
  end.

End sklearn.

Import sklearn.

Declare Scope traced_scope.
Delimit Scope traced_scope with traced.
Notation "x <~ c ;; k" := (tbind c (fun x => k))
  (at level 61, c at next level, right associativity) : traced_scope.
Local Open Scope traced_scope.

(** ** The exceptions of the AI layer, paths and integer-keyed dictionaries *)

Module errors.

(** A [pathlib.Path], as its components. *)
Definition Path : Type := list string.

Definition path_eqb (a b : Path) : bool :=
  if list_eq_dec string_dec a b then true else false.

(** The exceptions of the core, and the ones the AI layer adds. *)
Inductive error : Type :=
| Builtin (e : exn)
| AttributeError (msg : string)
| RuntimeError (msg : string)
| FileNotFoundError (path : Path)
| OSError (msg : string)
| EOFError.

Inductive outcome (A : Type) : Type :=
| Return (a : A)
| Throw (e : error).

Arguments Return {A} a.
Arguments Throw {A} e.

Definition of_result {A : Type} (r : result A) : outcome A :=
  match r with
  | Ok a => Return a
  | Raise e => Throw (Builtin e)
  end.

Definition obind {A B : Type} (c : outcome A) (k : A -> outcome B)
  : outcome B :=
  match c with
  | Return a => k a
  | Throw e => Throw e
  end.

Fixpoint omapM {A B : Type} (f : A -> outcome B) (l : list A)
  : outcome (list B) :=
  match l with
  | [] => Return []
  | x :: l' =>
      obind (f x) (fun y => obind (omapM f l') (fun ys => Return (y :: ys)))
  end.

(** [xs[0]] *)
Definition first {A : Type} (xs : list A) : outcome A :=
  match xs with
  | [] => Throw (Builtin IndexError)
  | x :: _ => Return x
  end.

(** [enumerate(xs)] *)
Fixpoint enumerate_from {A : Type} (i : Z) (xs : list A) : list (Z * A) :=
  match xs with
  | [] => []
  | x :: xs' => (i, x) :: enumerate_from (i + 1) xs'
  end.

Definition enumerate {A : Type} (xs : list A) : list (Z * A) :=
  enumerate_from 0 xs.

(** Dictionaries keyed by [int]. *)
Fixpoint int_dict_get {V : Type} (d : list (Z * V)) (k : Z) : option V :=
  match d with
  | [] => None
  | (k', v) :: d' => if (k' =? k)%Z then Some v else int_dict_get d' k
  end.

Fixpoint int_dict_set {V : Type} (d : list (Z * V)) (k : Z) (v : V)
  : list (Z * V) :=
  match d with
  | [] => [(k, v)]
  | (k', v') :: d' =>
      if (k' =? k)%Z then (k', v) :: d' else (k', v') :: int_dict_set d' k v
  end.

(** Dictionaries keyed by [FaultType]. *)
Fixpoint fault_dict_set {V : Type} (d : list (FaultType * V))
  (k : FaultType) (v : V) : list (FaultType * V) :=
  match d with
  | [] => [(k, v)]
  | (k', v') :: d' =>
      if FaultType_eqb k' k then (k', v) :: d'
      else (k', v') :: fault_dict_set d' k v
  end.

(** The files of the model directory: location to content. *)
Fixpoint fs_get {V : Type} (files : list (Path * V)) (p : Path) : option V :=
  match files with
  | [] => None
  | (p', v) :: files' => if path_eqb p' p then Some v else fs_get files' p
  end.

Fixpoint fs_set {V : Type} (files : list (Path * V)) (p : Path) (v : V)
  : list (Path * V) :=
  match files with
  | [] => [(p, v)]
  | (p', v') :: files' =>
      if path_eqb p' p then (p', v) :: files'
      else (p', v') :: fs_set files' p v
  end.

(** [p.exists()]: a file is found at the location the path resolves to. *)
Definition path_exists {V : Type} (resolve : Path -> Path)
  (files : list (Path * V)) (p : Path) : bool :=
  match fs_get files (resolve p) with
  | Some _ => true
  | None => false
  end.

(** [p.parent] *)
Definition parent (p : Path) : Path := removelast p.

End errors.

Import errors.

Notation "x <<- c ;; k" := (obind c (fun x => k))
  (at level 61, c at next level, right associativity) : py_scope.
Notation "' pat <<- c ;; k" :=
  (obind c (fun x => match x with pat => k end))
  (at level 61, pat pattern, c at next level, right associativity)
  : py_scope.

(** ** domain/models/sample.py *)

Module sample.

(** The fields of a sample; dates are day numbers.  The validation of the
    constructor (code, transformer id, date against today) is outside the
    diagnostic core and is not modelled. *)
Record Sample : Type := mkSample {
  sample_code : string;
  transformer_id : Z;
  extraction_date : Z;
  gas_reading : GasReading;
  diagnosis_date : Z;
  id : option Z
}.

End sample.

(** [NormativeDiagnosisService()] has no fields. *)
Inductive NormativeDiagnosisService : Type := StatelessService.

(** ** application/services/ai_engine/data_preparation.py (constants) *)

Module data_preparation.

Definition all_fault_types : list FaultType :=
  [N; PD; D1; D2; T1; T2; T3; DT; S].

Definition FAULT_LABELS : list string := map name all_fault_types.

Definition FEATURE_NAMES : list string :=
  ["h2"; "ch4"; "c2h6"; "c2h4"; "c2h2"; "co"; "co2"; "o2"; "n2"]%string.

(** [{name: i for i, name in enumerate(FAULT_LABELS)}] *)
Definition FAULT_TO_INDEX : list (string * Z) :=
  fold_left (fun d p => dict_set d (snd p) (fst p))
            (enumerate FAULT_LABELS) [].

(** [{i: ft for i, ft in enumerate(FaultType)}] *)
Definition INDEX_TO_FAULT : list (Z * FaultType) :=
  fold_left (fun d p => int_dict_set d (fst p) (snd p))
            (enumerate all_fault_types) [].

Record PreparedDataset : Type := mkPreparedDataset {
  X : list (list Q);
  y : list Z;
  fault_labels : list string;
  feature_names : list string;
  sample_ids : list (option Z)
}.

(** [getattr(reading, name)] *)
Definition getattr (reading : GasReading) (field_name : string)
  : outcome Q :=
  match dict_get (gas_fields reading) field_name with
  | Some value => Return value
  | None =>
      Throw (AttributeError
               ("'GasReading' object has no attribute '" ++ field_name
                ++ "'"))
  end.

Definition extract_features (reading : GasReading) : outcome (list Q) :=
  omapM (getattr reading) FEATURE_NAMES.

Definition auto_label (reading : GasReading)
  (diagnosis_service : NormativeDiagnosisService) : outcome string :=
  res <<- of_result (normative_diagnosis_service.diagnose_all reading) ;;
  Return (name (normative_diagnosis_service.consensus_fault res)).

(** The [for sample in samples] loop: features, labels and ids. *)
Fixpoint collect (samples : list sample.Sample)
  (diagnosis_service : option NormativeDiagnosisService)
  : outcome (list (list Q) * list string * list (option Z)) :=
  match samples with
  | [] => Return ([], [], [])
  | s :: rest =>
      features <<- extract_features (sample.gas_reading s) ;;
      label <<- match diagnosis_service with
                | Some service => auto_label (sample.gas_reading s) service
                | None => Return (name N)
                end ;;
      '(fs, ls, ids) <<- collect rest diagnosis_service ;;
      Return (features :: fs, label :: ls, sample.id s :: ids)
  end.

(** [FAULT_TO_INDEX[lbl]] *)
Definition fault_to_index (lbl : string) : outcome Z :=
  match dict_get FAULT_TO_INDEX lbl with
  | Some i => Return i
  | None => Throw (Builtin (KeyError lbl))
  end.

Definition prepare_dataset (samples : list sample.Sample)
  (diagnosis_service : option NormativeDiagnosisService)
  : outcome PreparedDataset :=
  match samples with
  | [] =>
      Return {| X := []; y := []; fault_labels := [];
                feature_names := FEATURE_NAMES; sample_ids := [] |}
  | _ :: _ =>
      '(features, labels, ids) <<- collect samples diagnosis_service ;;
      y <<- omapM fault_to_index labels ;;
      Return {| X := features; y := y; fault_labels := labels;
                feature_names := FEATURE_NAMES; sample_ids := ids |}
  end.

End data_preparation.

(** ** application/services/ai_engine/model_trainer.py *)

Module model_trainer.

Section Trainer.

(** A fitted pipeline, and the library's answers.  The scores of the
    folds, their mean and their deviation may be [nan]. *)
Variable FittedPipeline : Type.
Variable cross_val_score :
  Pipeline -> list (list Q) -> list Z -> StratifiedKFold
  -> result (list pyfloat.float).
Variable fit :
  Pipeline -> list (list Q) -> list Z -> result FittedPipeline.
Variable np_mean : list pyfloat.float -> pyfloat.float.
Variable np_std : list pyfloat.float -> pyfloat.float.

Record TrainedModel : Type := mkTrainedModel {
  name : string;
  pipeline : FittedPipeline;
  cv_accuracy : pyfloat.float;
  cv_std : pyfloat.float;
  cv_scores : list pyfloat.float
}.

Record TrainingResult : Type := mkTrainingResult {
  models : list TrainedModel;
  best_model : TrainedModel;
  feature_names : list string;
  label_names : list string;
  n_samples : Z;
  n_classes : Z
}.

Definition _build_pipelines : list (string * Pipeline) :=
  [("Random Forest",
    [("scaler", StandardScaler);
     ("clf", RandomForestClassifier 200 None 3 1 42 (-1))]);
   ("SVM",
    [("scaler", StandardScaler);
     ("clf", SVC "rbf" 10 "scale" 42 true)]);
   ("KNN",
    [("scaler", StandardScaler);
     ("clf", KNeighborsClassifier 5 "distance" "euclidean" (-1))]);
   ("MLP",
    [("scaler", StandardScaler);
     ("clf", MLPClassifier [64; 32] "relu" "adam" 500 42 true (15 # 100))])
  ]%Z%string.

(** The comparison of [trained.sort(key=lambda m: m.cv_accuracy, ...)]. *)
Definition accuracy_lt (a b : TrainedModel) : bool :=
  pyfloat.lt (cv_accuracy a) (cv_accuracy b).

(** The body of the [for name, pipeline in _build_pipelines()] loop. *)
Fixpoint train_each (pipelines : list (string * Pipeline))
  (X : list (list Q)) (y : list Z) (cv : StratifiedKFold)
  : traced (list TrainedModel) :=
  match pipelines with
  | [] => tret []
  | (name, pipeline) :: rest =>
      scores <~ call (CrossValScore pipeline cv)
                     (cross_val_score pipeline X y cv) ;;
      fitted <~ call (Fit pipeline) (fit pipeline X y) ;;
      let model :=
        {| name := name;
           pipeline := fitted;
           cv_accuracy := pyfloat.round (np_mean scores) 4;
           cv_std := pyfloat.round (np_std scores) 4;
           cv_scores := map (fun s => pyfloat.round s 4) scores |} in
      trained <~ train_each rest X y cv ;;
      tret (model :: trained)
  end.

Definition sizing_message (n_folds n_samples : Z) : string :=
  ("Se necesitan al menos " ++ str_of_int n_folds ++ " muestras para "
   ++ "validacion cruzada con " ++ str_of_int n_folds ++ " folds. "
   ++ "Se tienen " ++ str_of_int n_samples ++ ".")%string.

Definition class_count_message (n_classes : Z) : string :=
  ("Se necesitan al menos 2 clases distintas para entrenar. "
   ++ "Se encontro solo " ++ str_of_int n_classes ++ " clase.")%string.

Definition train_all (_n_folds : Z) (X : list (list Q)) (y : list Z)
  : traced TrainingResult :=
  let n_samples := Z.of_nat (List.length X) in
  let unique_classes := np.unique y in
  let n_classes := Z.of_nat (List.length unique_classes) in
  if (n_samples <? _n_folds)%Z then
    traise (ValueError (sizing_message _n_folds n_samples))
  else if (n_classes <? 2)%Z then
    traise (ValueError (class_count_message n_classes))
  else
    counts <~ lift (np.bincount y) ;;
    class_counts <~ lift (np.take counts unique_classes) ;;
    min_class_count <~ lift (min_Z class_counts) ;;
    let effective_folds := Z.min _n_folds min_class_count in
    let effective_folds :=
      if (effective_folds <? 2)%Z then 2%Z else effective_folds in
    let cv := {| n_splits := effective_folds;
                 shuffle := true;
                 random_state := 42 |} in
    trained <~ train_each _build_pipelines X y cv ;;
    let trained := pylist.sort accuracy_lt true trained in
    best <~ lift (normative_diagnosis_service.head_item trained) ;;
    tret {| models := trained;
            best_model := best;
            feature_names := data_preparation.FEATURE_NAMES;
            label_names := data_preparation.FAULT_LABELS;
            n_samples := n_samples;
            n_classes := n_classes |}.

End Trainer.

End model_trainer.

(** ** application/services/ai_engine/model_evaluator.py *)

Module model_evaluator.

Section Evaluator.

(** The library's out-of-fold predictions, and the metrics computed from
    them by [sklearn.metrics]. *)
Variable EvaluationResult : Type.
Variable cross_val_predict :
  Pipeline -> list (list Q) -> list Z -> StratifiedKFold -> result (list Z).
Variable metrics :
  string -> list Z -> list Z -> list Z -> result EvaluationResult.

Definition evaluate (_n_folds : Z) (model_name : string)
  (pipeline : Pipeline) (X : list (list Q)) (y : list Z)
  : traced EvaluationResult :=
  let unique_classes := np.unique y in
  counts <~ lift (np.bincount y) ;;
  class_counts <~ lift (np.take counts unique_classes) ;;
  min_class_count <~ lift (min_Z class_counts) ;;
  let effective_folds := Z.min _n_folds min_class_count in
  let effective_folds :=
    if (effective_folds <? 2)%Z then 2%Z else effective_folds in
  let cv := {| n_splits := effective_folds;
               shuffle := true;
               random_state := 42 |} in
  y_pred <~ call (CrossValPredict pipeline cv)
                 (cross_val_predict pipeline X y cv) ;;
  lift (metrics model_name y y_pred unique_classes).

End Evaluator.

End model_evaluator.

(** The number of samples of the least represented class of [y]. *)
Definition smallest_class_count (y : list Z) : Z :=
  match map (fun c => np.count c y) y with
  | [] => 0%Z
  | n :: ns => fold_left Z.min ns n
  end.

(** ** Vocabulary of the statements *)

(** Number of votes for [f]. *)
Definition cnt (votes : list FaultType) (f : FaultType) : Z :=
  Z.of_nat (count_occ FaultType_eq_dec votes f).

(** The distinct votes, in order of first appearance. *)
Definition first_seen (votes : list FaultType) : list FaultType :=
  fold_left (fun acc f => if in_dec FaultType_eq_dec f acc then acc
                          else acc ++ [f]) votes [].

(** [sum(d.values())] *)
Definition sum_Z (l : list Z) : Z := fold_right Z.add 0%Z l.

(** A counter entry in closed form. *)
Definition tally (votes : list FaultType) : FaultType -> FaultType * Z :=
  fun f => (f, cnt votes f).

(** The [applicable] flag of a result. *)
Definition applicable (res : MethodResult) : option DetailValue :=
  dict_get (details res) "applicable".

(** The zones of the Duval triangle. *)
Definition triangle_zones : list FaultType := [PD; D1; D2; T1; T2; T3; DT].

(** The zones returned by the pentagon rules. *)
Definition pentagon_zones : list FaultType :=
  [PD; D1; D2; T1; T2; T3; DT; S].



(** A model whose mean accuracy is a number. *)
Definition scored {FittedPipeline : Type}
  (m : model_trainer.TrainedModel FittedPipeline) : Prop :=
  model_trainer.cv_accuracy m <> pyfloat.NaN.

(** The mean accuracy as a rational ([nan] read as 0). *)
Definition accuracy_value {FittedPipeline : Type}
  (m : model_trainer.TrainedModel FittedPipeline) : Q :=
  match model_trainer.cv_accuracy m with
  | pyfloat.Num q => q
  | pyfloat.NaN => 0
  end.

(** Number of distinct labels in [y]. *)
Definition distinct_labels (y : list Z) : nat :=
  List.length (nodup Z.eq_dec y).

(** A field of a reading that is not negative. *)
Definition nonneg_field (kv : string * Q) : Prop := 0 <= snd kv.

(** Every gas within its IEEE Condition 2 limit, and TDCG too. *)
Definition within_condition_2 (r : GasReading) : Prop :=
  h2 r <= 200 /\ ch4 r <= 125 /\ c2h6 r <= 100 /\ c2h4 r <= 100
  /\ c2h2 r <= 10 /\ co r <= 570 /\ co2 r <= 4000
  /\ gas_ratios.total_combustible_gases r <= 1920.

(** No key gas above its Dornenburg L1 limit. *)
Definition within_l1 (r : GasReading) : Prop :=
  h2 r <= 100 /\ ch4 r <= 120 /\ c2h2 r <= 1
  /\ c2h4 r <= 50 /\ c2h6 r <= 65 /\ co r <= 350.

(** The seven ratio helpers of [gas_ratios]. *)
Definition ratio_functions : list (GasReading -> result Q) :=
  [gas_ratios.ratio_ch4_h2; gas_ratios.ratio_c2h2_c2h4;
   gas_ratios.ratio_c2h4_c2h6; gas_ratios.ratio_c2h6_ch4;
   gas_ratios.ratio_c2h6_c2h2; gas_ratios.ratio_c2h2_ch4;
   gas_ratios.ratio_co2_co].

(** A percentage. *)
Definition percentage (x : Q) : Prop := 0 <= x /\ x <= 100.

(** ** Sample readings (from the unit tests and the scenarios) *)

Definition PD_READING : GasReading :=
  {| h2 := 500; ch4 := 10; c2h6 := 2; c2h4 := 1; c2h2 := 0;
     co := 100; co2 := 2000; o2 := 18000; n2 := 55000 |}.

Definition NEGATIVE_CO_READING : GasReading :=
  {| h2 := 15; ch4 := 5; c2h6 := 3; c2h4 := 2; c2h2 := 0;
     co := -1; co2 := 1500; o2 := -2; n2 := 55000 |}.

Definition NORMAL_READING : GasReading :=
  {| h2 := 15; ch4 := 5; c2h6 := 3; c2h4 := 2; c2h2 := 0;
     co := 200; co2 := 1500; o2 := 20000; n2 := 55000 |}.

Definition ARCING_READING : GasReading :=
  {| h2 := 1500; ch4 := 200; c2h6 := 60; c2h4 := 400; c2h2 := 500;
     co := 0; co2 := 0; o2 := 0; n2 := 0 |}.

Definition ZERO_READING : GasReading :=
  {| h2 := 0; ch4 := 0; c2h6 := 0; c2h4 := 0; c2h2 := 0;
     co := 0; co2 := 0; o2 := 0; n2 := 0 |}.

(** Ethylene alone: the pentagon percentages are (0, 0, 0, 100, 0). *)
Definition ETHYLENE_ONLY : GasReading :=
  {| h2 := 0; ch4 := 0; c2h6 := 0; c2h4 := 10; c2h2 := 0;
     co := 0; co2 := 0; o2 := 0; n2 := 0 |}.

(** ** A sample training session: stand-ins for the library *)

Module sample_session.

Definition row (v : Q) : list Q := repeat v 9.

Definition X : list (list Q) := [row 1; row 2; row 3; row 4; row 5; row 6].

Definition y : list Z := [0; 0; 0; 4; 4; 4]%Z.

(** One sample of one class, as in [test_too_few_samples_raises]. *)
Definition X_single : list (list Q) := [[1; 2; 3; 4; 5; 6; 7; 8; 9]].

Definition y_single : list Z := [0%Z].

Definition score (p : Pipeline) : Q :=
  match dict_get p "clf" with
  | Some (RandomForestClassifier _ _ _ _ _ _) => 9 # 10
  | Some (SVC _ _ _ _ _) => 95 # 100
  | Some (KNeighborsClassifier _ _ _ _) => 8 # 10
  | _ => 95 # 100
  end.

Definition cross_val_score (p : Pipeline) (X : list (list Q)) (y : list Z)
  (cv : StratifiedKFold) : result (list pyfloat.float) :=
  Ok (repeat (pyfloat.Num (score p)) (Z.to_nat (n_splits cv))).


Definition cross_val_predict (p : Pipeline) (X : list (list Q))
  (y : list Z) (cv : StratifiedKFold) : result (list Z) :=
  Ok y.

Definition fit (p : Pipeline) (X : list (list Q)) (y : list Z)
  : result Pipeline :=
  Ok p.

(** [np.mean]: [nan] as soon as one score is [nan]. *)
Definition add (x y : pyfloat.float) : pyfloat.float :=
  match x, y with
  | pyfloat.Num p, pyfloat.Num q => pyfloat.Num (p + q)
  | _, _ => pyfloat.NaN
  end.

Definition mean (l : list pyfloat.float) : pyfloat.float :=
  match fold_right add (pyfloat.Num 0) l with
  | pyfloat.Num total =>
      pyfloat.Num (total / inject_Z (Z.of_nat (List.length l)))
  | pyfloat.NaN => pyfloat.NaN
  end.

Definition std (l : list pyfloat.float) : pyfloat.float :=
  match fold_right add (pyfloat.Num 0) l with
  | pyfloat.Num _ => pyfloat.Num 0
  | pyfloat.NaN => pyfloat.NaN
  end.

(** The metrics are reduced to the number of samples evaluated. *)
Definition metrics (model_name : string) (y y_pred classes : list Z)
  : result Z :=
  Ok (Z.of_nat (List.length y_pred)).

Definition train_all (n_folds : Z) (X : list (list Q)) (y : list Z)
  : traced (model_trainer.TrainingResult Pipeline) :=
  model_trainer.train_all cross_val_score fit mean std n_folds X y.

Definition evaluate (n_folds : Z) (p : Pipeline) (X : list (list Q))
  (y : list Z) : traced Z :=
  model_evaluator.evaluate cross_val_predict metrics n_folds "sample" p X y.


(** Labels that pass both checks of [train_all] although one is negative. *)
Definition y_negative : list Z := [-1; -1; -1; 0; 0; 0]%Z.

End sample_session.

(** ** model_trainer.py: persistence of a model *)

Module model_persistence.

Section Persistence.

Variable FittedPipeline : Type.

(** The content of a file. *)
Variable File : Type.

(** [Path.resolve()]: the location a path denotes, given by the file
    system.  The files are kept by location. *)
Variable resolve : Path -> Path.

(** joblib: the dump of a pipeline, and the loading of a file, which fails
    on a content that is not a dump it can read. *)
Variable joblib_dump : FittedPipeline -> File.
Variable joblib_load : File -> outcome FittedPipeline.

(** What the operating system answers: whether the directories can be
    made, and whether writing the destination fails, and then with which
    exception and leaving which truncated content (none when the file was
    not opened). *)
Variable mkdir : Path -> outcome unit.
Variable dump_fault : Path -> option (error * option File).

(** [save_model]: the files after the call and the resolved destination,
    or the exception of [mkdir] or of [joblib.dump]. *)
Definition save_model (model : model_trainer.TrainedModel FittedPipeline)
  (path : Path) (files : list (Path * File))
  : outcome Path * list (Path * File) :=
  let dest := path in
  match mkdir (parent dest) with
  | Throw e => (Throw e, files)
  | Return _ =>
      match dump_fault dest with
      | None =>
          (Return (resolve dest),
           fs_set files (resolve dest)
                  (joblib_dump (model_trainer.pipeline model)))
      | Some (e, None) => (Throw e, files)
      | Some (e, Some truncated) =>
          (Throw e, fs_set files (resolve dest) truncated)
      end
  end.

Definition load_model (path : Path) (files : list (Path * File))
  : outcome FittedPipeline :=
  let p := path in
  if negb (path_exists resolve files p) then Throw (FileNotFoundError p)
  else
    match fs_get files (resolve p) with
    | Some content => joblib_load content
    | None => Throw (FileNotFoundError p)
    end.

End Persistence.

End model_persistence.

(** ** application/services/ai_engine/fault_classifier.py *)

Module fault_classifier.

(** [INDEX_TO_FAULT[i]] *)
Definition index_to_fault (i : Z) : outcome FaultType :=
  match int_dict_get data_preparation.INDEX_TO_FAULT i with
  | Some ft => Return ft
  | None => Throw (Builtin (KeyError (str_of_int i)))
  end.

Section Classifier.

(** A fitted pipeline and what scikit-learn answers for it; the files and
    joblib as in [model_persistence]. *)
Variable FittedPipeline : Type.
Variable File : Type.
Variable predict : FittedPipeline -> list (list Q) -> outcome (list Z).
Variable has_predict_proba : FittedPipeline -> bool.
Variable predict_proba :
  FittedPipeline -> list (list Q) -> outcome (list (list Q)).
Variable classes_ : FittedPipeline -> outcome (list Z).
Variable resolve : Path -> Path.
Variable joblib_load : File -> outcome FittedPipeline.

Record FaultClassifier : Type := mkFaultClassifier {
  _pipeline : FittedPipeline
}.

Definition from_file (files : list (Path * File)) (path : Path)
  : outcome FaultClassifier :=
  let p := path in
  if negb (path_exists resolve files p) then Throw (FileNotFoundError p)
  else
    match fs_get files (resolve p) with
    | Some content =>
        pipeline <<- joblib_load content ;;
        Return (mkFaultClassifier pipeline)
    | None => Throw (FileNotFoundError p)
    end.

Definition _prepare_single (reading : GasReading)
  : outcome (list (list Q)) :=
  features <<- data_preparation.extract_features reading ;;
  Return [features].

Definition classify (self : FaultClassifier) (reading : GasReading)
  : outcome FaultType :=
  X <<- _prepare_single reading ;;
  preds <<- predict (_pipeline self) X ;;
  pred <<- first preds ;;
  index_to_fault pred.

(** The [for cls_idx, prob in zip(classes, probas)] loop. *)
Fixpoint fill_probabilities (pairs : list (Z * Q))
  (prob_dict : list (FaultType * Q)) : outcome (list (FaultType * Q)) :=
  match pairs with
  | [] => Return prob_dict
  | (cls_idx, prob) :: rest =>
      ft <<- index_to_fault cls_idx ;;
      fill_probabilities rest (fault_dict_set prob_dict ft (round prob 4))
  end.

Definition classify_with_probabilities (self : FaultClassifier)
  (reading : GasReading) : outcome (FaultType * list (FaultType * Q)) :=
  X <<- _prepare_single reading ;;
  preds <<- predict (_pipeline self) X ;;
  pred <<- first preds ;;
  fault <<- index_to_fault pred ;;
  if negb (has_predict_proba (_pipeline self)) then
    Throw (AttributeError
             ("El modelo no soporta predict_proba. "
              ++ "Use classify() en su lugar."))
  else
    rows <<- predict_proba (_pipeline self) X ;;
    probas <<- first rows ;;
    classes <<- classes_ (_pipeline self) ;;
    prob_dict <<- fill_probabilities (combine classes probas) [] ;;
    Return (fault, prob_dict).

Definition classify_batch (self : FaultClassifier)
  (readings : list GasReading) : outcome (list FaultType) :=
  match readings with
  | [] => Return []
  | _ :: _ =>
      features <<- omapM data_preparation.extract_features readings ;;
      preds <<- predict (_pipeline self) features ;;
      omapM index_to_fault preds
  end.

End Classifier.

End fault_classifier.

(** ** application/services/ai_engine/ai_service.py *)

Module ai_service.

Definition DEFAULT_MODEL_DIR : Path := ["models"%string].

Definition DEFAULT_MODEL_NAME : string := "best_model.joblib".

Section Service.

Variable FittedPipeline : Type.
Variable File : Type.
Variable predict : FittedPipeline -> list (list Q) -> outcome (list Z).
Variable has_predict_proba : FittedPipeline -> bool.
Variable predict_proba :
  FittedPipeline -> list (list Q) -> outcome (list (list Q)).
Variable classes_ : FittedPipeline -> outcome (list Z).
Variable cross_val_score :
  Pipeline -> list (list Q) -> list Z -> StratifiedKFold
  -> result (list pyfloat.float).
Variable fit :
  Pipeline -> list (list Q) -> list Z -> result FittedPipeline.
Variable np_mean : list pyfloat.float -> pyfloat.float.
Variable np_std : list pyfloat.float -> pyfloat.float.
Variable resolve : Path -> Path.
Variable joblib_dump : FittedPipeline -> File.
Variable joblib_load : File -> outcome FittedPipeline.
Variable mkdir : Path -> outcome unit.
Variable dump_fault : Path -> option (error * option File).

(** The service object; the repository is the list its [get_all()]
    returns. *)
Record AIService : Type := mkAIService {
  _sample_repo : list sample.Sample;
  _normative : NormativeDiagnosisService;
  _model_dir : Path;
  _n_folds : Z;
  _classifier : option (fault_classifier.FaultClassifier FittedPipeline)
}.

(** What the methods read and change: the service object, the files and
    the calls made to the library. *)
Record World : Type := mkWorld {
  service : AIService;
  files : list (Path * File);
  calls : Trace
}.

Definition M (A : Type) : Type := World -> outcome A * World.

Definition mret {A : Type} (a : A) : M A := fun w => (Return a, w).

Definition mbind {A B : Type} (c : M A) (k : A -> M B) : M B :=
  fun w =>
    match c w with
    | (Return a, w') => k a w'
    | (Throw e, w') => (Throw e, w')
    end.

Definition mlift {A : Type} (o : outcome A) : M A := fun w => (o, w).

(** [try: body except <handled>: handler] *)
Definition try_except {A : Type} (body : M A) (handled : error -> bool)
  (handler : M A) : M A :=
  fun w =>
    match body w with
    | (Return a, w') => (Return a, w')
    | (Throw e, w') => if handled e then handler w' else (Throw e, w')
    end.

Fixpoint mmapM {A B : Type} (f : A -> M B) (l : list A) : M (list B) :=
  match l with
  | [] => mret []
  | x :: l' =>
      mbind (f x) (fun y => mbind (mmapM f l') (fun ys => mret (y :: ys)))
  end.

(** [self._classifier = c] *)
Definition set_classifier
  (c : fault_classifier.FaultClassifier FittedPipeline) : M unit :=
  fun w =>
    (Return tt,
     {| service :=
          {| _sample_repo := _sample_repo (service w);
             _normative := _normative (service w);
             _model_dir := _model_dir (service w);
             _n_folds := _n_folds (service w);
             _classifier := Some c |};
        files := files w;
        calls := calls w |}).

Definition model_path : M Path :=
  fun w => (Return (_model_dir (service w) ++ [DEFAULT_MODEL_NAME]), w).

Definition has_model : M bool :=
  fun w =>
    match _classifier (service w) with
    | Some _ => (Return true, w)
    | None =>
        (Return (path_exists resolve (files w)
                   (_model_dir (service w) ++ [DEFAULT_MODEL_NAME])),
         w)
    end.

Definition load_model : M unit :=
  mbind model_path (fun path =>
  mbind (fun w =>
           (fault_classifier.from_file resolve joblib_load (files w) path,
            w))
        (fun c => set_classifier c)).

Definition _get_classifier
  : M (fault_classifier.FaultClassifier FittedPipeline) :=
  fun w =>
    match _classifier (service w) with
    | Some c => (Return c, w)
    | None =>
        let path := _model_dir (service w) ++ [DEFAULT_MODEL_NAME] in
        if path_exists resolve (files w) path then
          mbind (fun w =>
                   (fault_classifier.from_file resolve joblib_load
                      (files w) path,
                    w))
                (fun c => mbind (set_classifier c) (fun _ => mret c)) w
        else
          (Throw (RuntimeError
                    ("No hay modelo de IA entrenado. "
                     ++ "Ejecute primero la opcion de entrenamiento.")),
           w)
    end.

Definition classify (reading : GasReading) : M FaultType :=
  mbind _get_classifier (fun classifier =>
  mlift (fault_classifier.classify predict classifier reading)).

Definition classify_with_proba (reading : GasReading)
  : M (FaultType * list (FaultType * Q)) :=
  mbind _get_classifier (fun classifier =>
  mlift (fault_classifier.classify_with_probabilities
           predict has_predict_proba predict_proba classes_
           classifier reading)).

Definition classify_batch (readings : list GasReading)
  : M (list FaultType) :=
  mbind _get_classifier (fun classifier =>
  mlift (fault_classifier.classify_batch predict classifier readings)).

Definition prepare_data (samples : option (list sample.Sample))
  : M data_preparation.PreparedDataset :=
  fun w =>
    let samples :=
      match samples with
      | Some samples => samples
      | None => _sample_repo (service w)
      end in
    (data_preparation.prepare_dataset samples (Some (_normative (service w))),
     w).

(** [trainer.train_all(dataset.X, dataset.y)], its library calls appended
    to the ones already made. *)
Definition run_train_all (X : list (list Q)) (y : list Z)
  : M (model_trainer.TrainingResult FittedPipeline) :=
  fun w =>
    let '(r, t) :=
      model_trainer.train_all cross_val_score fit np_mean np_std
        (_n_folds (service w)) X y (calls w) in
    (of_result r,
     {| service := service w; files := files w; calls := t |}).

Definition run_save_model
  (model : model_trainer.TrainedModel FittedPipeline) (path : Path)
  : M Path :=
  fun w =>
    let '(saved, files') :=
      model_persistence.save_model resolve joblib_dump mkdir dump_fault
        model path (files w) in
    (saved, {| service := service w; files := files'; calls := calls w |}).

Definition train (samples : option (list sample.Sample)) (save : bool)
  : M (model_trainer.TrainingResult FittedPipeline) :=
  mbind (prepare_data samples) (fun dataset =>
  mbind (run_train_all (data_preparation.X dataset)
                       (data_preparation.y dataset)) (fun result =>
  mbind (if save
         then mbind model_path (fun path =>
              mbind (run_save_model (model_trainer.best_model result) path)
                    (fun _ => mret tt))
         else mret tt) (fun _ =>
  mbind (set_classifier
           (fault_classifier.mkFaultClassifier
              (model_trainer.pipeline (model_trainer.best_model result))))
        (fun _ =>
  mret result)))).

End Service.

End ai_service.

(** ** application/services/unified_diagnosis_service.py *)

Module unified_diagnosis_service.

Record UnifiedDiagnosisResult : Type := mkUnifiedDiagnosisResult {
  sample_ : sample.Sample;
  normative : normative_diagnosis_service.NormativeDiagnosisResult;
  ai_fault : option FaultType;
  ai_probabilities : option (list (FaultType * Q));
  agree : option bool
}.

Record ComparisonSummary : Type := mkComparisonSummary {
  total : Z;
  agreements : Z;
  disagreements : Z;
  agreement_pct : Q;
  details : list UnifiedDiagnosisResult
}.

(** [except (RuntimeError, AttributeError)] and [except RuntimeError] *)
Definition runtime_or_attribute_error (e : error) : bool :=
  match e with
  | RuntimeError _ | AttributeError _ => true
  | _ => false
  end.

Definition runtime_error (e : error) : bool :=
  match e with
  | RuntimeError _ => true
  | _ => false
  end.

(** [d.agree is not None] and the truth value of [d.agree] *)
Definition is_comparable (d : UnifiedDiagnosisResult) : bool :=
  match agree d with
  | Some _ => true
  | None => false
  end.

Definition agrees (d : UnifiedDiagnosisResult) : bool :=
  match agree d with
  | Some true => true
  | _ => false
  end.

Section Service.

Variable FittedPipeline : Type.
Variable File : Type.
Variable predict : FittedPipeline -> list (list Q) -> outcome (list Z).
Variable has_predict_proba : FittedPipeline -> bool.
Variable predict_proba :
  FittedPipeline -> list (list Q) -> outcome (list (list Q)).
Variable classes_ : FittedPipeline -> outcome (list Z).
Variable resolve : Path -> Path.
Variable joblib_load : File -> outcome FittedPipeline.

Definition diagnose (s : sample.Sample)
  : ai_service.M FittedPipeline File UnifiedDiagnosisResult :=
  let reading := sample.gas_reading s in
  ai_service.mbind
    (ai_service.mlift
       (of_result (normative_diagnosis_service.diagnose_all reading)))
    (fun normative =>
  let consensus := normative_diagnosis_service.consensus_fault normative in
  ai_service.mbind (@ai_service.has_model FittedPipeline File resolve)
    (fun has =>
  ai_service.mbind
    (if has then
       ai_service.try_except
         (ai_service.mbind
            (ai_service.classify_with_proba
               predict has_predict_proba predict_proba classes_
               resolve joblib_load reading)
            (fun r =>
               ai_service.mret
                 (Some (fst r), Some (snd r),
                  Some (FaultType_eqb consensus (fst r)))))
         runtime_or_attribute_error
         (ai_service.try_except
            (ai_service.mbind
               (ai_service.classify predict resolve joblib_load reading)
               (fun f =>
                  ai_service.mret
                    (Some f, None, Some (FaultType_eqb consensus f))))
            runtime_error
            (ai_service.mret (None, None, None)))
     else ai_service.mret (None, None, None))
    (fun r =>
  ai_service.mret
    {| sample_ := s;
       normative := normative;
       ai_fault := fst (fst r);
       ai_probabilities := snd (fst r);
       agree := snd r |}))).

Definition diagnose_batch (samples : list sample.Sample)
  : ai_service.M FittedPipeline File (list UnifiedDiagnosisResult) :=
  ai_service.mmapM diagnose samples.

(** [agreements / total] divides two [int], so the percentage is computed
    in binary64. *)
Definition compare (samples : list sample.Sample)
  : ai_service.M FittedPipeline File ComparisonSummary :=
  ai_service.mbind (diagnose_batch samples) (fun details =>
  let comparable := filter is_comparable details in
  let total := Z.of_nat (List.length comparable) in
  let agreements := Z.of_nat (List.length (filter agrees comparable)) in
  let disagreements := (total - agreements)%Z in
  ai_service.mbind
    (ai_service.mlift
       (if (total >? 0)%Z
        then q <<- of_result (binary64.int_truediv agreements total) ;;
             Return (binary64.round (binary64.mul q 100) 1)
        else Return 0))
    (fun pct =>
  ai_service.mret
    {| total := total;
       agreements := agreements;
       disagreements := disagreements;
       agreement_pct := pct;
       details := details |})).

End Service.

End unified_diagnosis_service.

(** ** Vocabulary of the statements about the AI layer *)

(** The nine concentrations of a reading, in canonical order. *)
Definition features_of (r : GasReading) : list Q := map snd (gas_fields r).

(** A label that is the index of a fault type. *)
Definition class_index (i : Z) : Prop := (0 <= i <= 8)%Z.

(** The label given to a sample: the name of its consensus fault when a
    diagnosis service is supplied, N otherwise. *)
Definition labelled (service : option NormativeDiagnosisService)
  (s : sample.Sample) (lbl : string) : Prop :=
  match service with
  | Some _ =>
      exists res,
        normative_diagnosis_service.diagnose_all (sample.gas_reading s)
        = Ok res
        /\ lbl = name (normative_diagnosis_service.consensus_fault res)
  | None => lbl = name N
  end.

(** ** A sample classifier: stand-ins for a fitted pipeline *)

Module sample_classifier.

(** The fitted pipeline is a number: its last digit is the class index it
    always predicts, and it has [predict_proba] when it is below 10.  A
    file holds the dump of a pipeline, or nothing that can be loaded. *)
Definition predict (p : Z) (X : list (list Q)) : outcome (list Z) :=
  Return (map (fun _ => (p mod 10)%Z) X).

Definition has_predict_proba (p : Z) : bool := (p <? 10)%Z.

Definition predict_proba (p : Z) (X : list (list Q))
  : outcome (list (list Q)) :=
  Return (map (fun _ => [1 # 4; 3 # 4]) X).

Definition classes_ (p : Z) : outcome (list Z) :=
  Return [0%Z; (p mod 10)%Z].

(** Relative paths are taken from [/srv]. *)
Definition resolve (path : Path) : Path :=
  match path with
  | [] => ["/"; "srv"]%string
  | c :: _ =>
      if String.eqb c "/" then path
      else "/"%string :: "srv"%string :: path
  end.

Definition joblib_dump (p : Z) : option Z := Some p.

Definition joblib_load (content : option Z) : outcome Z :=
  match content with
  | Some p => Return p
  | None => Throw EOFError
  end.

Definition mkdir (p : Path) : outcome unit := Return tt.

Definition dump_fault (p : Path) : option (error * option (option Z)) :=
  None.

Definition a_sample (r : GasReading) (i : Z) : sample.Sample :=
  {| sample.sample_code := "M-1";
     sample.transformer_id := 1;
     sample.extraction_date := 739000;
     sample.gas_reading := r;
     sample.diagnosis_date := 739001;
     sample.id := Some i |}.

Definition samples : list sample.Sample :=
  [a_sample NORMAL_READING 1; a_sample ARCING_READING 2;
   a_sample PD_READING 3].

Definition empty_service : ai_service.AIService Z :=
  {| ai_service._sample_repo := samples;
     ai_service._normative := StatelessService;
     ai_service._model_dir := ai_service.DEFAULT_MODEL_DIR;
     ai_service._n_folds := 5;
     ai_service._classifier := None |}.

Definition model_file : Path :=
  resolve (ai_service.DEFAULT_MODEL_DIR ++ [ai_service.DEFAULT_MODEL_NAME]).

(** No model in memory, none on disk. *)
Definition world_without_model : ai_service.World Z (option Z) :=
  {| ai_service.service := empty_service;
     ai_service.files := [];
     ai_service.calls := [] |}.

(** A model on disk that predicts T1 (index 4). *)
Definition world_with_file : ai_service.World Z (option Z) :=
  {| ai_service.service := empty_service;
     ai_service.files := [(model_file, Some 4%Z)];
     ai_service.calls := [] |}.

(** A model on disk without [predict_proba]. *)
Definition world_without_proba : ai_service.World Z (option Z) :=
  {| ai_service.service := empty_service;
     ai_service.files := [(model_file, Some 14%Z)];
     ai_service.calls := [] |}.

(** A file on disk that cannot be loaded. *)
Definition world_with_truncated_file : ai_service.World Z (option Z) :=
  {| ai_service.service := empty_service;
     ai_service.files := [(model_file, None)];
     ai_service.calls := [] |}.

(** A classifier in memory that predicts T1 and lacks [predict_proba]. *)
Definition world_cached_without_proba : ai_service.World Z (option Z) :=
  {| ai_service.service :=
       {| ai_service._sample_repo := samples;
          ai_service._normative := StatelessService;
          ai_service._model_dir := ai_service.DEFAULT_MODEL_DIR;
          ai_service._n_folds := 5;
          ai_service._classifier :=
            Some (fault_classifier.mkFaultClassifier 14%Z) |};
     ai_service.files := [];
     ai_service.calls := [] |}.

Definition classify := ai_service.classify predict resolve joblib_load.

Definition diagnose :=
  unified_diagnosis_service.diagnose
    predict has_predict_proba predict_proba classes_ resolve joblib_load.

Definition compare :=
  unified_diagnosis_service.compare
    predict has_predict_proba predict_proba classes_ resolve joblib_load.


Definition save_model :=
  model_persistence.save_model resolve joblib_dump mkdir dump_fault.

Definition load_model := model_persistence.load_model resolve joblib_load.

End sample_classifier.

(** * Verification *)

(** ** Floats and the error monad *)

Lemma Qle_bool_false (x y : Q) : Qle_bool x y = false <-> y < x.
Proof.
  split; intro H.
  - apply Qnot_le_lt. intro Hle. apply Qle_bool_iff in Hle. congruence.
  - destruct (Qle_bool x y) eqn:E; [|reflexivity].
    apply Qle_bool_iff in E. exfalso. exact (Qlt_not_le _ _ H E).
Qed.

Lemma Qlt_bool_true (x y : Q) : Qlt_bool x y = true <-> x < y.
Proof.
  unfold Qlt_bool. rewrite negb_true_iff. apply Qle_bool_false.
Qed.

Lemma Qlt_bool_false (x y : Q) : Qlt_bool x y = false <-> y <= x.
Proof.
  unfold Qlt_bool. rewrite negb_false_iff. apply Qle_bool_iff.
Qed.

Lemma Qeq_bool_false (x y : Q) : Qeq_bool x y = false <-> ~ x == y.
Proof.
  split; intro H.
  - intro E. apply Qeq_bool_iff in E. congruence.
  - destruct (Qeq_bool x y) eqn:E; [|reflexivity].
    apply Qeq_bool_iff in E. contradiction.
Qed.

Lemma truediv_pos (x y : Q) : 0 < y -> truediv x y = Ok (x / y).
Proof.
  intro Hy. unfold truediv.
  replace (Qeq_bool y 0) with false; [reflexivity|].
  symmetry. apply Qeq_bool_false. intro E. rewrite E in Hy.
  exact (Qlt_irrefl 0 Hy).
Qed.

(** ** gas_ratios *)

Lemma safe_ratio_total (n d : Q) : exists q, gas_ratios.safe_ratio n d = Ok q.
Proof.
  unfold gas_ratios.safe_ratio.
  destruct (Qle_bool d 0) eqn:E; [eexists; reflexivity|].
  apply Qle_bool_false in E. rewrite (truediv_pos _ E). eexists; reflexivity.
Qed.

(** C1. [safe_ratio] returns the quotient when the denominator is
    positive; for a denominator that is zero or negative it returns the
    sentinel 999 when the numerator is positive and 0 otherwise. *)
Theorem safe_ratio_spec (numerator denominator : Q) :
  (0 < denominator ->
   gas_ratios.safe_ratio numerator denominator
   = Ok (numerator / denominator))
  /\ (denominator <= 0 -> 0 < numerator ->
      gas_ratios.safe_ratio numerator denominator = Ok 999)
  /\ (denominator <= 0 -> numerator <= 0 ->
      gas_ratios.safe_ratio numerator denominator = Ok 0).
Proof.
  unfold gas_ratios.safe_ratio, Qgt_bool.
  split; [|split].
  - intro Hd. rewrite (proj2 (Qle_bool_false _ _) Hd).
    apply truediv_pos, Hd.
  - intros Hd Hn. rewrite (proj2 (Qle_bool_iff _ _) Hd).
    now rewrite (proj2 (Qlt_bool_true _ _) Hn).
  - intros Hd Hn. rewrite (proj2 (Qle_bool_iff _ _) Hd).
    now rewrite (proj2 (Qlt_bool_false _ _) Hn).
Qed.

Lemma safe_ratio_spec_witness :
  gas_ratios.safe_ratio 6 4 = Ok (6 / 4)
  /\ gas_ratios.safe_ratio 5 0 = Ok 999
  /\ gas_ratios.safe_ratio 0 0 = Ok 0
  /\ gas_ratios.safe_ratio (-3) 0 = Ok 0.
Proof.
  split; [|split; [|split]].
  - apply (proj1 (safe_ratio_spec 6 4)). reflexivity.
  - apply (proj1 (proj2 (safe_ratio_spec 5 0))).
    + discriminate.
    + reflexivity.
  - apply (proj2 (proj2 (safe_ratio_spec 0 0))); discriminate.
  - apply (proj2 (proj2 (safe_ratio_spec (-3) 0))); discriminate.
Defined.

(** A constructed reading has no negative concentration. *)
Lemma valid_reading_nonneg (r : GasReading) :
  valid_reading r ->
  0 <= h2 r /\ 0 <= ch4 r /\ 0 <= c2h6 r /\ 0 <= c2h4 r /\ 0 <= c2h2 r
  /\ 0 <= co r /\ 0 <= co2 r /\ 0 <= o2 r /\ 0 <= n2 r.
Proof.
  unfold valid_reading, post_init, gas_fields. cbn [check_fields].
  repeat match goal with
  | |- context [Qlt_bool ?x 0] =>
      let E := fresh "E" in
      destruct (Qlt_bool x 0) eqn:E;
      [intro; discriminate | apply Qlt_bool_false in E]
  end.
  intros _. repeat (split; [assumption|]). assumption.
Qed.

Lemma triangle_percentages_pos (r : GasReading) :
  let total := ch4 r + c2h4 r + c2h2 r in
  0 < total ->
  gas_ratios.duval_triangle_percentages r
  = Ok (ch4 r / total * 100, c2h4 r / total * 100, c2h2 r / total * 100).
Proof.
  intros total Ht. unfold gas_ratios.duval_triangle_percentages.
  fold total. rewrite (proj2 (Qle_bool_false _ _) Ht).
  rewrite !(truediv_pos _ Ht). reflexivity.
Qed.

Lemma pentagon_percentages_pos (r : GasReading) :
  let total := h2 r + ch4 r + c2h6 r + c2h4 r + c2h2 r in
  0 < total ->
  gas_ratios.duval_pentagon_percentages r
  = Ok (h2 r / total * 100, ch4 r / total * 100, c2h6 r / total * 100,
        c2h4 r / total * 100, c2h2 r / total * 100).
Proof.
  intros total Ht. unfold gas_ratios.duval_pentagon_percentages.
  fold total. rewrite (proj2 (Qle_bool_false _ _) Ht).
  rewrite !(truediv_pos _ Ht). reflexivity.
Qed.

Lemma nonneg_nonzero_pos (t : Q) : 0 <= t -> ~ t == 0 -> 0 < t.
Proof.
  intros H0 Hn. apply Qle_lt_or_eq in H0. destruct H0 as [H | H].
  - exact H.
  - exfalso. apply Hn. symmetry. exact H.
Qed.

Lemma within_tenth_of_exact (s : Q) : s == 100 -> Qabs (s - 100) <= 1 # 10.
Proof.
  intro H. rewrite H. discriminate.
Qed.

(** C8. On a constructed reading, the ternary percentages sum to 100
    (exactly, so within 0.1) when CH4 + C2H4 + C2H2 is not zero and are
    (0, 0, 0) when it is; the pentagon percentages do the same over
    H2 + CH4 + C2H6 + C2H4 + C2H2. *)
Theorem duval_percentages_sum (r : GasReading) :
  valid_reading r ->
  let t3 := ch4 r + c2h4 r + c2h2 r in
  let t5 := h2 r + ch4 r + c2h6 r + c2h4 r + c2h2 r in
  (~ t3 == 0 ->
   exists a b c,
     gas_ratios.duval_triangle_percentages r = Ok (a, b, c)
     /\ a + b + c == 100 /\ Qabs (a + b + c - 100) <= 1 # 10)
  /\ (t3 == 0 -> gas_ratios.duval_triangle_percentages r = Ok (0, 0, 0))
  /\ (~ t5 == 0 ->
      exists a b c d e,
        gas_ratios.duval_pentagon_percentages r = Ok (a, b, c, d, e)
        /\ a + b + c + d + e == 100
        /\ Qabs (a + b + c + d + e - 100) <= 1 # 10)
  /\ (t5 == 0 ->
      gas_ratios.duval_pentagon_percentages r = Ok (0, 0, 0, 0, 0)).
Proof.
  intros Hv t3 t5.
  destruct (valid_reading_nonneg Hv)
    as (Hh2 & Hch4 & Hc2h6 & Hc2h4 & Hc2h2 & _).
  assert (H3 : 0 <= t3) by (unfold t3; lra).
  assert (H5 : 0 <= t5) by (unfold t5; lra).
  split; [|split; [|split]].
  - intro Hn. pose proof (nonneg_nonzero_pos H3 Hn) as Hpos.
    do 3 eexists. split; [apply triangle_percentages_pos; exact Hpos|].
    fold t3.
    assert (Hs : ch4 r / t3 * 100 + c2h4 r / t3 * 100 + c2h2 r / t3 * 100
                 == 100).
    { unfold t3 at 1 2 3. field. exact Hn. }
    split; [exact Hs | apply within_tenth_of_exact, Hs].
  - intro Hz. unfold gas_ratios.duval_triangle_percentages. fold t3.
    replace (Qle_bool t3 0) with true; [reflexivity|].
    symmetry. apply Qle_bool_iff. rewrite Hz. apply Qle_refl.
  - intro Hn. pose proof (nonneg_nonzero_pos H5 Hn) as Hpos.
    do 5 eexists. split; [apply pentagon_percentages_pos; exact Hpos|].
    fold t5.
    assert (Hs : h2 r / t5 * 100 + ch4 r / t5 * 100 + c2h6 r / t5 * 100
                 + c2h4 r / t5 * 100 + c2h2 r / t5 * 100 == 100).
    { unfold t5 at 1 2 3 4 5. field. exact Hn. }
    split; [exact Hs | apply within_tenth_of_exact, Hs].
  - intro Hz. unfold gas_ratios.duval_pentagon_percentages. fold t5.
    replace (Qle_bool t5 0) with true; [reflexivity|].
    symmetry. apply Qle_bool_iff. rewrite Hz. apply Qle_refl.
Qed.

(** ** The six classifiers always return *)

Ltac ratio_ok :=
  unfold gas_ratios.ratio_ch4_h2, gas_ratios.ratio_c2h2_c2h4,
    gas_ratios.ratio_c2h4_c2h6, gas_ratios.ratio_c2h6_c2h2,
    gas_ratios.ratio_c2h2_ch4;
  repeat match goal with
  | |- context [gas_ratios.safe_ratio ?a ?b] =>
      let q := fresh "q" in
      let Hq := fresh "Hq" in
      destruct (safe_ratio_total a b) as [q Hq]; rewrite Hq; cbn [bind]
  end.

Lemma gas_condition_range (g : string) (v : Q) :
  (1 <= ieee_c57_104._gas_condition g v <= 4)%Z.
Proof.
  unfold ieee_c57_104._gas_condition.
  destruct (dict_get ieee_c57_104._GAS_LIMITS g) as [[[l0 l1] l2]|]; [|lia].
  destruct (Qle_bool v l0); [lia|].
  destruct (Qle_bool v l1); [lia|].
  destruct (Qle_bool v l2); lia.
Qed.

Lemma tdcg_condition_range (t : Q) :
  (1 <= ieee_c57_104._tdcg_condition t <= 4)%Z.
Proof.
  unfold ieee_c57_104._tdcg_condition, ieee_c57_104._TDCG_LIMITS.
  destruct (Qle_bool t 720); [lia|].
  destruct (Qle_bool t 1920); [lia|].
  destruct (Qle_bool t 4630); lia.
Qed.

Lemma label_of_condition (k : Z) :
  (1 <= k <= 4)%Z ->
  exists s, ieee_c57_104.label_of ieee_c57_104._CONDITION_LABELS k = Ok s.
Proof.
  intro Hk.
  assert (H : k = 1%Z \/ k = 2%Z \/ k = 3%Z \/ k = 4%Z) by lia.
  destruct H as [-> | [-> | [-> | ->]]]; eexists; reflexivity.
Qed.

Lemma suggest_fault_type_total (r : GasReading) :
  exists f, ieee_c57_104._suggest_fault_type r = Ok f.
Proof.
  unfold ieee_c57_104._suggest_fault_type. ratio_ok.
  repeat match goal with
  | |- context [if ?b then _ else _] => destruct b
  end; eexists; reflexivity.
Qed.

Lemma ieee_total (r : GasReading) :
  exists res,
    ieee_c57_104.diagnose r = Ok res
    /\ method_name res = ieee_c57_104.METHOD_NAME.
Proof.
  unfold ieee_c57_104.diagnose. cbn [map fst snd max_Z bind fold_left].
  set (worst := Z.max _ _).
  assert (Hw : (1 <= worst <= 4)%Z).
  { unfold worst.
    pose proof (gas_condition_range "h2" (h2 r)).
    pose proof (gas_condition_range "ch4" (ch4 r)).
    pose proof (gas_condition_range "c2h6" (c2h6 r)).
    pose proof (gas_condition_range "c2h4" (c2h4 r)).
    pose proof (gas_condition_range "c2h2" (c2h2 r)).
    pose proof (gas_condition_range "co" (co r)).
    pose proof (gas_condition_range "co2" (co2 r)).
    pose proof (tdcg_condition_range
                  (gas_ratios.total_combustible_gases r)).
    lia. }
  destruct (label_of_condition Hw) as [s Hs]. rewrite Hs.
  destruct (worst <=? 2)%Z.
  - cbn [bind]. eexists. split; reflexivity.
  - destruct (suggest_fault_type_total r) as [f Hf]. rewrite Hf.
    cbn [bind]. eexists. split; reflexivity.
Qed.

Lemma iec_total (r : GasReading) :
  exists res,
    iec_60599.diagnose r = Ok res
    /\ method_name res = iec_60599.METHOD_NAME.
Proof.
  unfold iec_60599.diagnose. ratio_ok.
  destruct (table_get _ _) as [[f d]|]; eexists; split; reflexivity.
Qed.

Lemma rogers_total (r : GasReading) :
  exists res,
    rogers.diagnose r = Ok res /\ method_name res = rogers.METHOD_NAME.
Proof.
  unfold rogers.diagnose. ratio_ok.
  destruct (table_get _ _) as [[f d]|]; eexists; split; reflexivity.
Qed.

Lemma exceeds_l1_total (r : GasReading) :
  exists b, dornenburg._exceeds_l1 r = Ok b.
Proof.
  unfold dornenburg._exceeds_l1, dornenburg._L1_LIMITS.
  cbn [dornenburg.any_exceeds dict_get String.eqb Ascii.eqb Bool.eqb].
  repeat match goal with
  | |- context [if Qgt_bool ?a ?b then _ else _] => destruct (Qgt_bool a b)
  end; eexists; reflexivity.
Qed.

Lemma dornenburg_total (r : GasReading) :
  exists res,
    dornenburg.diagnose r = Ok res
    /\ method_name res = dornenburg.METHOD_NAME.
Proof.
  unfold dornenburg.diagnose.
  destruct (exceeds_l1_total r) as [b Hb]. rewrite Hb. cbn [bind].
  destruct b; cbn [negb].
  - ratio_ok. destruct (dornenburg._classify _ _ _ _) as [f d].
    eexists; split; reflexivity.
  - eexists; split; reflexivity.
Qed.

Lemma triangle_percentages_total (r : GasReading) :
  exists a b c, gas_ratios.duval_triangle_percentages r = Ok (a, b, c).
Proof.
  unfold gas_ratios.duval_triangle_percentages.
  destruct (Qle_bool _ 0) eqn:E; [do 3 eexists; reflexivity|].
  apply Qle_bool_false in E. rewrite !(truediv_pos _ E). cbn [bind].
  do 3 eexists; reflexivity.
Qed.

Lemma pentagon_percentages_total (r : GasReading) :
  exists a b c d e,
    gas_ratios.duval_pentagon_percentages r = Ok (a, b, c, d, e).
Proof.
  unfold gas_ratios.duval_pentagon_percentages.
  destruct (Qle_bool _ 0) eqn:E; [do 5 eexists; reflexivity|].
  apply Qle_bool_false in E. rewrite !(truediv_pos _ E). cbn [bind].
  do 5 eexists; reflexivity.
Qed.

Lemma triangle_total (r : GasReading) :
  exists res,
    duval_triangle.diagnose r = Ok res
    /\ method_name res = duval_triangle.METHOD_NAME.
Proof.
  unfold duval_triangle.diagnose.
  destruct (triangle_percentages_total r) as (a & b & c & H).
  rewrite H. cbn [bind].
  destruct (_ && _)%bool.
  - eexists; split; reflexivity.
  - destruct (duval_triangle._classify_zone a b c) as [f d].
    eexists; split; reflexivity.
Qed.

Lemma pentagon_total (r : GasReading) :
  exists res,
    duval_pentagon.diagnose r = Ok res
    /\ method_name res = duval_pentagon.METHOD_NAME.
Proof.
  unfold duval_pentagon.diagnose.
  destruct (pentagon_percentages_total r) as (a & b & c & d & e & H).
  rewrite H. cbn [bind].
  destruct (_ && _)%bool.
  - eexists; split; reflexivity.
  - destruct (duval_pentagon._classify_zone a b c d e) as [f ds].
    eexists; split; reflexivity.
Qed.

(** ** The vote counter *)

Module CounterFacts.

Import normative_diagnosis_service.

Lemma FaultType_eqb_eq (a b : FaultType) :
  FaultType_eqb a b = true <-> a = b.
Proof.
  unfold FaultType_eqb. destruct (FaultType_eq_dec a b); split; congruence.
Qed.

Lemma FaultType_eqb_refl (a : FaultType) : FaultType_eqb a a = true.
Proof. now apply FaultType_eqb_eq. Qed.

Lemma FaultType_eqb_neq (a b : FaultType) :
  a <> b -> FaultType_eqb a b = false.
Proof.
  unfold FaultType_eqb. destruct (FaultType_eq_dec a b); congruence.
Qed.

Lemma cnt_snoc_same (l : list FaultType) (f : FaultType) :
  cnt (l ++ [f]) f = (cnt l f + 1)%Z.
Proof.
  unfold cnt. rewrite count_occ_app. cbn [count_occ].
  destruct (FaultType_eq_dec f f); [|congruence]. lia.
Qed.

Lemma cnt_snoc_other (l : list FaultType) (f g : FaultType) :
  g <> f -> cnt (l ++ [f]) g = cnt l g.
Proof.
  intro Hn. unfold cnt. rewrite count_occ_app. cbn [count_occ].
  destruct (FaultType_eq_dec f g); [congruence|]. lia.
Qed.

Lemma cnt_not_in (l : list FaultType) (f : FaultType) :
  ~ In f l -> cnt l f = 0%Z.
Proof.
  intro H. unfold cnt.
  now rewrite (proj1 (count_occ_not_In FaultType_eq_dec l f) H).
Qed.

Lemma cnt_in_pos (l : list FaultType) (f : FaultType) :
  In f l -> (1 <= cnt l f)%Z.
Proof.
  intro H. unfold cnt.
  apply (count_occ_In FaultType_eq_dec) in H. lia.
Qed.

Lemma cnt_le_length (l : list FaultType) (f : FaultType) :
  (cnt l f <= Z.of_nat (List.length l))%Z.
Proof.
  unfold cnt. pose proof (count_occ_bound FaultType_eq_dec f l). lia.
Qed.

Lemma first_seen_snoc (l : list FaultType) (f : FaultType) :
  first_seen (l ++ [f])
  = if in_dec FaultType_eq_dec f (first_seen l) then first_seen l
    else first_seen l ++ [f].
Proof.
  unfold first_seen. now rewrite fold_left_app.
Qed.

Lemma first_seen_In (l : list FaultType) (f : FaultType) :
  In f (first_seen l) <-> In f l.
Proof.
  induction l as [|x l IH] using rev_ind; [reflexivity|].
  rewrite first_seen_snoc, in_app_iff. cbn [In].
  destruct (in_dec FaultType_eq_dec x (first_seen l)) as [Hin | Hout].
  - rewrite IH. split; [tauto|].
    intros [H | [-> | []]]; [exact H | now apply IH].
  - rewrite in_app_iff, IH. cbn [In]. tauto.
Qed.

Lemma first_seen_NoDup (l : list FaultType) : NoDup (first_seen l).
Proof.
  induction l as [|x l IH] using rev_ind; [constructor|].
  rewrite first_seen_snoc.
  destruct (in_dec FaultType_eq_dec x (first_seen l)) as [Hin | Hout].
  - exact IH.
  - apply NoDup_app; [exact IH | repeat constructor; intros [] |].
    intros y Hy [<- | []]. contradiction.
Qed.

(** A distinct vote placed after [w] in first-seen order never occurs
    before the first occurrence of [w]. *)
Lemma first_seen_split (l : list FaultType) :
  forall k1 w k2,
    first_seen l = k1 ++ w :: k2 ->
    exists l1 l2,
      l = l1 ++ w :: l2 /\ ~ In w l1
      /\ forall g, In g k2 -> ~ In g l1.
Proof.
  induction l as [|x l IH] using rev_ind; intros k1 w k2 H.
  - destruct k1; discriminate.
  - rewrite first_seen_snoc in H.
    destruct (in_dec FaultType_eq_dec x (first_seen l)) as [Hin | Hout].
    + destruct (IH _ _ _ H) as (l1 & l2 & -> & Hw & Hk).
      exists l1, (l2 ++ [x]). rewrite <- app_assoc. auto.
    + destruct (exists_last (l:=w :: k2)) as (k2' & y & Hk2); [discriminate|].
      rewrite Hk2, app_assoc in H. apply app_inj_tail in H.
      destruct H as [Hfs <-].
      destruct k2' as [|w' k2'].
      * injection Hk2 as -> ->. rewrite app_nil_r in Hfs.
        exists l, []. split; [reflexivity|]. split; [|intros g []].
        intro Hl. apply Hout. now apply first_seen_In.
      * injection Hk2 as <- ->.
        destruct (IH _ _ _ Hfs) as (l1 & l2 & -> & Hw & Hk).
        exists l1, (l2 ++ [x]). rewrite <- app_assoc.
        split; [reflexivity|]. split; [exact Hw|].
        intros g Hg Hl1. apply in_app_iff in Hg.
        destruct Hg as [Hg | [<- | []]]; [exact (Hk _ Hg Hl1)|].
        apply Hout, first_seen_In, in_app_iff. now left.
Qed.

Lemma counter_incr_old (l : list FaultType) (f : FaultType) :
  forall ks, NoDup ks -> In f ks ->
  counter_incr f (map (tally l) ks) = map (tally (l ++ [f])) ks.
Proof.
  induction ks as [|k ks IH]; intros Hnd Hin; [destruct Hin|].
  inversion Hnd as [|? ? Hk Hnd']; subst. unfold tally in *.
  cbn [map counter_incr].
  destruct (FaultType_eq_dec k f) as [-> | Hne].
  - rewrite FaultType_eqb_refl, cnt_snoc_same. f_equal.
    apply map_ext_in. intros g Hg.
    rewrite cnt_snoc_other; [reflexivity|]. intros ->. contradiction.
  - rewrite (FaultType_eqb_neq Hne), (cnt_snoc_other l Hne). f_equal.
    apply IH; [exact Hnd'|].
    destruct Hin as [-> | Hin]; [congruence | exact Hin].
Qed.

Lemma counter_incr_new (l : list FaultType) (f : FaultType) :
  ~ In f l ->
  forall ks, ~ In f ks ->
  counter_incr f (map (tally l) ks)
  = map (tally (l ++ [f])) (ks ++ [f]).
Proof.
  intros Hl. unfold tally. induction ks as [|k ks IH]; intro Hout.
  - cbn [map counter_incr app].
    rewrite cnt_snoc_same, (cnt_not_in _ _ Hl). reflexivity.
  - cbn [map counter_incr app].
    assert (Hne : k <> f) by (intros ->; apply Hout; now left).
    rewrite (FaultType_eqb_neq Hne), (cnt_snoc_other l Hne). f_equal.
    apply IH. intro H. apply Hout. now right.
Qed.

Lemma Counter_snoc (l : list FaultType) (f : FaultType) :
  Counter (l ++ [f]) = counter_incr f (Counter l).
Proof.
  unfold Counter. now rewrite fold_left_app.
Qed.

Lemma Counter_closed_form (l : list FaultType) :
  Counter l = map (tally l) (first_seen l).
Proof.
  induction l as [|x l IH] using rev_ind; [reflexivity|].
  rewrite Counter_snoc, IH, first_seen_snoc.
  destruct (in_dec FaultType_eq_dec x (first_seen l)) as [Hin | Hout].
  - apply counter_incr_old; [apply first_seen_NoDup | exact Hin].
  - apply counter_incr_new; [|exact Hout].
    intro H. apply Hout. now apply first_seen_In.
Qed.

Lemma counter_incr_sum (f : FaultType) (c : list (FaultType * Z)) :
  sum_Z (map snd (counter_incr f c)) = (sum_Z (map snd c) + 1)%Z.
Proof.
  induction c as [|[g n] c IH]; [reflexivity|].
  cbn [counter_incr]. destruct (FaultType_eqb g f); cbn [map snd sum_Z fold_right].
  - unfold sum_Z. lia.
  - fold (sum_Z (map snd (counter_incr f c))). rewrite IH.
    unfold sum_Z. lia.
Qed.

Lemma Counter_sum (l : list FaultType) :
  sum_Z (map snd (Counter l)) = Z.of_nat (List.length l).
Proof.
  induction l as [|x l IH] using rev_ind; [reflexivity|].
  rewrite Counter_snoc, counter_incr_sum, IH, length_app. cbn. lia.
Qed.

Lemma max_by_count_split (items : list (FaultType * Z)) :
  forall best pre mid,
    Forall (fun x => (snd x < snd best)%Z) pre ->
    Forall (fun x => (snd x <= snd best)%Z) mid ->
    exists pre' post,
      pre ++ best :: mid ++ items
      = pre' ++ max_by_count best items :: post
      /\ Forall (fun x => (snd x < snd (max_by_count best items))%Z) pre'
      /\ Forall (fun x => (snd x <= snd (max_by_count best items))%Z) post.
Proof.
  induction items as [|it items IH]; intros best pre mid Hpre Hmid.
  - exists pre, mid. rewrite app_nil_r. auto.
  - cbn [max_by_count]. destruct (snd best <? snd it)%Z eqn:E.
    + apply Z.ltb_lt in E.
      destruct (IH it (pre ++ best :: mid) []) as (pre' & post & Heq & H1 & H2).
      * apply Forall_app. split; [|constructor; [exact E|]].
        -- eapply Forall_impl; [|exact Hpre]. cbv beta. intros; lia.
        -- eapply Forall_impl; [|exact Hmid]. cbv beta. intros; lia.
      * constructor.
      * exists pre', post. split; [|auto].
        rewrite <- Heq, <- app_assoc. reflexivity.
    + apply Z.ltb_ge in E.
      destruct (IH best pre (mid ++ [it])) as (pre' & post & Heq & H1 & H2).
      * exact Hpre.
      * apply Forall_app. split; [exact Hmid | repeat constructor; exact E].
      * exists pre', post. split; [|auto].
        rewrite <- Heq, <- app_assoc. reflexivity.
Qed.

Lemma name_inj (a b : FaultType) : name a = name b -> a = b.
Proof. destruct a, b; intro H; try reflexivity; discriminate H. Qed.

Lemma dict_set_fresh (V : Type) (d : list (string * V)) (k : string) (v : V) :
  ~ In k (map fst d) -> dict_set d k v = d ++ [(k, v)].
Proof.
  induction d as [|[k' v'] d IH]; intro H; [reflexivity|].
  cbn [dict_set app]. destruct (String.eqb_spec k' k) as [-> | Hne].
  - exfalso. apply H. now left.
  - f_equal. apply IH. intro Hin. apply H. now right.
Qed.

(** The dictionary comprehension [{ft.name: count for ft, count in ...}]
    over distinct faults keeps every entry. *)
Lemma vote_dict_closed_form (c : list (FaultType * Z)) :
  NoDup (map fst c) ->
  forall acc,
    (forall it, In it c -> ~ In (name (fst it)) (map fst acc)) ->
    fold_left (fun d it => dict_set d (name (fst it)) (snd it)) c acc
    = acc ++ map (fun it => (name (fst it), snd it)) c.
Proof.
  induction c as [|[f n] c IH]; intros Hnd acc Hfresh.
  - cbn. now rewrite app_nil_r.
  - inversion Hnd as [|? ? Hf Hnd']; subst. cbn [fold_left map fst snd].
    rewrite dict_set_fresh by (apply (Hfresh (f, n)); now left).
    rewrite IH; [now rewrite <- app_assoc | exact Hnd' |].
    intros [g m] Hg. rewrite map_app, in_app_iff. cbn.
    intros [Hacc | [Heq | []]].
    + apply (Hfresh (g, m)); [now right | exact Hacc].
    + apply name_inj in Heq. subst g. apply Hf.
      change f with (fst (f, m)). now apply in_map.
Qed.

Lemma map_fst_tally (votes ks : list FaultType) :
  map fst (map (tally votes) ks) = ks.
Proof.
  rewrite map_map. unfold tally. cbn [fst]. apply map_id.
Qed.

Lemma inject_Z_pos (n : Z) : (0 < n)%Z -> 0 < inject_Z n.
Proof.
  intro H. unfold Qlt, inject_Z. cbn. lia.
Qed.

(** What [_compute_consensus] returns on a non-empty list of results. *)
Lemma compute_consensus_spec (rs : list MethodResult) :
  rs <> [] ->
  let votes := map fault_type rs in
  exists w l1 l2,
    _compute_consensus rs
    = Ok (w,
          map (fun f => (name f, cnt votes f)) (first_seen votes),
          round (inject_Z (cnt votes w)
                 / inject_Z (Z.of_nat (List.length votes)) * 100) 1)
    /\ votes = l1 ++ w :: l2
    /\ ~ In w l1
    /\ (forall f, In f l1 -> (cnt votes f < cnt votes w)%Z)
    /\ (forall f, (cnt votes f <= cnt votes w)%Z).
Proof.
  intros Hne votes.
  assert (Hlen : (0 < Z.of_nat (List.length votes))%Z).
  { unfold votes. destruct rs; [congruence | cbn [map List.length]; lia]. }
  unfold _compute_consensus. fold votes. rewrite Counter_closed_form.
  pose proof (first_seen_NoDup votes) as Hnd.
  pose proof (first_seen_In votes) as Hin.
  pose proof (first_seen_split votes) as Hsplit.
  destruct (first_seen votes) as [|k ks] eqn:Efs.
  { exfalso. destruct votes as [|v vs]; [cbn in Hlen; lia|].
    apply (proj2 (Hin v)). now left. }
  cbn [map most_common_1 head_item bind].
  destruct (@max_by_count_split (map (tally votes) ks) (tally votes k) [] []
              (Forall_nil _) (Forall_nil _))
    as (pre & post & Heq & Hpre & Hpost).
  cbn [app] in Heq.
  change (tally votes k :: map (tally votes) ks)
    with (map (tally votes) (k :: ks)) in Heq.
  apply map_eq_app in Heq. destruct Heq as (k1 & rest & Hks & Hk1 & Hrest).
  apply map_eq_cons in Hrest. destruct Hrest as (w & k2 & -> & Hw & Hk2).
  rewrite <- Hw in Hpre, Hpost |- *. subst pre post.
  unfold tally at 1. cbn [bind snd fst].
  destruct (Hsplit _ _ _ Hks) as (l1 & l2 & Hv & Hwl1 & Hk2l1).
  assert (Hle : forall f, In f (k :: ks) -> (cnt votes f <= cnt votes w)%Z).
  { intros f Hf. rewrite Hks in Hf. apply in_app_iff in Hf.
    rewrite Forall_forall in Hpre, Hpost.
    destruct Hf as [Hf | [<- | Hf]].
    - specialize (Hpre _ (in_map (tally votes) _ _ Hf)). cbn in Hpre. lia.
    - lia.
    - specialize (Hpost _ (in_map (tally votes) _ _ Hf)). exact Hpost. }
  exists w, l1, l2. split; [|split; [exact Hv | split; [exact Hwl1 | split]]].
  - rewrite vote_dict_closed_form.
    + replace (Z.of_nat (List.length votes) >? 0)%Z with true
        by (symmetry; apply Z.gtb_lt; exact Hlen).
      rewrite (truediv_pos _ (inject_Z_pos Hlen)). cbn [bind app].
      do 2 f_equal. unfold tally. cbn [map fst snd]. f_equal.
      rewrite map_map. reflexivity.
    + change (tally votes k :: map (tally votes) ks)
        with (map (tally votes) (k :: ks)).
      rewrite map_fst_tally. exact Hnd.
    + intros it _ [].
  - intros f Hf.
    assert (Hfv : In f (k :: ks)).
    { apply Hin. rewrite Hv. apply in_app_iff. now left. }
    rewrite Hks in Hfv. apply in_app_iff in Hfv.
    rewrite Forall_forall in Hpre.
    destruct Hfv as [Hfk | [<- | Hfk]].
    + specialize (Hpre _ (in_map (tally votes) _ _ Hfk)). exact Hpre.
    + contradiction.
    + exfalso. exact (Hk2l1 _ Hfk Hf).
  - intro f. destruct (in_dec FaultType_eq_dec f votes) as [Hf | Hf].
    + apply Hle, Hin, Hf.
    + rewrite (cnt_not_in _ _ Hf). unfold cnt. lia.
Qed.

End CounterFacts.

(** ** diagnose_all *)

Module ConsensusFacts.

Import normative_diagnosis_service CounterFacts.

(** The six classifiers run in the order of [_METHODS] and all return. *)
Lemma run_methods (r : GasReading) :
  exists r1 r2 r3 r4 r5 r6,
    mapM (fun method => method r) _METHODS = Ok [r1; r2; r3; r4; r5; r6]
    /\ ieee_c57_104.diagnose r = Ok r1
    /\ iec_60599.diagnose r = Ok r2
    /\ rogers.diagnose r = Ok r3
    /\ dornenburg.diagnose r = Ok r4
    /\ duval_triangle.diagnose r = Ok r5
    /\ duval_pentagon.diagnose r = Ok r6
    /\ map method_name [r1; r2; r3; r4; r5; r6]
       = [ieee_c57_104.METHOD_NAME; iec_60599.METHOD_NAME;
          rogers.METHOD_NAME; dornenburg.METHOD_NAME;
          duval_triangle.METHOD_NAME; duval_pentagon.METHOD_NAME].
Proof.
  destruct (ieee_total r) as (r1 & H1 & N1).
  destruct (iec_total r) as (r2 & H2 & N2).
  destruct (rogers_total r) as (r3 & H3 & N3).
  destruct (dornenburg_total r) as (r4 & H4 & N4).
  destruct (triangle_total r) as (r5 & H5 & N5).
  destruct (pentagon_total r) as (r6 & H6 & N6).
  exists r1, r2, r3, r4, r5, r6.
  unfold _METHODS. cbn [mapM map].
  rewrite H1, H2, H3, H4, H5, H6, N1, N2, N3, N4, N5, N6.
  repeat split; reflexivity.
Qed.

Lemma tally_sum (votes : list FaultType) :
  sum_Z (map snd (map (fun f => (name f, cnt votes f)) (first_seen votes)))
  = Z.of_nat (List.length votes).
Proof.
  rewrite <- Counter_sum, Counter_closed_form, !map_map. reflexivity.
Qed.

(** The shape of every diagnosis: six results in invocation order, the
    winner with the first-seen split of the votes, the tally and the
    rounded share of the winner. *)
Lemma diagnose_all_spec (r : GasReading) :
  exists res l1 l2,
    diagnose_all r = Ok res
    /\ map method_name (results res)
       = [ieee_c57_104.METHOD_NAME; iec_60599.METHOD_NAME;
          rogers.METHOD_NAME; dornenburg.METHOD_NAME;
          duval_triangle.METHOD_NAME; duval_pentagon.METHOD_NAME]
    /\ mapM (fun method => method r) _METHODS = Ok (results res)
    /\ List.length (map fault_type (results res)) = 6%nat
    /\ vote_counts res
       = map (fun f => (name f, cnt (map fault_type (results res)) f))
             (first_seen (map fault_type (results res)))
    /\ agreement_pct res
       = round (inject_Z (cnt (map fault_type (results res))
                              (consensus_fault res)) / 6 * 100) 1
    /\ map fault_type (results res) = l1 ++ consensus_fault res :: l2
    /\ ~ In (consensus_fault res) l1
    /\ (forall f, In f l1 ->
                  (cnt (map fault_type (results res)) f
                   < cnt (map fault_type (results res))
                         (consensus_fault res))%Z)
    /\ (forall f, (cnt (map fault_type (results res)) f
                   <= cnt (map fault_type (results res))
                          (consensus_fault res))%Z).
Proof.
  destruct (run_methods r)
    as (r1 & r2 & r3 & r4 & r5 & r6 & Hrun & _ & _ & _ & _ & _ & _ & Hnames).
  destruct (@compute_consensus_spec [r1; r2; r3; r4; r5; r6])
    as (w & l1 & l2 & Hc & Hv & Hw & Hlt & Hle); [discriminate|].
  unfold diagnose_all. rewrite Hrun. cbn [bind]. rewrite Hc. cbn [bind].
  eexists. exists l1, l2.
  split; [reflexivity|].
  cbn [results consensus_fault vote_counts agreement_pct].
  repeat (split; [first [reflexivity | assumption]|]). assumption.
Qed.

(** The share of a winner holding [k] of six votes, rounded. *)
Lemma agreement_values (k : Z) :
  (1 <= k <= 6)%Z ->
  let pct := round (inject_Z k / 6 * 100) 1 in
  (pct == 167 # 10 \/ pct == 333 # 10 \/ pct == 50 \/ pct == 667 # 10
   \/ pct == 833 # 10 \/ pct == 100)
  /\ 0 < pct /\ pct <= 100.
Proof.
  intro Hk.
  assert (H : k = 1%Z \/ k = 2%Z \/ k = 3%Z \/ k = 4%Z \/ k = 5%Z
              \/ k = 6%Z) by lia.
  destruct H as [-> | [-> | [-> | [-> | [-> | ->]]]]]; cbv zeta;
    (split; [|split; [reflexivity | discriminate]]).
  - left. reflexivity.
  - right; left. reflexivity.
  - do 2 right; left. reflexivity.
  - do 3 right; left. reflexivity.
  - do 4 right; left. reflexivity.
  - do 5 right. reflexivity.
Qed.

Lemma winner_count_range (votes l1 l2 : list FaultType) (w : FaultType) :
  List.length votes = 6%nat -> votes = l1 ++ w :: l2 ->
  (1 <= cnt votes w <= 6)%Z.
Proof.
  intros Hlen Hv. split.
  - apply cnt_in_pos. rewrite Hv. apply in_app_iff. right. now left.
  - pose proof (cnt_le_length votes w). lia.
Qed.

End ConsensusFacts.

(** ** The consensus engine: the properties claimed *)

Module Consensus.

Import normative_diagnosis_service CounterFacts ConsensusFacts.

(** C2. For every reading [diagnose_all] returns the results of the six
    classifiers; its vote counts are the number of votes of each fault that
    was voted, and they sum to 6; the consensus fault is a majority fault
    (no fault has more votes); the agreement percentage is the majority
    vote count divided by 6, times 100, rounded to one decimal, and lies
    in [0, 100]. *)
Theorem diagnose_all_votes_sum_to_six (r : GasReading) :
  exists res,
    diagnose_all r = Ok res
    /\ mapM (fun method => method r) _METHODS = Ok (results res)
    /\ vote_counts res
       = map (fun f => (name f, cnt (map fault_type (results res)) f))
             (first_seen (map fault_type (results res)))
    /\ sum_Z (map snd (vote_counts res)) = 6%Z
    /\ In (consensus_fault res) (map fault_type (results res))
    /\ (forall f, (cnt (map fault_type (results res)) f
                   <= cnt (map fault_type (results res))
                          (consensus_fault res))%Z)
    /\ agreement_pct res
       = round (inject_Z (cnt (map fault_type (results res))
                              (consensus_fault res)) / 6 * 100) 1
    /\ 0 <= agreement_pct res /\ agreement_pct res <= 100.
Proof.
  destruct (diagnose_all_spec r)
    as (res & l1 & l2 & Hres & _ & Hrun & Hlen & Hvc & Hpct & Hv & _ & _
        & Hle).
  exists res. split; [exact Hres|]. split; [exact Hrun|].
  split; [exact Hvc|]. split; [|split; [|split; [exact Hle|]]].
  - rewrite Hvc, tally_sum, Hlen. reflexivity.
  - rewrite Hv. apply in_or_app. right. left. reflexivity.
  - split; [exact Hpct|]. rewrite Hpct.
    destruct (@agreement_values _ (@winner_count_range _ _ _ _ Hlen Hv))
      as (_ & Hpos & Hle').
    split; [apply Qlt_le_weak, Hpos | exact Hle'].
Qed.

(** C3. The consensus fault has the highest vote count, and it wins ties
    by being seen first: with the votes taken in the order IEEE, IEC,
    Rogers, Dornenburg, Duval Triangle, Duval Pentagon, every fault voted
    before the first vote for the winner has strictly fewer votes, so a
    fault with as many votes as the winner first appears later. *)
Theorem diagnose_all_first_seen_wins (r : GasReading) :
  exists res before after,
    diagnose_all r = Ok res
    /\ map method_name (results res)
       = [ieee_c57_104.METHOD_NAME; iec_60599.METHOD_NAME;
          rogers.METHOD_NAME; dornenburg.METHOD_NAME;
          duval_triangle.METHOD_NAME; duval_pentagon.METHOD_NAME]
    /\ mapM (fun method => method r) _METHODS = Ok (results res)
    /\ (forall f, (cnt (map fault_type (results res)) f
                   <= cnt (map fault_type (results res))
                          (consensus_fault res))%Z)
    /\ map fault_type (results res)
       = before ++ consensus_fault res :: after
    /\ ~ In (consensus_fault res) before
    /\ (forall f, In f before ->
                  (cnt (map fault_type (results res)) f
                   < cnt (map fault_type (results res))
                         (consensus_fault res))%Z)
    /\ (forall f, cnt (map fault_type (results res)) f
                  = cnt (map fault_type (results res)) (consensus_fault res)
                  -> ~ In f before).
Proof.
  destruct (diagnose_all_spec r)
    as (res & l1 & l2 & Hres & Hn & Hrun & _ & _ & _ & Hv & Hw & Hlt & Hle).
  exists res, l1, l2. repeat (split; [assumption|]).
  intros f Heq Hf. specialize (Hlt f Hf). lia.
Qed.

(** C10. The agreement percentage is one of 16.7, 33.3, 50.0, 66.7, 83.3
    and 100.0, and never 0: the winner holds at least one of the six
    votes. *)
Theorem diagnose_all_agreement_values (r : GasReading) :
  exists res,
    diagnose_all r = Ok res
    /\ (agreement_pct res == 167 # 10 \/ agreement_pct res == 333 # 10
        \/ agreement_pct res == 50 \/ agreement_pct res == 667 # 10
        \/ agreement_pct res == 833 # 10 \/ agreement_pct res == 100)
    /\ ~ agreement_pct res == 0
    /\ (1 <= cnt (map fault_type (results res)) (consensus_fault res))%Z.
Proof.
  destruct (diagnose_all_spec r)
    as (res & l1 & l2 & Hres & _ & _ & Hlen & _ & Hpct & Hv & _).
  pose proof (@winner_count_range _ _ _ _ Hlen Hv) as Hk.
  exists res. split; [exact Hres|]. rewrite Hpct.
  destruct (@agreement_values _ Hk) as (Hvals & Hpos & _).
  split; [exact Hvals|]. split; [|apply Hk].
  intro H0. rewrite H0 in Hpos. exact (Qlt_irrefl 0 Hpos).
Qed.

End Consensus.

(** ** diagnose_single *)

Module Single.

Import normative_diagnosis_service ConsensusFacts.

Ltac lower_names :=
  change (lower ieee_c57_104.METHOD_NAME) with "ieee c57.104-2019"%string;
  change (lower iec_60599.METHOD_NAME) with "iec 60599:2022"%string;
  change (lower rogers.METHOD_NAME) with "rogers"%string;
  change (lower dornenburg.METHOD_NAME) with "dornenburg"%string;
  change (lower duval_triangle.METHOD_NAME)
    with "triangulo de duval 1"%string;
  change (lower duval_pentagon.METHOD_NAME)
    with "pentagono de duval 1"%string.

(** C9. [diagnose_single] returns, without raising, the result of the
    classifier whose method name equals the requested one up to letter
    case, and [None] when no classifier has that name. *)
Theorem diagnose_single_by_name (r : GasReading) (requested : string) :
  (forall method res,
      In method _METHODS -> method r = Ok res ->
      lower (method_name res) = lower requested ->
      diagnose_single r requested = Ok (Some res))
  /\ ((forall method res,
          In method _METHODS -> method r = Ok res ->
          lower (method_name res) <> lower requested) ->
      diagnose_single r requested = Ok None).
Proof.
  destruct (run_methods r)
    as (r1 & r2 & r3 & r4 & r5 & r6 & _ & H1 & H2 & H3 & H4 & H5 & H6 & Hn).
  injection Hn as N1 N2 N3 N4 N5 N6.
  assert (Hds : diagnose_single r requested
                = if String.eqb (lower (method_name r1)) (lower requested)
                  then Ok (Some r1)
                  else if String.eqb (lower (method_name r2)) (lower requested)
                  then Ok (Some r2)
                  else if String.eqb (lower (method_name r3)) (lower requested)
                  then Ok (Some r3)
                  else if String.eqb (lower (method_name r4)) (lower requested)
                  then Ok (Some r4)
                  else if String.eqb (lower (method_name r5)) (lower requested)
                  then Ok (Some r5)
                  else if String.eqb (lower (method_name r6)) (lower requested)
                  then Ok (Some r6)
                  else Ok None).
  { unfold diagnose_single, _METHODS. cbn [find_method].
    rewrite H1. cbn [bind]. destruct (String.eqb _ _); [reflexivity|].
    rewrite H2. cbn [bind]. destruct (String.eqb _ _); [reflexivity|].
    rewrite H3. cbn [bind]. destruct (String.eqb _ _); [reflexivity|].
    rewrite H4. cbn [bind]. destruct (String.eqb _ _); [reflexivity|].
    rewrite H5. cbn [bind]. destruct (String.eqb _ _); [reflexivity|].
    rewrite H6. cbn [bind]. destruct (String.eqb _ _); reflexivity. }
  rewrite Hds. clear Hds. split.
  - intros method res Hin Hm Hl.
    assert (Hcase : res = r1 \/ res = r2 \/ res = r3 \/ res = r4
                    \/ res = r5 \/ res = r6).
    { unfold _METHODS in Hin. cbn [In] in Hin.
      destruct Hin as [<- | [<- | [<- | [<- | [<- | [<- | []]]]]]];
        [rewrite H1 in Hm | rewrite H2 in Hm | rewrite H3 in Hm
         | rewrite H4 in Hm | rewrite H5 in Hm | rewrite H6 in Hm];
        injection Hm as <-; tauto. }
    destruct Hcase as [-> | [-> | [-> | [-> | [-> | ->]]]]];
      rewrite <- Hl; rewrite N1, N2, N3, N4, N5, N6; lower_names;
      reflexivity.
  - intro Hnone.
    assert (Hf : forall method res,
               In method _METHODS -> method r = Ok res ->
               String.eqb (lower (method_name res)) (lower requested)
               = false).
    { intros method res Hin Hm. apply String.eqb_neq.
      exact (Hnone method res Hin Hm). }
    unfold _METHODS in Hf. cbn [In] in Hf.
    rewrite (Hf _ r1 (or_introl eq_refl) H1).
    rewrite (Hf _ r2 (or_intror (or_introl eq_refl)) H2).
    rewrite (Hf _ r3 (or_intror (or_intror (or_introl eq_refl))) H3).
    rewrite (Hf _ r4
               (or_intror (or_intror (or_intror (or_introl eq_refl)))) H4).
    rewrite (Hf _ r5
               (or_intror (or_intror (or_intror (or_intror
                 (or_introl eq_refl))))) H5).
    rewrite (Hf _ r6
               (or_intror (or_intror (or_intror (or_intror (or_intror
                 (or_introl eq_refl)))))) H6).
    reflexivity.
Qed.

End Single.

(** ** The Duval classifiers and their applicability gate *)

Module Duval.

Lemma classify_triangle_zone (a b c : Q) :
  In (fst (duval_triangle._classify_zone a b c)) triangle_zones.
Proof.
  unfold duval_triangle._classify_zone, triangle_zones.
  repeat match goal with
  | |- context [if ?t then _ else _] => destruct t
  end; cbn; tauto.
Qed.

Lemma classify_pentagon_zone (a b c d e : Q) :
  In (fst (duval_pentagon._classify_zone a b c d e)) pentagon_zones.
Proof.
  unfold duval_pentagon._classify_zone, pentagon_zones.
  repeat match goal with
  | |- context [if ?t then _ else _] => destruct t
  end; cbn; tauto.
Qed.

(** The triangle half of C4: N and not applicable exactly when the three
    percentages are zero, otherwise one of the seven zones, applicable. *)
Lemma duval_triangle_gate (r : GasReading) :
  exists a b c res,
    gas_ratios.duval_triangle_percentages r = Ok (a, b, c)
    /\ duval_triangle.diagnose r = Ok res
    /\ (a == 0 /\ b == 0 /\ c == 0 ->
        fault_type res = N /\ applicable res = Some (VBool false))
    /\ (~ (a == 0 /\ b == 0 /\ c == 0) ->
        In (fault_type res) triangle_zones
        /\ applicable res = Some (VBool true)).
Proof.
  destruct (triangle_percentages_total r) as (a & b & c & Hp).
  exists a, b, c. unfold duval_triangle.diagnose. rewrite Hp. cbn [bind].
  destruct (Qeq_bool a 0) eqn:Ea; [|
    apply Qeq_bool_false in Ea; cbn [andb] ].
  - destruct (Qeq_bool b 0) eqn:Eb; [|
      apply Qeq_bool_false in Eb; cbn [andb] ].
    + destruct (Qeq_bool c 0) eqn:Ec; [|
        apply Qeq_bool_false in Ec; cbn [andb] ].
      * apply Qeq_bool_iff in Ea, Eb, Ec. cbn [andb].
        eexists. split; [reflexivity|]. split; [reflexivity|].
        split; [intros _; split; reflexivity | tauto].
      * pose proof (classify_triangle_zone a b c) as Hz.
        destruct (duval_triangle._classify_zone a b c) as [f d].
        eexists. split; [reflexivity|]. split; [reflexivity|].
        split; [tauto | intros _; split; [exact Hz | reflexivity]].
    + pose proof (classify_triangle_zone a b c) as Hz.
      destruct (duval_triangle._classify_zone a b c) as [f d].
      eexists. split; [reflexivity|]. split; [reflexivity|].
      split; [tauto | intros _; split; [exact Hz | reflexivity]].
  - pose proof (classify_triangle_zone a b c) as Hz.
    destruct (duval_triangle._classify_zone a b c) as [f d].
    eexists. split; [reflexivity|]. split; [reflexivity|].
    split; [tauto | intros _; split; [exact Hz | reflexivity]].
Qed.

(** C4, at the reading with ethylene only.  The reading is accepted by the
    constructor, its pentagon percentages are (0, 0, 0, 100, 0), and yet
    the pentagon classifier answers N, not applicable: its gate tests only
    the first three percentages. *)
Theorem duval_pentagon_gate_misses_ethylene :
  valid_reading ETHYLENE_ONLY
  /\ (exists a b c d e,
         gas_ratios.duval_pentagon_percentages ETHYLENE_ONLY
         = Ok (a, b, c, d, e)
         /\ a == 0 /\ b == 0 /\ c == 0 /\ d == 100 /\ e == 0)
  /\ (exists res,
         duval_pentagon.diagnose ETHYLENE_ONLY = Ok res
         /\ fault_type res = N
         /\ applicable res = Some (VBool false)).
Proof.
  split; [reflexivity|]. split.
  - do 5 eexists. split; [reflexivity|].
    repeat split; reflexivity.
  - eexists. split; [reflexivity|]. split; reflexivity.
Qed.

End Duval.

(** ** Instances on the sample readings *)

Module Samples.

Import normative_diagnosis_service.

Lemma duval_percentages_sum_witness :
  (exists a b c,
      gas_ratios.duval_triangle_percentages ARCING_READING = Ok (a, b, c)
      /\ a + b + c == 100 /\ Qabs (a + b + c - 100) <= 1 # 10)
  /\ gas_ratios.duval_triangle_percentages ZERO_READING = Ok (0, 0, 0)
  /\ (exists a b c d e,
         gas_ratios.duval_pentagon_percentages ARCING_READING
         = Ok (a, b, c, d, e)
         /\ a + b + c + d + e == 100
         /\ Qabs (a + b + c + d + e - 100) <= 1 # 10)
  /\ gas_ratios.duval_pentagon_percentages ZERO_READING
     = Ok (0, 0, 0, 0, 0).
Proof.
  assert (Ha : valid_reading ARCING_READING) by reflexivity.
  assert (Hz : valid_reading ZERO_READING) by reflexivity.
  split; [|split; [|split]].
  - apply (proj1 (@duval_percentages_sum ARCING_READING Ha)).
    intro H. vm_compute in H. discriminate H.
  - apply (proj1 (proj2 (@duval_percentages_sum ZERO_READING Hz))).
    reflexivity.
  - apply (proj1 (proj2 (proj2 (@duval_percentages_sum ARCING_READING Ha)))).
    intro H. vm_compute in H. discriminate H.
  - apply (proj2 (proj2 (proj2 (@duval_percentages_sum ZERO_READING Hz)))).
    reflexivity.
Defined.

Lemma diagnose_single_by_name_witness :
  (exists res,
      rogers.diagnose NORMAL_READING = Ok res
      /\ diagnose_single NORMAL_READING "ROGERS"%string = Ok (Some res))
  /\ diagnose_single NORMAL_READING "MetodoInventado"%string = Ok None.
Proof.
  split.
  - destruct (rogers_total NORMAL_READING) as (res & Hres & Hname).
    exists res. split; [exact Hres|].
    apply (proj1 (Single.diagnose_single_by_name NORMAL_READING "ROGERS"%string)
             rogers.diagnose res).
    + unfold _METHODS. cbn [In]. tauto.
    + exact Hres.
    + rewrite Hname. reflexivity.
  - apply (proj2 (Single.diagnose_single_by_name NORMAL_READING "MetodoInventado"%string)).
    intros method res Hin Hm.
    unfold _METHODS in Hin. cbn [In] in Hin.
    destruct Hin as [<- | [<- | [<- | [<- | [<- | [<- | []]]]]]];
      vm_compute in Hm; injection Hm as <-; discriminate.
Defined.

End Samples.

(** ** numpy: unique, bincount and the smallest class *)

Module NumpyFacts.

Lemma insert_unique_In (v z : Z) (s : list Z) :
  In z (np.insert_unique v s) <-> z = v \/ In z s.
Proof.
  induction s as [|x s IH]; cbn [np.insert_unique In].
  - intuition congruence.
  - destruct (Z.ltb_spec v x).
    + cbn [In]. intuition congruence.
    + destruct (Z.eqb_spec v x) as [-> | Hne].
      * cbn [In]. intuition congruence.
      * cbn [In]. rewrite IH. intuition congruence.
Qed.

Lemma unique_In (y : list Z) (z : Z) : In z (np.unique y) <-> In z y.
Proof.
  induction y as [|v y IH]; [reflexivity|].
  unfold np.unique in *. cbn [fold_right In].
  rewrite insert_unique_In, IH. intuition congruence.
Qed.

Lemma insert_unique_sorted (v : Z) (s : list Z) :
  StronglySorted Z.lt s -> StronglySorted Z.lt (np.insert_unique v s).
Proof.
  induction s as [|x s IH]; intro Hs; cbn [np.insert_unique].
  - repeat constructor.
  - inversion Hs as [|? ? Hs' Hx]; subst.
    destruct (Z.ltb_spec v x).
    + constructor; [exact Hs|]. constructor; [exact H|].
      eapply Forall_impl; [|exact Hx]. cbv beta. intros; lia.
    + destruct (Z.eqb_spec v x) as [-> | Hne]; [exact Hs|].
      constructor; [apply IH, Hs'|].
      apply Forall_forall. intros z Hz. apply insert_unique_In in Hz.
      destruct Hz as [-> | Hz]; [lia|].
      rewrite Forall_forall in Hx. apply Hx, Hz.
Qed.

Lemma unique_sorted (y : list Z) : StronglySorted Z.lt (np.unique y).
Proof.
  induction y as [|v y IH]; [constructor|].
  apply insert_unique_sorted, IH.
Qed.

Lemma sorted_NoDup (s : list Z) : StronglySorted Z.lt s -> NoDup s.
Proof.
  induction 1 as [|x s Hs IH Hx]; constructor; [|exact IH].
  intro Hin. rewrite Forall_forall in Hx. specialize (Hx _ Hin). lia.
Qed.

(** [np.unique] has as many entries as there are distinct labels. *)
Lemma unique_length (y : list Z) :
  List.length (np.unique y) = distinct_labels y.
Proof.
  unfold distinct_labels. apply Permutation_length, NoDup_Permutation.
  - apply sorted_NoDup, unique_sorted.
  - apply NoDup_nodup.
  - intro z. rewrite unique_In, nodup_In. reflexivity.
Qed.

Lemma fold_max_spec (l : list Z) :
  forall x, (forall z, In z (x :: l) -> (z <= fold_left Z.max l x)%Z).
Proof.
  induction l as [|a l IH]; intros x z Hz; cbn [fold_left].
  - destruct Hz as [-> | []]. lia.
  - destruct Hz as [-> | Hz].
    + specialize (IH (Z.max z a) (Z.max z a) (or_introl eq_refl)). lia.
    + destruct Hz as [-> | Hz].
      * specialize (IH (Z.max x z) (Z.max x z) (or_introl eq_refl)). lia.
      * apply IH. now right.
Qed.

Lemma fold_min_spec (l : list Z) :
  forall x,
    In (fold_left Z.min l x) (x :: l)
    /\ forall z, In z (x :: l) -> (fold_left Z.min l x <= z)%Z.
Proof.
  induction l as [|a l IH]; intro x; cbn [fold_left].
  - split; [now left|]. intros z [-> | []]. lia.
  - destruct (IH (Z.min x a)) as [Hin Hle]. split.
    + destruct Hin as [Heq | Hin]; [|right; now right].
      rewrite <- Heq. destruct (Z.min_spec x a) as [[_ ->] | [_ ->]];
        [now left | right; now left].
    + intros z Hz.
      assert (H0 : (fold_left Z.min l (Z.min x a) <= Z.min x a)%Z)
        by (apply Hle; now left).
      destruct Hz as [-> | [-> | Hz]]; [lia | lia |].
      apply Hle. now right.
Qed.

(** Two non-empty lists with the same elements have the same minimum. *)
Lemma fold_min_ext (x1 x2 : Z) (l1 l2 : list Z) :
  (forall z, In z (x1 :: l1) <-> In z (x2 :: l2)) ->
  fold_left Z.min l1 x1 = fold_left Z.min l2 x2.
Proof.
  intro Hext.
  destruct (fold_min_spec l1 x1) as [Hin1 Hle1].
  destruct (fold_min_spec l2 x2) as [Hin2 Hle2].
  apply Z.le_antisymm.
  - apply Hle1, Hext, Hin2.
  - apply Hle2, Hext, Hin1.
Qed.

Lemma bincount_nonneg (y : list Z) :
  Forall (fun v => (0 <= v)%Z) y ->
  np.bincount y
  = Ok (map (fun i => np.count (Z.of_nat i) y)
            (seq 0 match y with
                   | [] => O
                   | v :: y' => Datatypes.S (Z.to_nat (fold_left Z.max y' v))
                   end)).
Proof.
  intro Hy. unfold np.bincount.
  replace (existsb (fun v => (v <? 0)%Z) y) with false; [reflexivity|].
  symmetry. apply not_true_is_false. intro H.
  apply existsb_exists in H. destruct H as (v & Hv & Hneg).
  rewrite Forall_forall in Hy. specialize (Hy _ Hv).
  apply Z.ltb_lt in Hneg. lia.
Qed.

Lemma take_counts (y : list Z) (counts : list Z) :
  Forall (fun v => (0 <= v)%Z) y ->
  np.bincount y = Ok counts ->
  forall idx,
    (forall c, In c idx -> In c y) ->
    np.take counts idx = Ok (map (fun c => np.count c y) idx).
Proof.
  intros Hy Hb. rewrite (bincount_nonneg Hy) in Hb. injection Hb as <-.
  induction idx as [|c idx IH]; intro Hidx; [reflexivity|].
  unfold np.take in *. cbn [mapM map].
  assert (Hc : In c y) by (apply Hidx; now left).
  destruct y as [|v y']; [destruct Hc|].
  rewrite nth_error_map, nth_error_seq.
  pose proof (@fold_max_spec y' v c Hc) as Hmax.
  rewrite Forall_forall in Hy. specialize (Hy _ Hc).
  replace (Z.to_nat c <? Datatypes.S (Z.to_nat (fold_left Z.max y' v)))%nat
    with true by (symmetry; apply Nat.ltb_lt; lia).
  cbn [option_map bind Nat.add]. rewrite Z2Nat.id by exact Hy.
  rewrite IH by (intros c' Hc'; apply Hidx; now right).
  reflexivity.
Qed.

(** The three numpy steps of the fold adaptation, on non-negative labels:
    the count of the least represented class. *)
Lemma min_class_count_spec (y : list Z) :
  Forall (fun v => (0 <= v)%Z) y -> y <> [] ->
  exists counts,
    np.bincount y = Ok counts
    /\ np.take counts (np.unique y)
       = Ok (map (fun c => np.count c y) (np.unique y))
    /\ min_Z (map (fun c => np.count c y) (np.unique y))
       = Ok (smallest_class_count y).
Proof.
  intros Hy Hne. eexists. split; [apply (bincount_nonneg Hy)|]. split.
  - apply (take_counts Hy (bincount_nonneg Hy)).
    intros c Hc. now apply unique_In.
  - unfold smallest_class_count.
    destruct (map (fun c => np.count c y) (np.unique y)) as [|n1 ns1] eqn:E1.
    { exfalso. apply map_eq_nil in E1.
      destruct y as [|v y']; [congruence|].
      assert (Hv : In v (np.unique (v :: y'))) by (apply unique_In; now left).
      rewrite E1 in Hv. destruct Hv. }
    destruct (map (fun c => np.count c y) y) as [|n2 ns2] eqn:E2.
    { apply map_eq_nil in E2. congruence. }
    cbn [min_Z]. f_equal. apply fold_min_ext. intro z.
    rewrite <- E1, <- E2, !in_map_iff.
    split; intros (c & Hc & Hin); exists c; (split; [exact Hc|]);
      now apply unique_In.
Qed.

Lemma distinct_labels_nonempty (y : list Z) :
  (2 <= distinct_labels y)%nat -> y <> [].
Proof.
  intros H ->. cbn in H. lia.
Qed.

End NumpyFacts.

(** ** list.sort *)

Module SortFacts.

Lemma firstn_length_app (A : Type) (l1 l2 : list A) :
  firstn (List.length l1) (l1 ++ l2) = l1.
Proof.
  induction l1 as [|a l1 IH]; cbn [List.length firstn app];
    [reflexivity | now rewrite IH].
Qed.

Lemma skipn_length_app (A : Type) (l1 l2 : list A) :
  skipn (List.length l1) (l1 ++ l2) = l2.
Proof.
  induction l1 as [|a l1 IH]; cbn; [reflexivity | exact IH].
Qed.

Lemma firstn_succ_length_app (A : Type) (l1 l2 : list A) (x : A) :
  firstn (Datatypes.S (List.length l1)) (l1 ++ x :: l2) = l1 ++ [x].
Proof.
  induction l1 as [|a l1 IH]; [reflexivity|].
  cbn [List.length app]. rewrite firstn_cons, IH. reflexivity.
Qed.

Lemma skipn_succ_length_app (A : Type) (l1 l2 : list A) (x : A) :
  skipn (Datatypes.S (List.length l1)) (l1 ++ x :: l2) = l2.
Proof.
  induction l1 as [|a l1 IH]; [reflexivity|].
  cbn [List.length app]. rewrite skipn_cons. exact IH.
Qed.

Lemma filter_all (A : Type) (f : A -> bool) (l : list A) :
  Forall (fun x => f x = true) l -> filter f l = l.
Proof.
  induction 1 as [|x l Hx _ IH]; cbn [filter]; [reflexivity|].
  now rewrite Hx, IH.
Qed.

Lemma filter_none (A : Type) (f : A -> bool) (l : list A) :
  Forall (fun x => f x = false) l -> filter f l = [].
Proof.
  induction 1 as [|x l Hx _ IH]; cbn [filter]; [reflexivity|].
  now rewrite Hx, IH.
Qed.

Lemma StronglySorted_app (A : Type) (R : A -> A -> Prop) (l1 l2 : list A) :
  StronglySorted R l1 -> StronglySorted R l2 ->
  (forall a b, In a l1 -> In b l2 -> R a b) ->
  StronglySorted R (l1 ++ l2).
Proof.
  induction l1 as [|a l1 IH]; intros H1 H2 H12; [exact H2|].
  inversion H1 as [|? ? H1' Ha]; subst. cbn [app]. constructor.
  - apply IH; [exact H1' | exact H2|].
    intros x y Hx Hy. apply H12; [now right | exact Hy].
  - apply Forall_app. split; [exact Ha|].
    apply Forall_forall. intros y Hy. apply H12; [now left | exact Hy].
Qed.

Lemma StronglySorted_app_inv (A : Type) (R : A -> A -> Prop)
  (l1 l2 : list A) :
  StronglySorted R (l1 ++ l2) ->
  StronglySorted R l1 /\ StronglySorted R l2
  /\ forall a b, In a l1 -> In b l2 -> R a b.
Proof.
  induction l1 as [|a l1 IH]; cbn [app]; intro H.
  - split; [constructor|]. split; [exact H|]. intros a b [].
  - inversion H as [|? ? H' Ha]; subst.
    destruct (IH H') as (H1 & H2 & H12).
    apply Forall_app in Ha. destruct Ha as [Ha1 Ha2].
    split; [constructor; assumption|]. split; [exact H2|].
    intros x y [<- | Hx] Hy.
    + rewrite Forall_forall in Ha2. apply Ha2, Hy.
    + apply H12; assumption.
Qed.

Lemma StronglySorted_filter (A : Type) (R : A -> A -> Prop)
  (f : A -> bool) (l : list A) :
  StronglySorted R l -> StronglySorted R (filter f l).
Proof.
  induction 1 as [|a l _ IH Ha]; cbn [filter]; [constructor|].
  destruct (f a); [|exact IH]. constructor; [exact IH|].
  apply Forall_forall. intros x Hx. apply filter_In in Hx.
  rewrite Forall_forall in Ha. apply Ha, Hx.
Qed.

Lemma StronglySorted_rev (A : Type) (R : A -> A -> Prop) (l : list A) :
  StronglySorted R l -> StronglySorted (fun a b => R b a) (rev l).
Proof.
  induction 1 as [|a l _ IH Ha]; cbn [rev]; [constructor|].
  apply StronglySorted_app; [exact IH | repeat constructor|].
  intros x y Hx [<- | []]. apply in_rev in Hx.
  rewrite Forall_forall in Ha. apply Ha, Hx.
Qed.

Section Generic.

Variable A : Type.
Variable lt : A -> A -> bool.

Lemma binary_insert_perm (fuel : nat) (pivot : A) (s : list A) :
  Permutation (pylist.binary_insert lt fuel pivot s) (pivot :: s).
Proof.
  revert s. induction fuel as [|fuel IH]; intro s; [reflexivity|].
  cbn [pylist.binary_insert]. destruct s as [|a s']; [reflexivity|].
  destruct (nth_error (a :: s') _) as [x|]; [|reflexivity].
  destruct (lt pivot x).
  - rewrite IH. cbn [app]. now rewrite firstn_skipn.
  - rewrite IH, <- Permutation_middle. now rewrite firstn_skipn.
Qed.

(** Probes beyond [length s] are never used: more fuel changes
    nothing. *)
Lemma binary_insert_fuel (pivot : A) (fuel : nat) :
  forall fuel' s,
    (List.length s <= fuel)%nat -> (List.length s <= fuel')%nat ->
    pylist.binary_insert lt fuel pivot s
    = pylist.binary_insert lt fuel' pivot s.
Proof.
  induction fuel as [|fuel IH]; intros fuel' s H H'.
  - destruct s; [|cbn in H; lia]. destruct fuel'; reflexivity.
  - destruct fuel' as [|fuel'].
    + destruct s; [reflexivity | cbn in H'; lia].
    + cbn [pylist.binary_insert]. destruct s as [|a s']; [reflexivity|].
      remember (a :: s') as l eqn:Hl.
      assert (Hpos : (0 < List.length l)%nat) by (subst l; cbn; lia).
      assert (Hmid : (Nat.div (List.length l) 2 < List.length l)%nat)
        by (apply Nat.div_lt; lia).
      destruct (nth_error l _) as [x|]; [|reflexivity].
      destruct (lt pivot x).
      * f_equal. apply IH; rewrite length_firstn; lia.
      * f_equal. apply IH; rewrite length_skipn; lia.
Qed.

Lemma ascending_run_app (l : list A) :
  forall prev,
    fst (pylist.ascending_run lt prev l)
    ++ snd (pylist.ascending_run lt prev l) = l.
Proof.
  induction l as [|x l IH]; intro prev; cbn [pylist.ascending_run];
    [reflexivity|].
  destruct (lt x prev); [reflexivity|].
  specialize (IH x). destruct (pylist.ascending_run lt x l) as [run rest].
  cbn [fst snd app] in *. now rewrite IH.
Qed.

Lemma descending_run_app (l : list A) :
  forall prev,
    fst (pylist.descending_run lt prev l)
    ++ snd (pylist.descending_run lt prev l) = l.
Proof.
  induction l as [|x l IH]; intro prev; cbn [pylist.descending_run];
    [reflexivity|].
  destruct (lt x prev); [|reflexivity].
  specialize (IH x). destruct (pylist.descending_run lt x l) as [run rest].
  cbn [fst snd app] in *. now rewrite IH.
Qed.

Lemma count_run_perm (l : list A) :
  Permutation (fst (pylist.count_run lt l) ++ snd (pylist.count_run lt l)) l.
Proof.
  destruct l as [|a [|b l]]; cbn [pylist.count_run]; try reflexivity.
  destruct (lt b a).
  - pose proof (descending_run_app l b) as H.
    destruct (pylist.descending_run lt b l) as [run rest].
    cbn [fst snd] in *. rewrite <- H.
    rewrite <- (Permutation_rev (a :: b :: run)). reflexivity.
  - pose proof (ascending_run_app l b) as H.
    destruct (pylist.ascending_run lt b l) as [run rest].
    cbn [fst snd] in *. rewrite <- H. reflexivity.
Qed.

Lemma binarysort_perm (rest : list A) :
  forall run, Permutation (pylist.binarysort lt run rest) (run ++ rest).
Proof.
  unfold pylist.binarysort.
  induction rest as [|x rest IH]; intro run; cbn [fold_left].
  - now rewrite app_nil_r.
  - rewrite IH, binary_insert_perm. cbn [app]. apply Permutation_middle.
Qed.

(** Whatever the comparison answers, sorting rearranges the list. *)
Lemma sort_perm (reverse : bool) (l : list A) :
  Permutation (pylist.sort lt reverse l) l.
Proof.
  unfold pylist.sort.
  pose proof (count_run_perm (if reverse then rev l else l)) as H.
  destruct (pylist.count_run lt _) as [run rest]. cbn [fst snd] in H.
  destruct reverse.
  - rewrite <- Permutation_rev, binarysort_perm, H.
    symmetry. apply Permutation_rev.
  - rewrite binarysort_perm. exact H.
Qed.

(** *** When the keys are numbers *)

Variable key : A -> Q.
Variable good : A -> Prop.
Hypothesis lt_key :
  forall a b, good a -> good b -> lt a b = Qlt_bool (key a) (key b).

Local Abbreviation asc := (fun a b : A => key a <= key b).
Local Abbreviation no_greater pivot := (fun x : A => negb (lt pivot x)).
Local Abbreviation greater pivot := (fun x : A => lt pivot x).

Lemma lt_true (a b : A) :
  good a -> good b -> lt a b = true -> key a < key b.
Proof.
  intros Ha Hb H. rewrite (lt_key Ha Hb) in H. now apply Qlt_bool_true.
Qed.

Lemma lt_false (a b : A) :
  good a -> good b -> lt a b = false -> key b <= key a.
Proof.
  intros Ha Hb H. rewrite (lt_key Ha Hb) in H. now apply Qlt_bool_false.
Qed.

Lemma lt_true_intro (a b : A) :
  good a -> good b -> key a < key b -> lt a b = true.
Proof.
  intros Ha Hb H. rewrite (lt_key Ha Hb). now apply Qlt_bool_true.
Qed.

Lemma lt_false_intro (a b : A) :
  good a -> good b -> key b <= key a -> lt a b = false.
Proof.
  intros Ha Hb H. rewrite (lt_key Ha Hb). now apply Qlt_bool_false.
Qed.

(** On a sorted slice the binary search finds the place after the
    elements that are not greater than the pivot. *)
Lemma binary_insert_form (pivot : A) (fuel : nat) :
  good pivot ->
  forall s,
    (List.length s <= fuel)%nat -> Forall good s -> StronglySorted asc s ->
    pylist.binary_insert lt fuel pivot s
    = filter (no_greater pivot) s ++ pivot :: filter (greater pivot) s.
Proof.
  intro Hp. induction fuel as [|fuel IH]; intros s Hlen Hg Hs.
  - destruct s; [reflexivity | cbn in Hlen; lia].
  - cbn [pylist.binary_insert]. destruct s as [|a s']; [reflexivity|].
    remember (a :: s') as l eqn:Hl0.
    assert (Hpos : (0 < List.length l)%nat) by (subst l; cbn; lia).
    clear Hl0 a s'.
    assert (Hmid : (Nat.div (List.length l) 2 < List.length l)%nat)
      by (apply Nat.div_lt; lia).
    destruct (nth_error l (Nat.div (List.length l) 2)) as [x|] eqn:E;
      [|apply nth_error_None in E; lia].
    apply nth_error_split in E. destruct E as (l1 & l2 & Hl & Hl1).
    rewrite <- Hl1. clear Hmid Hpos Hl1. subst l.
    rewrite firstn_length_app, skipn_length_app, firstn_succ_length_app,
      skipn_succ_length_app.
    apply StronglySorted_app_inv in Hs. destruct Hs as (S1 & S2 & H12).
    inversion S2 as [|? ? S2' Hx]; subst.
    apply Forall_app in Hg. destruct Hg as [G1 G2].
    inversion G2 as [|? ? Gx G2']; subst.
    rewrite length_app in Hlen. cbn [List.length] in Hlen.
    rewrite Forall_forall in Hx, G1, G2'.
    destruct (lt pivot x) eqn:E.
    + rewrite IH by (assumption || lia || (apply Forall_forall; assumption)).
      rewrite !filter_app.
      rewrite (@filter_none _ (no_greater pivot) (x :: l2)),
        (@filter_all _ (greater pivot) (x :: l2)).
      * rewrite app_nil_r, <- app_assoc. reflexivity.
      * constructor; [exact E|]. apply Forall_forall. intros y Hy.
        apply lt_true_intro; [exact Hp | apply G2', Hy|].
        eapply Qlt_le_trans; [apply (lt_true Hp Gx E) | apply Hx, Hy].
      * constructor; [now rewrite E|]. apply Forall_forall. intros y Hy.
        apply negb_false_iff.
        apply lt_true_intro; [exact Hp | apply G2', Hy|].
        eapply Qlt_le_trans; [apply (lt_true Hp Gx E) | apply Hx, Hy].
    + rewrite IH by (assumption || lia || (apply Forall_forall; assumption)).
      replace (l1 ++ x :: l2) with ((l1 ++ [x]) ++ l2)
        by (rewrite <- app_assoc; reflexivity).
      rewrite (filter_app (no_greater pivot) (l1 ++ [x]) l2),
        (filter_app (greater pivot) (l1 ++ [x]) l2).
      assert (Hle : Forall (fun y => lt pivot y = false) (l1 ++ [x])).
      { apply Forall_app. split; [|constructor; [exact E | constructor]].
        apply Forall_forall. intros y Hy.
        apply lt_false_intro; [exact Hp | apply G1, Hy|].
        eapply Qle_trans; [apply (H12 y x Hy); now left|].
        apply (lt_false Hp Gx E). }
      rewrite (@filter_all _ (no_greater pivot) (l1 ++ [x])),
        (@filter_none _ (greater pivot) (l1 ++ [x])); [|exact Hle|].
      * cbn [app]. rewrite <- !app_assoc. reflexivity.
      * eapply Forall_impl; [|exact Hle]. cbn. intros y Hy. now rewrite Hy.
Qed.

Lemma binary_insert_sorted (pivot : A) (s : list A) :
  good pivot -> Forall good s -> StronglySorted asc s ->
  StronglySorted asc (pylist.binary_insert lt (List.length s) pivot s)
  /\ Forall good (pylist.binary_insert lt (List.length s) pivot s).
Proof.
  intros Hp Hg Hs. split.
  - rewrite (binary_insert_form Hp (le_n _) Hg Hs).
    rewrite Forall_forall in Hg.
    apply StronglySorted_app.
    + apply StronglySorted_filter, Hs.
    + constructor; [apply StronglySorted_filter, Hs|].
      apply Forall_forall. intros y Hy. apply filter_In in Hy.
      destruct Hy as [Hy E]. apply Qlt_le_weak.
      apply (lt_true Hp (Hg _ Hy) E).
    + intros a b Ha Hb. apply filter_In in Ha. destruct Ha as [Ha Ea].
      apply negb_true_iff in Ea.
      pose proof (lt_false Hp (Hg _ Ha) Ea) as Hap.
      destruct Hb as [<- | Hb]; [exact Hap|].
      apply filter_In in Hb. destruct Hb as [Hb Eb].
      eapply Qle_trans; [exact Hap|]. apply Qlt_le_weak.
      apply (lt_true Hp (Hg _ Hb) Eb).
  - eapply Permutation_Forall;
      [symmetry; apply binary_insert_perm | constructor; assumption].
Qed.


(** The last element of the sorted slice is the one, among the greatest
    of the elements inserted so far, that was inserted last. *)
Lemma binarysort_last (rest : list A) :
  forall run processed s x p1 p2,
    Forall good run -> Forall good rest -> StronglySorted asc run ->
    run = s ++ [x] -> processed = p1 ++ x :: p2 ->
    Forall (fun m => key m <= key x) p1 ->
    Forall (fun m => key m < key x) p2 ->
    exists s' x' p1' p2',
      pylist.binarysort lt run rest = s' ++ [x']
      /\ processed ++ rest = p1' ++ x' :: p2'
      /\ Forall (fun m => key m <= key x') p1'
      /\ Forall (fun m => key m < key x') p2'.
Proof.
  unfold pylist.binarysort.
  induction rest as [|pivot rest IH];
    intros run processed s x p1 p2 Hg Hr Hs Hrun Hproc H1 H2;
    cbn [fold_left].
  - exists s, x, p1, p2. rewrite app_nil_r. repeat split; assumption.
  - inversion Hr as [|? ? Hp Hr']; subst run processed.
    destruct (binary_insert_sorted Hp Hg Hs) as [Hs' Hg'].
    rewrite (binary_insert_form Hp (le_n _) Hg Hs) in *.
    pose proof Hg as Hg0. apply Forall_app in Hg0.
    destruct Hg0 as [Gs Gx]. inversion Gx as [|? ? Gx' _]; subst.
    apply StronglySorted_app_inv in Hs. destruct Hs as (_ & _ & Hsx).
    replace ((p1 ++ x :: p2) ++ pivot :: rest)
      with (((p1 ++ x :: p2) ++ [pivot]) ++ rest)
      by (rewrite <- !app_assoc; reflexivity).
    destruct (lt pivot x) eqn:E.
    + eapply (IH _ _ _ x p1 (p2 ++ [pivot])); try assumption.
      * rewrite !filter_app. cbn [filter]. rewrite E. cbn [negb filter].
        rewrite app_nil_r.
        rewrite app_comm_cons, app_assoc. reflexivity.
      * rewrite <- app_assoc. reflexivity.
      * apply Forall_app. split; [exact H2|].
        constructor; [apply (lt_true Hp Gx' E) | constructor].
    + pose proof (lt_false Hp Gx' E) as Hxp.
      assert (Hall : Forall (fun y => lt pivot y = false) (s ++ [x])).
      { apply Forall_app. split; [|constructor; [exact E | constructor]].
        rewrite Forall_forall in Gs. apply Forall_forall. intros y Hy.
        apply lt_false_intro; [exact Hp | apply Gs, Hy|].
        eapply Qle_trans; [apply (Hsx y x Hy); now left | exact Hxp]. }
      eapply (IH _ _ _ pivot (p1 ++ x :: p2) []); try assumption.
      * rewrite (@filter_all _ (no_greater pivot) (s ++ [x])),
          (@filter_none _ (greater pivot) (s ++ [x])); [reflexivity | |].
        -- exact Hall.
        -- eapply Forall_impl; [|exact Hall]. cbn. intros y Hy.
           now rewrite Hy.
      * reflexivity.
      * apply Forall_app. split.
        -- eapply Forall_impl; [|exact H1]. cbn. intros y Hy.
           eapply Qle_trans; [exact Hy | exact Hxp].
        -- constructor; [exact Hxp|].
           eapply Forall_impl; [|exact H2]. cbn. intros y Hy.
           apply Qlt_le_weak. eapply Qlt_le_trans; [exact Hy | exact Hxp].
      * constructor.
Qed.

Lemma ascending_run_sorted (l : list A) :
  forall prev,
    good prev -> Forall good l ->
    StronglySorted asc (prev :: fst (pylist.ascending_run lt prev l)).
Proof.
  induction l as [|x l IH]; intros prev Hp Hg;
    cbn [pylist.ascending_run].
  - repeat constructor.
  - inversion Hg as [|? ? Hx Hg']; subst.
    destruct (lt x prev) eqn:E; [repeat constructor|].
    specialize (IH x Hx Hg').
    destruct (pylist.ascending_run lt x l) as [run rest]. cbn [fst] in *.
    pose proof (lt_false Hx Hp E) as Hle.
    constructor; [exact IH|].
    inversion IH as [|? ? _ Hrun]; subst.
    constructor; [exact Hle|].
    eapply Forall_impl; [|exact Hrun]. cbn. intros y Hy.
    eapply Qle_trans; [exact Hle | exact Hy].
Qed.

Lemma descending_run_sorted (l : list A) :
  forall prev,
    good prev -> Forall good l ->
    StronglySorted (fun a b => key b < key a)
                   (prev :: fst (pylist.descending_run lt prev l)).
Proof.
  induction l as [|x l IH]; intros prev Hp Hg;
    cbn [pylist.descending_run].
  - repeat constructor.
  - inversion Hg as [|? ? Hx Hg']; subst.
    destruct (lt x prev) eqn:E; [|repeat constructor].
    specialize (IH x Hx Hg').
    destruct (pylist.descending_run lt x l) as [run rest]. cbn [fst] in *.
    pose proof (lt_true Hx Hp E) as Hlt.
    constructor; [exact IH|].
    inversion IH as [|? ? _ Hrun]; subst.
    constructor; [exact Hlt|].
    eapply Forall_impl; [|exact Hrun]. cbn. intros y Hy.
    eapply Qlt_trans; [exact Hy | exact Hlt].
Qed.

Lemma sorted_last (s : list A) (x : A) :
  StronglySorted asc (s ++ [x]) -> Forall (fun m => key m <= key x) s.
Proof.
  intro H. apply StronglySorted_app_inv in H. destruct H as (_ & _ & H).
  apply Forall_forall. intros y Hy. apply (H y x Hy). now left.
Qed.

(** The first run is sorted, and its last element is the first of its
    greatest elements in the order of the list. *)
Lemma count_run_last (l : list A) :
  Forall good l -> l <> [] ->
  exists s x p1 p2,
    fst (pylist.count_run lt l) = s ++ [x]
    /\ p1 ++ x :: p2 ++ snd (pylist.count_run lt l) = l
    /\ Forall (fun m => key m <= key x) p1
    /\ Forall (fun m => key m < key x) p2
    /\ StronglySorted asc (fst (pylist.count_run lt l))
    /\ Forall good (fst (pylist.count_run lt l))
    /\ Forall good (snd (pylist.count_run lt l)).
Proof.
  intros Hg Hne.
  assert (Hparts :
            Forall good (fst (pylist.count_run lt l))
            /\ Forall good (snd (pylist.count_run lt l))).
  { apply Forall_app. eapply Permutation_Forall;
      [symmetry; apply count_run_perm | exact Hg]. }
  destruct Hparts as [Grun Grest].
  destruct l as [|a [|b l]]; [congruence | |].
  - exists [], a, [], []. cbn. repeat split; repeat constructor.
    now inversion Hg.
  - inversion Hg as [|? ? Ha Hg']; subst.
    inversion Hg' as [|? ? Hb Hg'']; subst.
    cbn [pylist.count_run] in *. destruct (lt b a) eqn:E.
    + pose proof (descending_run_sorted Ha Hg') as Hs.
      cbn [pylist.descending_run] in Hs. rewrite E in Hs.
      pose proof (descending_run_app l b) as Happ.
      destruct (pylist.descending_run lt b l) as [run rest].
      cbn [fst snd] in *.
      exists (rev (b :: run)), a, [], (b :: run).
      split; [reflexivity|]. split; [cbn [app]; now rewrite <- Happ|].
      split; [constructor|].
      inversion Hs as [|? ? _ Hlt]; subst. split; [exact Hlt|].
      split; [|split; assumption].
      apply StronglySorted_rev in Hs. cbn beta in Hs.
      clear - Hs. remember (rev (a :: b :: run)) as r. clear Heqr.
      induction Hs as [|u r _ IH Hu]; constructor; [exact IH|].
      eapply Forall_impl; [|exact Hu]. cbn. intros y Hy.
      apply Qlt_le_weak, Hy.
    + pose proof (ascending_run_sorted Ha Hg') as Hs.
      cbn [pylist.ascending_run] in Hs. rewrite E in Hs.
      pose proof (ascending_run_app l b) as Happ.
      destruct (pylist.ascending_run lt b l) as [run rest].
      cbn [fst snd] in *.
      destruct (@exists_last _ (a :: b :: run)) as (s & x & Hsx);
        [discriminate|].
      rewrite Hsx in *.
      exists s, x, s, []. split; [reflexivity|].
      split.
      { rewrite <- Happ.
        change (a :: b :: run ++ rest) with ((a :: b :: run) ++ rest).
        rewrite Hsx, <- app_assoc. reflexivity. }
      split; [apply sorted_last, Hs|]. split; [constructor|].
      split; [exact Hs|]. split; assumption.
Qed.


(** The first element of a reverse sort of numbers is the first of the
    greatest elements of the list: what comes before it in the list is
    smaller, what comes after it is not greater. *)
Lemma sort_reverse_head (l : list A) (best : A) (others : list A) :
  Forall good l ->
  pylist.sort lt true l = best :: others ->
  exists before after,
    l = before ++ best :: after
    /\ Forall (fun m => key m < key best) before
    /\ Forall (fun m => key m <= key best) after.
Proof.
  intros Hg. unfold pylist.sort.
  destruct (rev l) as [|a r] eqn:E; [cbn; discriminate|].
  assert (Hgr : Forall good (a :: r)).
  { rewrite <- E. apply Forall_rev, Hg. }
  destruct (@count_run_last (a :: r) Hgr) as
    (s & x & p1 & p2 & Hrun & Hl & H1 & H2 & Hs & Grun & Grest);
    [discriminate|].
  destruct (pylist.count_run lt (a :: r)) as [run rest].
  cbn [fst snd] in *.
  destruct (@binarysort_last rest run (p1 ++ x :: p2) s x p1 p2
              Grun Grest Hs Hrun eq_refl H1 H2)
    as (s' & x' & p1' & p2' & Hsorted & Hproc & H1' & H2').
  rewrite Hsorted, rev_app_distr. cbn [rev app]. intro H.
  injection H as <- _.
  exists (rev p2'), (rev p1').
  split; [|split; apply Forall_rev; assumption].
  rewrite <- (rev_involutive l), E, <- Hl.
  rewrite <- app_assoc in Hproc. cbn [app] in Hproc.
  rewrite Hproc, rev_app_distr. cbn [rev]. rewrite <- app_assoc.
  reflexivity.
Qed.

End Generic.

End SortFacts.

(** ** model_trainer and model_evaluator *)

Module TrainerFacts.

Import NumpyFacts.

Lemma adapted_folds (n_folds m : Z) :
  (let e := Z.min n_folds m in if (e <? 2)%Z then 2%Z else e)
  = Z.max 2 (Z.min n_folds m).
Proof.
  cbv zeta. destruct (Z.ltb_spec (Z.min n_folds m) 2); lia.
Qed.

Section Oracles.

Variable FittedPipeline : Type.
Variable cross_val_score :
  Pipeline -> list (list Q) -> list Z -> StratifiedKFold
  -> result (list pyfloat.float).
Variable fit :
  Pipeline -> list (list Q) -> list Z -> result FittedPipeline.
Variable np_mean : list pyfloat.float -> pyfloat.float.
Variable np_std : list pyfloat.float -> pyfloat.float.

Variable EvaluationResult : Type.
Variable cross_val_predict :
  Pipeline -> list (list Q) -> list Z -> StratifiedKFold -> result (list Z).
Variable metrics :
  string -> list Z -> list Z -> list Z -> result EvaluationResult.

Local Abbreviation TrainedModel := (model_trainer.TrainedModel FittedPipeline).
Local Abbreviation train_each :=
  (model_trainer.train_each cross_val_score fit np_mean np_std).
Local Abbreviation train_all :=
  (model_trainer.train_all cross_val_score fit np_mean np_std).
Local Abbreviation evaluate :=
  (model_evaluator.evaluate cross_val_predict metrics).
Local Abbreviation accuracy := (@model_trainer.cv_accuracy FittedPipeline).

Lemma accuracy_lt_value (a b : TrainedModel) :
  scored a -> scored b ->
  model_trainer.accuracy_lt a b
  = Qlt_bool (accuracy_value a) (accuracy_value b).
Proof.
  unfold scored, model_trainer.accuracy_lt, accuracy_value.
  destruct (accuracy a), (accuracy b); intros Ha Hb;
    [reflexivity | congruence | congruence | congruence].
Qed.


(** Sorting rearranges the models, whatever their accuracies. *)
Lemma sort_models_perm (l : list TrainedModel) :
  Permutation
    (pylist.sort (@model_trainer.accuracy_lt FittedPipeline) true l) l.
Proof. apply SortFacts.sort_perm. Qed.


Lemma tbind_ok (A B : Type) (c : traced A) (k : A -> traced B)
  (t t' : Trace) (b : B) :
  tbind c k t = (Ok b, t') ->
  exists a t1, c t = (Ok a, t1) /\ k a t1 = (Ok b, t').
Proof.
  unfold tbind. destruct (c t) as [[a | e] t1]; intro H.
  - now exists a, t1.
  - discriminate H.
Qed.

(** Every cross-validation of the training loop runs with the
    splitter it was given, and the loop starts with one. *)
Lemma train_each_trace (X : list (list Q)) (y : list Z)
  (cv : StratifiedKFold) (pipelines : list (string * Pipeline)) :
  forall t,
  exists evs,
    snd (train_each pipelines X y cv t) = t ++ evs
    /\ Forall (fun ev => forall s, splits_of ev = Some s -> s = n_splits cv)
              evs
    /\ forall p rest, pipelines = p :: rest ->
                      exists evs', evs = CrossValScore (snd p) cv :: evs'.
Proof.
  induction pipelines as [|[nm p] rest IH]; intro t.
  - exists []. cbn. rewrite app_nil_r. repeat split; [constructor|].
    intros; discriminate.
  - cbn [model_trainer.train_each]. unfold tbind at 1, call at 1.
    destruct (cross_val_score p X y cv) as [scores | e].
    + unfold tbind at 1, call at 1.
      destruct (fit p X y) as [fitted | e].
      * unfold tbind at 1.
        destruct (IH ((t ++ [CrossValScore p cv]) ++ [Fit p]))
          as (evs & Hevs & Hall & _).
        exists (CrossValScore p cv :: Fit p :: evs).
        split; [|split].
        -- destruct (train_each rest X y cv _) as [[trained | e] t3];
             cbn [snd] in *; rewrite Hevs, <- !app_assoc; reflexivity.
        -- constructor; [intros s H; now injection H as <-|].
           constructor; [intros s H; discriminate H | exact Hall].
        -- intros p0 rest0 H. injection H as <- _. now eexists.
      * exists [CrossValScore p cv; Fit p]. cbn [snd].
        split; [now rewrite <- app_assoc|]. split.
        -- constructor; [intros s H; now injection H as <-|].
           constructor; [intros s H; discriminate H | constructor].
        -- intros p0 rest0 H. injection H as <- _. now eexists.
    + exists [CrossValScore p cv]. cbn [snd]. split; [reflexivity|]. split.
      * constructor; [intros s H; now injection H as <-|constructor].
      * intros p0 rest0 H. injection H as <- _. now eexists.
Qed.

(** A loop that completes returns one model per candidate. *)
Lemma train_each_length (X : list (list Q)) (y : list Z)
  (cv : StratifiedKFold) (pipelines : list (string * Pipeline)) :
  forall t trained t',
    train_each pipelines X y cv t = (Ok trained, t') ->
    List.length trained = List.length pipelines.
Proof.
  induction pipelines as [|[nm p] rest IH]; intros t trained t' H.
  - cbn in H. unfold tret in H. injection H as <- _. reflexivity.
  - cbn [model_trainer.train_each] in H.
    apply tbind_ok in H. destruct H as (scores & t1 & _ & H).
    apply tbind_ok in H. destruct H as (fitted & t2 & _ & H).
    apply tbind_ok in H. destruct H as (others & t3 & Hrest & H).
    unfold tret in H. injection H as <- _.
    cbn [List.length]. f_equal. exact (IH _ _ _ Hrest).
Qed.

(** A loop that completes has cross-validated and then fitted every
    candidate, in order, and names its models after them. *)
Lemma train_each_ok_trace (X : list (list Q)) (y : list Z)
  (cv : StratifiedKFold) (pipelines : list (string * Pipeline)) :
  forall t trained t',
    train_each pipelines X y cv t = (Ok trained, t') ->
    t' = t ++ flat_map (fun p => [CrossValScore (snd p) cv; Fit (snd p)])
                       pipelines
    /\ map (@model_trainer.name FittedPipeline) trained = map fst pipelines.
Proof.
  induction pipelines as [|[nm p] rest IH]; intros t trained t' H.
  - cbn in H. unfold tret in H. injection H as <- <-.
    cbn. now rewrite app_nil_r.
  - cbn [model_trainer.train_each] in H.
    apply tbind_ok in H. destruct H as (scores & t1 & H1 & H).
    apply tbind_ok in H. destruct H as (fitted & t2 & H2 & H).
    apply tbind_ok in H. destruct H as (others & t3 & Hrest & H).
    unfold tret in H. injection H as <- <-.
    unfold call in H1, H2. injection H1 as _ <-. injection H2 as _ <-.
    destruct (IH _ _ _ Hrest) as [-> Hn].
    cbn [flat_map map fst snd app model_trainer.name].
    rewrite <- !app_assoc. cbn [app]. split; [reflexivity | now f_equal].
Qed.

(** C5, as the code has it.  With fewer samples than requested folds
    [train_all] raises the sizing error; with enough samples but fewer than
    two distinct labels it raises the class-count error.  In both cases no
    call to the library has been made: the trace is empty and no model is
    returned. *)
Theorem train_all_rejects_before_training
  (n_folds : Z) (X : list (list Q)) (y : list Z) :
  let n_samples := Z.of_nat (List.length X) in
  ((n_samples < n_folds)%Z ->
   train_all n_folds X y []
   = (Raise (ValueError (model_trainer.sizing_message n_folds n_samples)),
      []))
  /\ ((n_folds <= n_samples)%Z -> (distinct_labels y < 2)%nat ->
      train_all n_folds X y []
      = (Raise (ValueError (model_trainer.class_count_message
                              (Z.of_nat (distinct_labels y)))),
         [])).
Proof.
  intro n_samples. unfold model_trainer.train_all. fold n_samples. split.
  - intro Hlt. rewrite (proj2 (Z.ltb_lt _ _) Hlt). reflexivity.
  - intros Hge Hcls. rewrite (proj2 (Z.ltb_ge _ _) Hge).
    rewrite unique_length.
    replace (Z.of_nat (distinct_labels y) <? 2)%Z with true; [reflexivity|].
    symmetry. apply Z.ltb_lt. lia.
Qed.

(** C6, as the code has it.  On an input that passes the two checks and
    whose labels are not negative (class indices, as data preparation
    produces them), the trainer cross-validates with
    max(2, min(requested, smallest class count)) folds, in every
    cross-validation it runs, and the evaluator runs its out-of-fold
    prediction with the same number of folds. *)
Theorem fold_adaptation_rule
  (n_folds : Z) (X : list (list Q)) (y : list Z)
  (model_name : string) (pipeline : Pipeline) :
  Forall (fun label => (0 <= label)%Z) y ->
  (n_folds <= Z.of_nat (List.length X))%Z ->
  (2 <= distinct_labels y)%nat ->
  let cv := {| n_splits :=
                 Z.max 2 (Z.min n_folds (smallest_class_count y));
               shuffle := true;
               random_state := 42 |} in
  (exists first_pipeline evs,
      snd (train_all n_folds X y [])
      = CrossValScore first_pipeline cv :: evs
      /\ Forall (fun ev => forall s, splits_of ev = Some s ->
                                     s = n_splits cv) evs)
  /\ snd (evaluate n_folds model_name pipeline X y [])
     = [CrossValPredict pipeline cv].
Proof.
  intros Hy Hn Hcls cv.
  destruct (min_class_count_spec Hy (distinct_labels_nonempty Hcls))
    as (counts & Hb & Ht & Hmin).
  split.
  - unfold model_trainer.train_all.
    rewrite (proj2 (Z.ltb_ge _ _) Hn), unique_length.
    replace (Z.of_nat (distinct_labels y) <? 2)%Z with false
      by (symmetry; apply Z.ltb_ge; lia).
    unfold tbind at 1, lift at 1. rewrite Hb.
    unfold tbind at 1, lift at 1. rewrite Ht.
    unfold tbind at 1, lift at 1. rewrite Hmin.
    cbv zeta. rewrite adapted_folds. fold cv.
    destruct (train_each_trace X y cv model_trainer._build_pipelines [])
      as (evs & Hevs & Hall & Hfirst).
    destruct (Hfirst _ _ eq_refl) as (evs' & ->).
    inversion Hall as [|? ? _ Hall']; subst.
    eexists. exists evs'. split; [|exact Hall'].
    unfold tbind at 1.
    destruct (train_each _ _ _ _ _) as [[trained | e] t1];
      cbn [snd] in Hevs; subst t1; [|reflexivity].
    unfold tbind, lift, tret.
    destruct (normative_diagnosis_service.head_item _); reflexivity.
  - unfold model_evaluator.evaluate.
    unfold tbind at 1, lift at 1. rewrite Hb.
    unfold tbind at 1, lift at 1. rewrite Ht.
    unfold tbind at 1, lift at 1. rewrite Hmin.
    cbv zeta. rewrite adapted_folds. fold cv.
    unfold tbind, call, lift.
    destruct (cross_val_predict pipeline X y cv); reflexivity.
Qed.


End Oracles.

End TrainerFacts.

(** ** The sample training session *)

Module Session.

Import sample_session.

Lemma train_all_rejects_before_training_witness :
  train_all 5 X_single y_single []
  = (Raise (ValueError (model_trainer.sizing_message 5 1)), [])
  /\ train_all 3 X [0; 0; 0; 0; 0; 0]%Z []
     = (Raise (ValueError (model_trainer.class_count_message 1)), []).
Proof.
  split.
  - apply (proj1 (TrainerFacts.train_all_rejects_before_training
                    cross_val_score fit mean std 5 X_single y_single)).
    reflexivity.
  - apply (proj2 (TrainerFacts.train_all_rejects_before_training
                    cross_val_score fit mean std 3 X
                    [0; 0; 0; 0; 0; 0]%Z)).
    + discriminate.
    + cbn. lia.
Defined.

(** C5 as stated does not hold: one sample of one class with five folds
    requested has fewer than two distinct labels, and the error raised is
    the sizing error, not the class-count error. *)
Lemma class_count_error_preempted_by_sizing_error :
  ~ (forall n_folds X y,
        (distinct_labels y < 2)%nat ->
        exists n_classes,
          fst (train_all n_folds X y [])
          = Raise (ValueError
                     (model_trainer.class_count_message n_classes))).
Proof.
  intro H.
  destruct (H 5%Z X_single y_single) as [n Hn]; [cbn; lia|].
  change (fst (train_all 5 X_single y_single []))
    with (@Raise (model_trainer.TrainingResult Pipeline)
            (ValueError (model_trainer.sizing_message 5 1))) in Hn.
  injection Hn as Hn.
  unfold model_trainer.sizing_message, model_trainer.class_count_message
    in Hn.
  cbn [String.append] in Hn. discriminate Hn.
Qed.

Lemma fold_adaptation_rule_witness :
  let cv := {| n_splits := 3; shuffle := true; random_state := 42 |} in
  (exists first_pipeline evs,
      snd (train_all 5 X y []) = CrossValScore first_pipeline cv :: evs
      /\ Forall (fun ev => forall s, splits_of ev = Some s -> s = 3%Z) evs)
  /\ snd (evaluate 5 [] X y []) = [CrossValPredict [] cv].
Proof.
  apply (TrainerFacts.fold_adaptation_rule
           cross_val_score fit mean std cross_val_predict metrics
           (n_folds:=5) X (y:=y) "sample" []).
  - repeat constructor; discriminate.
  - discriminate.
  - cbn. lia.
Defined.


(** C6 as stated does not hold: the labels -1, -1, -1, 0, 0, 0 with three
    folds requested pass both checks of [train_all] (six samples, two
    distinct labels), yet no cross-validation is run: [np.bincount] rejects
    the negative label. *)
Lemma negative_labels_pass_the_checks :
  ~ (forall n_folds X y,
        (n_folds <= Z.of_nat (List.length X))%Z ->
        (2 <= distinct_labels y)%nat ->
        exists first_pipeline evs,
          snd (train_all n_folds X y [])
          = CrossValScore first_pipeline
              {| n_splits :=
                   Z.max 2 (Z.min n_folds (smallest_class_count y));
                 shuffle := true;
                 random_state := 42 |} :: evs).
Proof.
  intro H.
  destruct (H 3%Z X y_negative) as (first_pipeline & evs & Hevs).
  - discriminate.
  - cbn. lia.
  - vm_compute in Hevs. discriminate Hevs.
Qed.


End Session.

(** * Further properties of the diagnostic core *)

(** ** Readings, ratios and percentages *)

Module ReadingFacts.

Lemma check_fields_cases (fs : list (string * Q)) :
  (check_fields fs = Ok tt /\ Forall nonneg_field fs)
  \/ (exists pre field_name value post,
         fs = pre ++ (field_name, value) :: post
         /\ Forall nonneg_field pre
         /\ value < 0
         /\ check_fields fs = Raise (InvalidGasValueError field_name value)).
Proof.
  induction fs as [|[k v] fs IH]; [left; split; [reflexivity | constructor]|].
  cbn [check_fields]. destruct (Qlt_bool v 0) eqn:E.
  - right. exists [], k, v, fs. apply Qlt_bool_true in E.
    repeat split; [constructor | exact E].
  - apply Qlt_bool_false in E.
    destruct IH as [[Hok Hall] | (pre & f & x & post & -> & Hpre & Hx & Hr)].
    + left. split; [exact Hok | constructor; [exact E | exact Hall]].
    + right. exists ((k, v) :: pre), f, x, post.
      repeat split; [constructor; [exact E | exact Hpre] | exact Hx | exact Hr].
Qed.

(** X1. The constructor of [GasReading] accepts a reading exactly when
    none of its nine concentrations is negative; otherwise it raises
    [InvalidGasValueError] for the first negative field in the canonical
    order h2, ch4, c2h6, c2h4, c2h2, co, co2, o2, n2. *)
Theorem post_init_first_negative_field (r : GasReading) :
  (post_init r = Ok tt /\ Forall nonneg_field (gas_fields r))
  \/ (exists pre field_name value post,
         gas_fields r = pre ++ (field_name, value) :: post
         /\ Forall nonneg_field pre
         /\ value < 0
         /\ ~ Forall nonneg_field (gas_fields r)
         /\ post_init r = Raise (InvalidGasValueError field_name value)).
Proof.
  unfold post_init.
  destruct (check_fields_cases (gas_fields r))
    as [H | (pre & f & v & post & Hs & Hpre & Hv & Hr)]; [left; exact H|].
  right. exists pre, f, v, post. repeat split; try assumption.
  intro Hall. rewrite Hs in Hall. apply Forall_app in Hall.
  destruct Hall as [_ Hall]. inversion Hall as [|? ? Hn _]; subst.
  unfold nonneg_field in Hn. cbn in Hn. exact (Qlt_not_le _ _ Hv Hn).
Qed.

Lemma safe_ratio_nonneg (n d : Q) :
  0 <= n -> exists q, gas_ratios.safe_ratio n d = Ok q /\ 0 <= q.
Proof.
  intro Hn. unfold gas_ratios.safe_ratio.
  destruct (Qle_bool d 0) eqn:E.
  - eexists. split; [reflexivity|]. destruct (Qgt_bool n 0); discriminate.
  - apply Qle_bool_false in E. rewrite (truediv_pos _ E).
    eexists. split; [reflexivity|].
    apply Qle_shift_div_l; [exact E|]. rewrite Qmult_0_l. exact Hn.
Qed.

(** X2. On a constructed reading none of the seven ratio helpers raises
    (the division is only reached with a positive denominator), and every
    ratio is a non-negative number. *)
Theorem ratios_defined_and_nonnegative (r : GasReading) :
  valid_reading r ->
  Forall (fun ratio => exists q, ratio r = Ok q /\ 0 <= q) ratio_functions.
Proof.
  intro Hv.
  destruct (valid_reading_nonneg Hv)
    as (Hh2 & Hch4 & Hc2h6 & Hc2h4 & Hc2h2 & Hco & Hco2 & _).
  unfold ratio_functions.
  repeat constructor;
    [unfold gas_ratios.ratio_ch4_h2 | unfold gas_ratios.ratio_c2h2_c2h4
     | unfold gas_ratios.ratio_c2h4_c2h6 | unfold gas_ratios.ratio_c2h6_ch4
     | unfold gas_ratios.ratio_c2h6_c2h2 | unfold gas_ratios.ratio_c2h2_ch4
     | unfold gas_ratios.ratio_co2_co];
    apply safe_ratio_nonneg; assumption.
Qed.

Lemma share_is_percentage (x t : Q) :
  0 <= x -> x <= t -> 0 < t -> percentage (x / t * 100).
Proof.
  intros Hx Hxt Ht. unfold percentage.
  assert (H0 : 0 <= x / t).
  { apply Qle_shift_div_l; [exact Ht|]. rewrite Qmult_0_l. exact Hx. }
  assert (H1 : x / t <= 1).
  { apply Qle_shift_div_r; [exact Ht|]. rewrite Qmult_1_l. exact Hxt. }
  split; lra.
Qed.

(** X3. On a constructed reading the Duval percentage functions never
    raise and every value they return lies between 0 and 100. *)
Theorem duval_percentages_in_range (r : GasReading) :
  valid_reading r ->
  (exists a b c,
      gas_ratios.duval_triangle_percentages r = Ok (a, b, c)
      /\ percentage a /\ percentage b /\ percentage c)
  /\ (exists a b c d e,
         gas_ratios.duval_pentagon_percentages r = Ok (a, b, c, d, e)
         /\ percentage a /\ percentage b /\ percentage c
         /\ percentage d /\ percentage e).
Proof.
  intro Hv.
  destruct (valid_reading_nonneg Hv)
    as (Hh2 & Hch4 & Hc2h6 & Hc2h4 & Hc2h2 & _).
  assert (Hz : percentage 0) by (split; discriminate).
  split.
  - unfold gas_ratios.duval_triangle_percentages.
    destruct (Qle_bool _ 0) eqn:E.
    + exists 0, 0, 0. repeat split; discriminate.
    + apply Qle_bool_false in E. rewrite !(truediv_pos _ E). cbn [bind].
      do 3 eexists. split; [reflexivity|].
      repeat split; apply share_is_percentage; try assumption; lra.
  - unfold gas_ratios.duval_pentagon_percentages.
    destruct (Qle_bool _ 0) eqn:E.
    + exists 0, 0, 0, 0, 0. repeat split; discriminate.
    + apply Qle_bool_false in E. rewrite !(truediv_pos _ E). cbn [bind].
      do 5 eexists. split; [reflexivity|].
      repeat split; apply share_is_percentage; try assumption; lra.
Qed.

End ReadingFacts.

(** ** The rule-based classifiers *)

Module ClassifierFacts.

Lemma condition_le_2 (l0 l1 l2 v : Q) :
  l0 <= l1 ->
  ((if Qle_bool v l0 then 1
    else if Qle_bool v l1 then 2
    else if Qle_bool v l2 then 3 else 4) <= 2)%Z <-> v <= l1.
Proof.
  intro H01.
  destruct (Qle_bool v l0) eqn:E0.
  - apply Qle_bool_iff in E0. split; [intros _|intros _; lia].
    eapply Qle_trans; [exact E0 | exact H01].
  - destruct (Qle_bool v l1) eqn:E1.
    + apply Qle_bool_iff in E1. split; [intros _; exact E1 | intros _; lia].
    + apply Qle_bool_false in E1. split.
      * destruct (Qle_bool v l2); intro H; lia.
      * intro H. exfalso. exact (Qlt_not_le _ _ E1 H).
Qed.

Lemma suggest_fault_type_not_normal (r : GasReading) (f : FaultType) :
  ieee_c57_104._suggest_fault_type r = Ok f -> f <> N.
Proof.
  unfold ieee_c57_104._suggest_fault_type. ratio_ok.
  repeat match goal with
  | |- context [if ?b then _ else _] => destruct b
  end; intro H; injection H as <-; discriminate.
Qed.

(** X4. The IEEE C57.104 classifier reports N exactly when every gas is
    within its Condition 2 limit and so is the total of combustible gases;
    beyond that it always names a fault. *)
Theorem ieee_normal_iff_within_condition_2 (r : GasReading) :
  exists res,
    ieee_c57_104.diagnose r = Ok res
    /\ (fault_type res = N <-> within_condition_2 r).
Proof.
  unfold ieee_c57_104.diagnose. cbn [map fst snd max_Z bind fold_left].
  set (c1 := ieee_c57_104._gas_condition "h2" _).
  set (c2 := ieee_c57_104._gas_condition "ch4" _).
  set (c3 := ieee_c57_104._gas_condition "c2h6" _).
  set (c4 := ieee_c57_104._gas_condition "c2h4" _).
  set (c5 := ieee_c57_104._gas_condition "c2h2" _).
  set (c6 := ieee_c57_104._gas_condition "co" _).
  set (c7 := ieee_c57_104._gas_condition "co2" _).
  set (ct := ieee_c57_104._tdcg_condition _).
  set (overall := Z.max _ ct).
  assert (H1 : (c1 <= 2)%Z <-> h2 r <= 200)
    by (apply (@condition_le_2 100 200 500); discriminate).
  assert (H2 : (c2 <= 2)%Z <-> ch4 r <= 125)
    by (apply (@condition_le_2 75 125 200); discriminate).
  assert (H3 : (c3 <= 2)%Z <-> c2h6 r <= 100)
    by (apply (@condition_le_2 65 100 150); discriminate).
  assert (H4 : (c4 <= 2)%Z <-> c2h4 r <= 100)
    by (apply (@condition_le_2 50 100 200); discriminate).
  assert (H5 : (c5 <= 2)%Z <-> c2h2 r <= 10)
    by (apply (@condition_le_2 2 10 35); discriminate).
  assert (H6 : (c6 <= 2)%Z <-> co r <= 570)
    by (apply (@condition_le_2 350 570 1400); discriminate).
  assert (H7 : (c7 <= 2)%Z <-> co2 r <= 4000)
    by (apply (@condition_le_2 2500 4000 10000); discriminate).
  assert (Ht : (ct <= 2)%Z
               <-> gas_ratios.total_combustible_gases r <= 1920)
    by (apply (@condition_le_2 720 1920 4630); discriminate).
  assert (Ho : (overall <= 2)%Z <-> within_condition_2 r).
  { unfold within_condition_2.
    rewrite <- H1, <- H2, <- H3, <- H4, <- H5, <- H6, <- H7, <- Ht.
    unfold overall. clear. clearbody c1 c2 c3 c4 c5 c6 c7 ct. lia. }
  assert (Hr : (1 <= overall <= 4)%Z).
  { pose proof (gas_condition_range "h2" (h2 r)) as R1.
    pose proof (gas_condition_range "ch4" (ch4 r)) as R2.
    pose proof (gas_condition_range "c2h6" (c2h6 r)) as R3.
    pose proof (gas_condition_range "c2h4" (c2h4 r)) as R4.
    pose proof (gas_condition_range "c2h2" (c2h2 r)) as R5.
    pose proof (gas_condition_range "co" (co r)) as R6.
    pose proof (gas_condition_range "co2" (co2 r)) as R7.
    pose proof (tdcg_condition_range
                  (gas_ratios.total_combustible_gases r)) as Rt.
    fold c1 in R1. fold c2 in R2. fold c3 in R3. fold c4 in R4.
    fold c5 in R5. fold c6 in R6. fold c7 in R7. fold ct in Rt.
    unfold overall. clear - R1 R2 R3 R4 R5 R6 R7 Rt.
    clearbody c1 c2 c3 c4 c5 c6 c7 ct. lia. }
  destruct (label_of_condition Hr) as [s Hs]. rewrite Hs.
  destruct (Z.leb_spec overall 2) as [Hle | Hgt].
  - cbn [bind]. eexists. split; [reflexivity|]. cbn [fault_type].
    split; [intros _; apply Ho, Hle | reflexivity].
  - destruct (suggest_fault_type_total r) as [f Hf]. rewrite Hf.
    cbn [bind]. eexists. split; [reflexivity|]. cbn [fault_type].
    split.
    + intro HN. exfalso. exact (suggest_fault_type_not_normal _ Hf HN).
    + intro Hw. apply Ho in Hw. clear - Hw Hgt. clearbody overall. lia.
Qed.

Ltac q_props :=
  repeat match goal with
  | H : Qlt_bool _ _ = true |- _ => apply Qlt_bool_true in H
  | H : Qlt_bool _ _ = false |- _ => apply Qlt_bool_false in H
  | H : Qgt_bool _ _ = true |- _ => apply Qlt_bool_true in H
  | H : Qgt_bool _ _ = false |- _ => apply Qlt_bool_false in H
  | H : Qle_bool _ _ = true |- _ => apply Qle_bool_iff in H
  | H : Qle_bool _ _ = false |- _ => apply Qle_bool_false in H
  end.

Ltac split_code c :=
  let A := fresh "A" in
  let B := fresh "B" in
  let C := fresh "C" in
  unfold c;
  match goal with
  | |- context [if Qlt_bool ?x ?l then _ else _] =>
      destruct (Qlt_bool x l) eqn:A;
      [|match goal with
        | |- context [if Qle_bool x ?l' then _ else _] =>
            destruct (Qle_bool x l') eqn:B;
            [|try match goal with
                  | |- context [if Qle_bool x ?l2 then _ else _] =>
                      destruct (Qle_bool x l2) eqn:C
                  end]
        end]
  end.

(** X5. The IEC 60599 classifier finds no pattern (fault N) exactly when
    C2H2/C2H4 and CH4/H2 are both below 0.1 while C2H4/C2H6 is at least 1:
    the two code triples missing from its table.  It never reports S. *)
Theorem iec_normal_iff_unmapped_pattern (r : GasReading) :
  exists r1 r2 r5 res,
    gas_ratios.ratio_c2h2_c2h4 r = Ok r1
    /\ gas_ratios.ratio_ch4_h2 r = Ok r2
    /\ gas_ratios.ratio_c2h4_c2h6 r = Ok r5
    /\ iec_60599.diagnose r = Ok res
    /\ (fault_type res = N <-> r1 < 1 # 10 /\ r2 < 1 # 10 /\ 1 <= r5)
    /\ fault_type res <> S.
Proof.
  destruct (safe_ratio_total (c2h2 r) (c2h4 r)) as [r1 H1].
  destruct (safe_ratio_total (ch4 r) (h2 r)) as [r2 H2].
  destruct (safe_ratio_total (c2h4 r) (c2h6 r)) as [r5 H5].
  exists r1, r2, r5.
  unfold iec_60599.diagnose, gas_ratios.ratio_c2h2_c2h4,
    gas_ratios.ratio_ch4_h2, gas_ratios.ratio_c2h4_c2h6.
  rewrite H1, H2, H5. cbn [bind].
  split_code iec_60599._code_r1; split_code iec_60599._code_r2;
    split_code iec_60599._code_r5;
    match goal with
    | |- context [table_get ?t ?k] =>
        let v := eval vm_compute in (table_get t k) in
        change (table_get t k) with v
    end;
    cbv iota beta; q_props;
    (eexists; repeat (split; [reflexivity|]); cbn [fault_type];
     split; [split; [intro HN; try discriminate HN; repeat split; lra
                    | intros (Ha & Hb & Hc); try reflexivity; exfalso; lra]
            | discriminate]).
Qed.

(** X6. The Rogers classifier never reports DT or S, and when CH4/H2 is
    below 0.1 it reports PD if C2H2/C2H4 is below 0.1 and C2H4/C2H6 below
    1, and N (no defined diagnosis) for every other combination. *)
Theorem rogers_low_methane_ratio (r : GasReading) :
  exists r1 r2 r5 res,
    gas_ratios.ratio_ch4_h2 r = Ok r1
    /\ gas_ratios.ratio_c2h2_c2h4 r = Ok r2
    /\ gas_ratios.ratio_c2h4_c2h6 r = Ok r5
    /\ rogers.diagnose r = Ok res
    /\ fault_type res <> DT /\ fault_type res <> S
    /\ (1 # 10 <= r1
        \/ (r2 < 1 # 10 /\ r5 < 1 /\ fault_type res = PD)
        \/ (~ (r2 < 1 # 10 /\ r5 < 1) /\ fault_type res = N)).
Proof.
  destruct (safe_ratio_total (ch4 r) (h2 r)) as [r1 H1].
  destruct (safe_ratio_total (c2h2 r) (c2h4 r)) as [r2 H2].
  destruct (safe_ratio_total (c2h4 r) (c2h6 r)) as [r5 H5].
  exists r1, r2, r5.
  unfold rogers.diagnose, gas_ratios.ratio_c2h2_c2h4,
    gas_ratios.ratio_ch4_h2, gas_ratios.ratio_c2h4_c2h6.
  rewrite H1, H2, H5. cbn [bind].
  split_code rogers._code_r1; split_code rogers._code_r2;
    split_code rogers._code_r5;
    match goal with
    | |- context [table_get ?t ?k] =>
        let v := eval vm_compute in (table_get t k) in
        change (table_get t k) with v
    end;
    cbv iota beta; q_props;
    (eexists; repeat (split; [reflexivity|]); cbn [fault_type];
     split; [discriminate|]; split; [discriminate|];
     first [ left; assumption
           | right; left; repeat split; first [assumption | reflexivity]
           | right; right; split; [intros (Ha & Hb); lra | reflexivity] ]).
Qed.

Lemma exceeds_l1_spec (r : GasReading) :
  exists b, dornenburg._exceeds_l1 r = Ok b /\ (b = false <-> within_l1 r).
Proof.
  unfold dornenburg._exceeds_l1, dornenburg._L1_LIMITS, within_l1.
  cbn [dornenburg.any_exceeds dict_get String.eqb Ascii.eqb Bool.eqb].
  repeat match goal with
  | |- context [if Qgt_bool ?a ?b then _ else _] =>
      let E := fresh "E" in destruct (Qgt_bool a b) eqn:E
  end; q_props; eexists; (split; [reflexivity|]);
    (split; [intro H; try discriminate H; repeat split; assumption
            | intros (K1 & K2 & K3 & K4 & K5 & K6); try reflexivity;
              exfalso; lra]).
Qed.

Lemma dornenburg_classify_range (r1 r2 r3 r4 : Q) :
  In (fst (dornenburg._classify r1 r2 r3 r4)) [T1; T2; PD; D1; D2; N].
Proof.
  unfold dornenburg._classify.
  repeat match goal with
  | |- context [if ?t then _ else _] => destruct t
  end; cbn; tauto.
Qed.

(** X7. The Dornenburg classifier is gated by its L1 limits: when no key
    gas exceeds its limit the result is N with [applicable] false, and
    otherwise [applicable] is true and the fault is one of T1, T2, PD, D1,
    D2 or N (never T3, DT or S). *)
Theorem dornenburg_applicability_gate (r : GasReading) :
  exists res,
    dornenburg.diagnose r = Ok res
    /\ ((within_l1 r /\ fault_type res = N
         /\ applicable res = Some (VBool false))
        \/ (~ within_l1 r /\ applicable res = Some (VBool true)
            /\ In (fault_type res) [T1; T2; PD; D1; D2; N])).
Proof.
  unfold dornenburg.diagnose.
  destruct (exceeds_l1_spec r) as (b & Hb & Hspec). rewrite Hb. cbn [bind].
  destruct b; cbn [negb].
  - ratio_ok.
    match goal with
    | |- context [dornenburg._classify ?a ?b ?c ?d] =>
        pose proof (dornenburg_classify_range a b c d) as Hz;
        destruct (dornenburg._classify a b c d) as [f ds]
    end.
    eexists. split; [reflexivity|]. right.
    split; [|split; [reflexivity | exact Hz]].
    intro Hw. apply Hspec in Hw. discriminate Hw.
  - eexists. split; [reflexivity|]. left.
    split; [apply Hspec; reflexivity | split; reflexivity].
Qed.

Lemma share_zero_iff (x t : Q) : 0 < t -> (x / t * 100 == 0 <-> x == 0).
Proof.
  intro Ht. split; intro H.
  - assert (Hx : x == (x / t * 100) * (t / 100)).
    { field. intro E. rewrite E in Ht. exact (Qlt_irrefl 0 Ht). }
    rewrite Hx, H. ring.
  - rewrite H. field. intro E. rewrite E in Ht. exact (Qlt_irrefl 0 Ht).
Qed.

(** X8. For a constructed reading the Duval Triangle is not applicable
    (fault N) exactly when CH4, C2H4 and C2H2 are all zero; in every other
    case it is applicable and names one of its seven zones. *)
Theorem duval_triangle_gate_on_gases (r : GasReading) :
  valid_reading r ->
  exists res,
    duval_triangle.diagnose r = Ok res
    /\ ((ch4 r == 0 /\ c2h4 r == 0 /\ c2h2 r == 0
         /\ fault_type res = N /\ applicable res = Some (VBool false))
        \/ (~ (ch4 r == 0 /\ c2h4 r == 0 /\ c2h2 r == 0)
            /\ In (fault_type res) triangle_zones
            /\ applicable res = Some (VBool true))).
Proof.
  intro Hv.
  destruct (valid_reading_nonneg Hv) as (_ & Hch4 & _ & Hc2h4 & Hc2h2 & _).
  destruct (Duval.duval_triangle_gate r)
    as (a & b & c & res & Hp & Hd & Hzero & Hzone).
  exists res. split; [exact Hd|].
  unfold gas_ratios.duval_triangle_percentages in Hp.
  destruct (Qle_bool _ 0) eqn:E.
  - apply Qle_bool_iff in E. injection Hp as <- <- <-.
    left. destruct Hzero as [HN Happ]; [repeat split; reflexivity|].
    assert (ch4 r == 0) by lra. assert (c2h4 r == 0) by lra.
    assert (c2h2 r == 0) by lra. tauto.
  - apply Qle_bool_false in E. rewrite !(truediv_pos _ E) in Hp.
    cbn [bind] in Hp. injection Hp as <- <- <-.
    right.
    assert (Hnz : ~ (ch4 r == 0 /\ c2h4 r == 0 /\ c2h2 r == 0))
      by (intros (Z1 & Z2 & Z3); lra).
    split; [exact Hnz|]. apply Hzone.
    intros (Z1 & Z2 & Z3). apply Hnz.
    apply (proj1 (share_zero_iff _ E)) in Z1.
    apply (proj1 (share_zero_iff _ E)) in Z2.
    apply (proj1 (share_zero_iff _ E)) in Z3. tauto.
Qed.

(** X9. For a constructed reading the Duval Pentagon answers N, not
    applicable, exactly when H2, CH4 and C2H6 are all zero, whatever the
    values of C2H4 and C2H2; in every other case it is applicable and names
    one of the zones PD, D1, D2, T1, T2, T3, DT or S. *)
Theorem duval_pentagon_gate_on_gases (r : GasReading) :
  valid_reading r ->
  exists res,
    duval_pentagon.diagnose r = Ok res
    /\ ((h2 r == 0 /\ ch4 r == 0 /\ c2h6 r == 0
         /\ fault_type res = N /\ applicable res = Some (VBool false))
        \/ (~ (h2 r == 0 /\ ch4 r == 0 /\ c2h6 r == 0)
            /\ In (fault_type res) pentagon_zones
            /\ applicable res = Some (VBool true))).
Proof.
  intro Hv.
  destruct (valid_reading_nonneg Hv)
    as (Hh2 & Hch4 & Hc2h6 & Hc2h4 & Hc2h2 & _).
  unfold duval_pentagon.diagnose, gas_ratios.duval_pentagon_percentages.
  destruct (Qle_bool _ 0) eqn:E.
  - apply Qle_bool_iff in E. cbn [bind].
    change (Qeq_bool 0 0) with true. cbn [andb].
    eexists. split; [reflexivity|]. left.
    assert (h2 r == 0) by lra. assert (ch4 r == 0) by lra.
    assert (c2h6 r == 0) by lra. repeat split; assumption.
  - apply Qle_bool_false in E. rewrite !(truediv_pos _ E). cbn [bind].
    set (t := h2 r + ch4 r + c2h6 r + c2h4 r + c2h2 r) in *.
    destruct (Qeq_bool (h2 r / t * 100) 0) eqn:E1;
      [destruct (Qeq_bool (ch4 r / t * 100) 0) eqn:E2;
       [destruct (Qeq_bool (c2h6 r / t * 100) 0) eqn:E3|]|];
      cbn [andb].
    + apply Qeq_bool_iff in E1, E2, E3.
      apply (proj1 (share_zero_iff _ E)) in E1.
      apply (proj1 (share_zero_iff _ E)) in E2.
      apply (proj1 (share_zero_iff _ E)) in E3.
      eexists. split; [reflexivity|]. left. repeat split; assumption.
    + apply Qeq_bool_false in E3. rewrite (share_zero_iff _ E) in E3.
      match goal with
      | |- context [duval_pentagon._classify_zone ?a ?b ?c ?d ?e] =>
          pose proof (Duval.classify_pentagon_zone a b c d e) as Hz;
          destruct (duval_pentagon._classify_zone a b c d e) as [f ds]
      end.
      eexists. split; [reflexivity|]. right.
      split; [tauto | split; [exact Hz | reflexivity]].
    + apply Qeq_bool_false in E2. rewrite (share_zero_iff _ E) in E2.
      match goal with
      | |- context [duval_pentagon._classify_zone ?a ?b ?c ?d ?e] =>
          pose proof (Duval.classify_pentagon_zone a b c d e) as Hz;
          destruct (duval_pentagon._classify_zone a b c d e) as [f ds]
      end.
      eexists. split; [reflexivity|]. right.
      split; [tauto | split; [exact Hz | reflexivity]].
    + apply Qeq_bool_false in E1. rewrite (share_zero_iff _ E) in E1.
      match goal with
      | |- context [duval_pentagon._classify_zone ?a ?b ?c ?d ?e] =>
          pose proof (Duval.classify_pentagon_zone a b c d e) as Hz;
          destruct (duval_pentagon._classify_zone a b c d e) as [f ds]
      end.
      eexists. split; [reflexivity|]. right.
      split; [tauto | split; [exact Hz | reflexivity]].
Qed.

End ClassifierFacts.

(** ** The consensus engine beyond six votes *)

Module ConsensusMore.

Import normative_diagnosis_service CounterFacts ConsensusFacts.

Lemma round_half_even_bounds (y : Q) (a b : Z) :
  inject_Z a <= y -> y <= inject_Z b ->
  (a <= round_half_even y <= b)%Z.
Proof.
  destruct y as [n d]. unfold Qle, inject_Z, round_half_even.
  cbn [Qnum Qden]. intros Ha Hb.
  pose proof (Z.div_mod n (Z.pos d) ltac:(lia)) as Hdm.
  pose proof (Z.mod_pos_bound n (Z.pos d) ltac:(lia)) as Hr.
  set (q := (n / Z.pos d)%Z) in *. set (m := (n mod Z.pos d)%Z) in *.
  destruct (Z.compare_spec (2 * m) (Z.pos d)) as [He | Hl | Hg].
  - destruct (Z.even q); nia.
  - nia.
  - nia.
Qed.

Lemma round_half_even_exact (y : Q) (m : Z) :
  y == inject_Z m -> round_half_even y = m.
Proof.
  destruct y as [n d]. unfold Qeq, inject_Z, round_half_even.
  cbn [Qnum Qden]. intro H.
  assert (Hn : n = (m * Z.pos d)%Z) by lia. subst n.
  rewrite Z.div_mul, Z.mod_mul by lia. cbn. reflexivity.
Qed.

Lemma round_1_bounds (x : Q) :
  0 <= x -> x <= 100 -> 0 <= round x 1 /\ round x 1 <= 100.
Proof.
  intros H0 H1. unfold round.
  change (Pos.pow 10 (Pos.of_nat 1)) with 10%positive.
  destruct (@round_half_even_bounds (x * inject_Z 10) 0 1000) as [Hl Hu].
  - change (inject_Z 0) with 0. change (inject_Z 10) with 10. lra.
  - change (inject_Z 1000) with 1000. change (inject_Z 10) with 10. lra.
  - unfold Qle. cbn [Qnum Qden]. lia.
Qed.

Lemma round_1_exact (x : Q) (m : Z) :
  x == inject_Z m -> round x 1 == inject_Z m.
Proof.
  intro H. unfold round.
  change (Pos.pow 10 (Pos.of_nat 1)) with 10%positive.
  rewrite (@round_half_even_exact (x * inject_Z 10) (m * 10)).
  - unfold Qeq, inject_Z. cbn [Qnum Qden]. lia.
  - rewrite H. unfold Qeq, inject_Z, Qmult. cbn [Qnum Qden]. lia.
Qed.

(** X10. [_compute_consensus] on an empty list of results raises
    [IndexError] (the guard on a zero total is never reached); on any
    non-empty list it returns a fault that some result voted for, vote
    counts that sum to the number of results, and an agreement percentage
    between 0 and 100. *)
Theorem compute_consensus_any_length (rs : list MethodResult) :
  (rs = [] /\ _compute_consensus rs = Raise IndexError)
  \/ (exists w d pct,
         _compute_consensus rs = Ok (w, d, pct)
         /\ In w (map fault_type rs)
         /\ sum_Z (map snd d) = Z.of_nat (List.length rs)
         /\ 0 <= pct /\ pct <= 100).
Proof.
  destruct rs as [|mr rs]; [left; split; reflexivity|]. right.
  destruct (@compute_consensus_spec (mr :: rs))
    as (w & l1 & l2 & Hc & Hv & _ & _ & _); [discriminate|].
  do 3 eexists. split; [exact Hc|].
  set (votes := map fault_type (mr :: rs)) in *.
  split; [rewrite Hv; apply in_app_iff; right; now left|].
  split; [rewrite tally_sum; unfold votes; now rewrite length_map|].
  assert (Hk : (0 <= cnt votes w <= Z.of_nat (List.length votes))%Z).
  { split; [unfold cnt; lia | apply cnt_le_length]. }
  assert (Hn : (0 < Z.of_nat (List.length votes))%Z)
    by (unfold votes; cbn [map List.length]; lia).
  apply round_1_bounds.
  - apply Qmult_le_0_compat; [|discriminate].
    apply Qle_shift_div_l; [apply inject_Z_pos, Hn|].
    rewrite Qmult_0_l. change 0 with (inject_Z 0).
    rewrite <- Zle_Qle. apply Hk.
  - assert (H1 : inject_Z (cnt votes w)
                 / inject_Z (Z.of_nat (List.length votes)) <= 1).
    { apply Qle_shift_div_r; [apply inject_Z_pos, Hn|].
      rewrite Qmult_1_l, <- Zle_Qle. apply Hk. }
    lra.
Qed.

Lemma first_seen_unanimous (votes : list FaultType) (f : FaultType) :
  votes <> [] -> (forall g, In g votes -> g = f) -> first_seen votes = [f].
Proof.
  intros Hne Hall.
  pose proof (first_seen_NoDup votes) as Hnd.
  pose proof (first_seen_In votes) as Hin.
  destruct (first_seen votes) as [|a [|b ks]].
  - exfalso. destruct votes as [|v vs]; [congruence|].
    apply (proj2 (Hin v)). now left.
  - f_equal. apply Hall, Hin. now left.
  - exfalso. inversion Hnd as [|? ? Hna _]; subst. apply Hna.
    assert (a = f) by (apply Hall, Hin; now left).
    assert (b = f) by (apply Hall, Hin; right; now left).
    subst. now left.
Qed.

Lemma cnt_unanimous (votes : list FaultType) (f : FaultType) :
  (forall g, In g votes -> g = f) ->
  cnt votes f = Z.of_nat (List.length votes).
Proof.
  intro Hall. unfold cnt. f_equal.
  induction votes as [|v vs IH]; [reflexivity|].
  cbn [count_occ List.length].
  destruct (FaultType_eq_dec v f) as [_ | Hne].
  - f_equal. apply IH. intros g Hg. apply Hall. now right.
  - exfalso. apply Hne, Hall. now left.
Qed.

(** X11. When all the results name the same fault, that fault is the
    consensus, the vote dictionary has the single entry for it with the
    number of results, and the agreement percentage is 100. *)
Theorem compute_consensus_unanimous (rs : list MethodResult) (f : FaultType) :
  rs <> [] ->
  (forall mr, In mr rs -> fault_type mr = f) ->
  exists pct,
    _compute_consensus rs
    = Ok (f, [(name f, Z.of_nat (List.length rs))], pct)
    /\ pct == 100.
Proof.
  intros Hne Hall.
  destruct (compute_consensus_spec Hne)
    as (w & l1 & l2 & Hc & Hv & _ & _ & _).
  set (votes := map fault_type rs) in *.
  assert (Hvotes : forall g, In g votes -> g = f).
  { intros g Hg. apply in_map_iff in Hg.
    destruct Hg as (mr & <- & Hmr). apply Hall, Hmr. }
  assert (Hw : w = f).
  { apply Hvotes. rewrite Hv. apply in_app_iff. right. now left. }
  subst w.
  assert (Hvne : votes <> []).
  { unfold votes. destruct rs; [congruence | discriminate]. }
  rewrite (first_seen_unanimous Hvne Hvotes) in Hc.
  subst votes. cbn [map] in Hc. rewrite !(cnt_unanimous _ Hvotes) in Hc.
  rewrite length_map in Hc.
  eexists. split; [exact Hc|].
  apply (@round_1_exact _ 100).
  assert (Hn : ~ inject_Z (Z.of_nat (List.length rs)) == 0).
  { destruct rs; [congruence|]. cbn [List.length].
    unfold Qeq, inject_Z. cbn [Qnum Qden]. lia. }
  change (inject_Z 100) with 100. field. exact Hn.
Qed.

Lemma tally_lookup (g : FaultType -> Z) (ks : list FaultType)
  (f : FaultType) :
  dict_get (map (fun k => (name k, g k)) ks) (name f)
  = if in_dec FaultType_eq_dec f ks then Some (g f) else None.
Proof.
  induction ks as [|k ks IH]; [reflexivity|].
  cbn [map dict_get]. destruct (String.eqb_spec (name k) (name f)) as [E | E].
  - apply name_inj in E. subst k.
    destruct (in_dec FaultType_eq_dec f (f :: ks)) as [_ | Hn];
      [reflexivity | exfalso; apply Hn; now left].
  - rewrite IH.
    destruct (in_dec FaultType_eq_dec f ks) as [Hi | Hn];
      destruct (in_dec FaultType_eq_dec f (k :: ks)) as [Hi' | Hn'];
      try reflexivity.
    + exfalso. apply Hn'. now right.
    + exfalso. destruct Hi' as [-> | Hi']; [congruence | contradiction].
Qed.

(** X12. In the result of [diagnose_all] the consensus fault is the
    vote of at least one classifier, and [vote_counts] has one entry per
    fault that was voted, holding its number of votes: looking up a fault
    name gives its count when some classifier voted for it and nothing
    otherwise. *)
Theorem diagnose_all_vote_counts_lookup (r : GasReading) :
  exists res,
    diagnose_all r = Ok res
    /\ In (consensus_fault res) (map fault_type (results res))
    /\ forall f,
         dict_get (vote_counts res) (name f)
         = if (0 <? cnt (map fault_type (results res)) f)%Z
           then Some (cnt (map fault_type (results res)) f)
           else None.
Proof.
  destruct (diagnose_all_spec r)
    as (res & l1 & l2 & Hres & _ & _ & _ & Hvc & _ & Hv & _).
  exists res. split; [exact Hres|]. split.
  - rewrite Hv. apply in_app_iff. right. now left.
  - intro f. rewrite Hvc, tally_lookup.
    destruct (in_dec FaultType_eq_dec f (first_seen _)) as [Hi | Hn].
    + apply (proj1 (first_seen_In _ f)) in Hi. apply cnt_in_pos in Hi.
      destruct (Z.ltb_spec 0 (cnt (map fault_type (results res)) f));
        [reflexivity | lia].
    + rewrite cnt_not_in by (intro H; apply Hn; now apply first_seen_In).
      reflexivity.
Qed.

(** X13. The names of the results of [diagnose_all] are exactly
    [available_methods], in that order, and each result is the one that
    [diagnose_single] returns for its method name. *)
Theorem diagnose_single_agrees_with_diagnose_all (r : GasReading) :
  exists res,
    diagnose_all r = Ok res
    /\ map method_name (results res) = available_methods
    /\ Forall (fun mr => diagnose_single r (method_name mr) = Ok (Some mr))
              (results res).
Proof.
  destruct (diagnose_all_spec r)
    as (res & l1 & l2 & Hres & Hnames & Hrun & _).
  destruct (run_methods r)
    as (r1 & r2 & r3 & r4 & r5 & r6 & Hrun' & H1 & H2 & H3 & H4 & H5 & H6
        & Hn).
  rewrite Hrun' in Hrun. injection Hrun as Hrs.
  exists res. split; [exact Hres|]. split; [exact Hnames|].
  rewrite <- Hrs. injection Hn as N1 N2 N3 N4 N5 N6.
  repeat constructor;
    [rewrite N1 | rewrite N2 | rewrite N3 | rewrite N4 | rewrite N5
     | rewrite N6];
    unfold diagnose_single, _METHODS; cbn [find_method];
    rewrite H1; cbn [bind]; rewrite N1;
    (match goal with
     | |- context [String.eqb ?a ?b] =>
         let v := eval vm_compute in (String.eqb a b) in
         change (String.eqb a b) with v
     end; cbv iota; try reflexivity);
    rewrite H2; cbn [bind]; rewrite N2;
    (match goal with
     | |- context [String.eqb ?a ?b] =>
         let v := eval vm_compute in (String.eqb a b) in
         change (String.eqb a b) with v
     end; cbv iota; try reflexivity);
    rewrite H3; cbn [bind]; rewrite N3;
    (match goal with
     | |- context [String.eqb ?a ?b] =>
         let v := eval vm_compute in (String.eqb a b) in
         change (String.eqb a b) with v
     end; cbv iota; try reflexivity);
    rewrite H4; cbn [bind]; rewrite N4;
    (match goal with
     | |- context [String.eqb ?a ?b] =>
         let v := eval vm_compute in (String.eqb a b) in
         change (String.eqb a b) with v
     end; cbv iota; try reflexivity);
    rewrite H5; cbn [bind]; rewrite N5;
    (match goal with
     | |- context [String.eqb ?a ?b] =>
         let v := eval vm_compute in (String.eqb a b) in
         change (String.eqb a b) with v
     end; cbv iota; try reflexivity);
    rewrite H6; cbn [bind]; rewrite N6;
    (match goal with
     | |- context [String.eqb ?a ?b] =>
         let v := eval vm_compute in (String.eqb a b) in
         change (String.eqb a b) with v
     end; cbv iota; reflexivity).
Qed.

End ConsensusMore.

(** ** More on training and evaluation *)

Module TrainerMore.

Import NumpyFacts TrainerFacts.

Section Oracles.

Variable FittedPipeline : Type.
Variable cross_val_score :
  Pipeline -> list (list Q) -> list Z -> StratifiedKFold
  -> result (list pyfloat.float).
Variable fit :
  Pipeline -> list (list Q) -> list Z -> result FittedPipeline.
Variable np_mean : list pyfloat.float -> pyfloat.float.
Variable np_std : list pyfloat.float -> pyfloat.float.

Variable EvaluationResult : Type.
Variable cross_val_predict :
  Pipeline -> list (list Q) -> list Z -> StratifiedKFold -> result (list Z).
Variable metrics :
  string -> list Z -> list Z -> list Z -> result EvaluationResult.

Local Abbreviation TrainedModel := (model_trainer.TrainedModel FittedPipeline).
Local Abbreviation train_each :=
  (model_trainer.train_each cross_val_score fit np_mean np_std).
Local Abbreviation train_all :=
  (model_trainer.train_all cross_val_score fit np_mean np_std).
Local Abbreviation evaluate :=
  (model_evaluator.evaluate cross_val_predict metrics).
Local Abbreviation accuracy := (@model_trainer.cv_accuracy FittedPipeline).

(** X14. A training run that succeeds has passed both checks, has
    cross-validated and then fitted on the whole data each of Random
    Forest, SVM, KNN and MLP, in that order and with one splitter of at
    least two folds, and reports the number of samples and of distinct
    classes of its input. *)
Theorem train_all_success_trace
  (n_folds : Z) (X : list (list Q)) (y : list Z)
  (res : model_trainer.TrainingResult FittedPipeline) (trace : Trace) :
  train_all n_folds X y [] = (Ok res, trace) ->
  exists cv,
    trace = flat_map (fun p => [CrossValScore (snd p) cv; Fit (snd p)])
                     model_trainer._build_pipelines
    /\ (2 <= n_splits cv)%Z
    /\ shuffle cv = true /\ random_state cv = 42%Z
    /\ (n_folds <= Z.of_nat (List.length X))%Z
    /\ (2 <= distinct_labels y)%nat
    /\ model_trainer.n_samples res = Z.of_nat (List.length X)
    /\ model_trainer.n_classes res = Z.of_nat (distinct_labels y)
    /\ Permutation
         (map (@model_trainer.name FittedPipeline)
              (model_trainer.models res))
         ["Random Forest"; "SVM"; "KNN"; "MLP"]%string.
Proof.
  unfold model_trainer.train_all.
  destruct (Z.ltb_spec (Z.of_nat (List.length X)) n_folds) as [|Hn];
    [discriminate|].
  rewrite unique_length.
  destruct (Z.ltb_spec (Z.of_nat (distinct_labels y)) 2) as [|Hc];
    [discriminate|].
  intro H.
  apply tbind_ok in H. destruct H as (counts & t1 & H1 & H).
  apply tbind_ok in H. destruct H as (class_counts & t2 & H2 & H).
  apply tbind_ok in H. destruct H as (min_class_count & t3 & H3 & H).
  cbv zeta in H.
  apply tbind_ok in H. destruct H as (trained & t4 & Htrained & H).
  apply tbind_ok in H. destruct H as (best & t5 & Hbest & H).
  unfold tret in H. injection H as <- <-.
  unfold lift in H1, H2, H3, Hbest.
  injection H1 as _ <-. injection H2 as _ <-. injection H3 as _ <-.
  injection Hbest as _ <-.
  destruct (@train_each_ok_trace _ _ _ _ _ _ _ _ _ _ _ _ Htrained) as [-> Hnames].
  eexists. split; [reflexivity|].
  cbn [n_splits shuffle random_state model_trainer.n_samples
       model_trainer.n_classes model_trainer.models].
  split; [destruct (Z.ltb_spec (Z.min n_folds min_class_count) 2); lia|].
  repeat (split; [first [reflexivity | lia]|]).
  rewrite (Permutation_map _ (sort_models_perm trained)), Hnames.
  reflexivity.
Qed.

(** X15. When every mean accuracy is a number, ties are resolved by the
    order of the candidates: the best model of a successful run is the
    first model, in the order Random Forest, SVM, KNN, MLP, whose mean
    cross-validated accuracy is the greatest. *)
Theorem train_all_best_is_first_maximum
  (n_folds : Z) (X : list (list Q)) (y : list Z)
  (res : model_trainer.TrainingResult FittedPipeline) (trace : Trace) :
  train_all n_folds X y [] = (Ok res, trace) ->
  Forall scored (model_trainer.models res) ->
  exists before after,
    map (@model_trainer.name FittedPipeline)
        (before ++ model_trainer.best_model res :: after)
    = ["Random Forest"; "SVM"; "KNN"; "MLP"]%string
    /\ Permutation (model_trainer.models res)
                   (before ++ model_trainer.best_model res :: after)
    /\ Forall (fun m =>
                 pyfloat.lt (accuracy m)
                            (accuracy (model_trainer.best_model res))
                 = true) before
    /\ Forall (fun m =>
                 pyfloat.lt (accuracy (model_trainer.best_model res))
                            (accuracy m)
                 = false) after.
Proof.
  unfold model_trainer.train_all.
  destruct (_ <? n_folds)%Z; [discriminate|].
  destruct (_ <? 2)%Z; [discriminate|].
  intro H.
  apply tbind_ok in H. destruct H as (counts & t1 & _ & H).
  apply tbind_ok in H. destruct H as (class_counts & t2 & _ & H).
  apply tbind_ok in H. destruct H as (min_class_count & t3 & _ & H).
  cbv zeta in H.
  apply tbind_ok in H. destruct H as (trained & t4 & Htrained & H).
  apply tbind_ok in H. destruct H as (best & t5 & Hbest & H).
  unfold tret in H. injection H as <- _.
  cbn [model_trainer.models model_trainer.best_model].
  unfold lift in Hbest. injection Hbest as Hbest _.
  intro Hs.
  assert (Ht : Forall scored trained).
  { eapply Permutation_Forall; [apply sort_models_perm | exact Hs]. }
  destruct (pylist.sort _ true trained) as [|h rest] eqn:E;
    [discriminate Hbest|].
  cbn in Hbest. injection Hbest as ->.
  destruct (@SortFacts.sort_reverse_head
              _ (@model_trainer.accuracy_lt FittedPipeline)
              (@accuracy_value FittedPipeline) (@scored FittedPipeline)
              (@accuracy_lt_value FittedPipeline) trained best rest Ht E)
    as (before & after & Hl & Hb & Ha).
  exists before, after.
  destruct (@train_each_ok_trace _ _ _ _ _ _ _ _ _ _ _ _ Htrained) as [_ Hnames].
  assert (Hbest : scored best) by now inversion Hs.
  rewrite Hl in Ht. apply Forall_app in Ht. destruct Ht as [Gb Ga].
  inversion Ga as [|? ? _ Ga']; subst.
  rewrite <- E.
  split; [exact Hnames|]. split; [apply sort_models_perm|]. split.
  - rewrite Forall_forall in Hb, Gb |- *. intros m Hm.
    change (model_trainer.accuracy_lt m best = true).
    rewrite (@accuracy_lt_value _ _ _ (Gb _ Hm) Hbest).
    apply Qlt_bool_true, Hb, Hm.
  - rewrite Forall_forall in Ha, Ga' |- *. intros m Hm.
    change (model_trainer.accuracy_lt best m = false).
    rewrite (@accuracy_lt_value _ _ _ Hbest (Ga' _ Hm)).
    apply Qlt_bool_false, Ha, Hm.
Qed.

(** X16. No run of [train_all] or [evaluate], whatever the input and
    whatever the library answers, cross-validates with fewer than two
    folds or with more than max(2, requested) folds. *)
Theorem cross_validation_folds_bounded
  (n_folds : Z) (X : list (list Q)) (y : list Z)
  (model_name : string) (pipeline : Pipeline) :
  Forall (fun ev => forall s, splits_of ev = Some s ->
                              (2 <= s <= Z.max 2 n_folds)%Z)
         (snd (train_all n_folds X y []))
  /\ Forall (fun ev => forall s, splits_of ev = Some s ->
                                 (2 <= s <= Z.max 2 n_folds)%Z)
            (snd (evaluate n_folds model_name pipeline X y [])).
Proof.
  split.
  - unfold model_trainer.train_all.
    destruct (_ <? n_folds)%Z; [constructor|].
    destruct (_ <? 2)%Z; [constructor|].
    unfold tbind at 1, lift at 1.
    destruct (np.bincount y) as [counts|e]; [|constructor].
    unfold tbind at 1, lift at 1.
    destruct (np.take counts (np.unique y)) as [cc|e]; [|constructor].
    unfold tbind at 1, lift at 1.
    destruct (min_Z cc) as [m|e]; [|constructor].
    cbv zeta. rewrite adapted_folds.
    set (cv := {| n_splits := _; shuffle := _; random_state := _ |}).
    destruct (train_each_trace cross_val_score fit np_mean np_std X y cv
                model_trainer._build_pipelines [])
      as (evs & Hevs & Hall & _).
    cbn [app] in Hevs.
    assert (Htr : snd (tbind (train_each model_trainer._build_pipelines
                                         X y cv)
                             (fun trained =>
                                tbind (lift
                                         (normative_diagnosis_service.head_item
                                            (pylist.sort
                                               (@model_trainer.accuracy_lt
                                                  FittedPipeline)
                                               true trained)))
                                      (fun best =>
                                         tret
                                           (model_trainer.mkTrainingResult
                                              (pylist.sort
                                                 (@model_trainer.accuracy_lt
                                                    FittedPipeline)
                                                 true trained)
                                              best
                                              data_preparation.FEATURE_NAMES
                                              data_preparation.FAULT_LABELS
                                              (Z.of_nat (List.length X))
                                              (Z.of_nat
                                                 (List.length (np.unique y))))))
                             []) = evs).
    { unfold tbind at 1.
      destruct (train_each _ _ _ _ _) as [[trained | e] t1];
        cbn [snd] in Hevs; subst t1; [|reflexivity].
      unfold tbind, lift, tret.
      destruct (normative_diagnosis_service.head_item _); reflexivity. }
    rewrite Htr. eapply Forall_impl; [|exact Hall].
    cbv beta. intros ev Hev s Hs. rewrite (Hev s Hs).
    unfold cv. cbn [n_splits]. lia.
  - unfold model_evaluator.evaluate.
    unfold tbind at 1, lift at 1.
    destruct (np.bincount y) as [counts|e]; [|constructor].
    unfold tbind at 1, lift at 1.
    destruct (np.take counts (np.unique y)) as [cc|e]; [|constructor].
    unfold tbind at 1, lift at 1.
    destruct (min_Z cc) as [m|e]; [|constructor].
    cbv zeta. rewrite adapted_folds.
    unfold tbind, call, lift.
    destruct (cross_val_predict _ _ _ _); cbn [snd app];
      (constructor; [|constructor]); intros s Hs; injection Hs as <-;
      cbn [n_splits]; lia.
Qed.

(** X17. [evaluate] has no check of its own: on an empty label vector,
    or on one holding a negative label, it raises [ValueError] out of the
    fold computation, before any call to the library. *)
Theorem evaluate_rejects_empty_or_negative_labels
  (n_folds : Z) (model_name : string) (pipeline : Pipeline)
  (X : list (list Q)) (y : list Z) :
  y = [] \/ Exists (fun label => (label < 0)%Z) y ->
  exists msg,
    evaluate n_folds model_name pipeline X y []
    = (Raise (ValueError msg), []).
Proof.
  intros [-> | Hneg].
  - eexists. reflexivity.
  - unfold model_evaluator.evaluate, np.bincount.
    replace (existsb (fun v => (v <? 0)%Z) y) with true.
    + eexists. reflexivity.
    + symmetry. apply existsb_exists. apply Exists_exists in Hneg.
      destruct Hneg as (v & Hv & Hlt). exists v.
      split; [exact Hv | now apply Z.ltb_lt].
Qed.

End Oracles.

End TrainerMore.

(** ** Labels and datasets *)

Module DataFacts.

Import normative_diagnosis_service.

Lemma index_of_fault (ft : FaultType) :
  exists i,
    data_preparation.fault_to_index (name ft) = Return i
    /\ class_index i
    /\ fault_classifier.index_to_fault i = Return ft
    /\ nth_error data_preparation.FAULT_LABELS (Z.to_nat i)
       = Some (name ft).
Proof.
  unfold class_index.
  destruct ft;
    [exists 0%Z | exists 1%Z | exists 2%Z | exists 3%Z | exists 4%Z
     | exists 5%Z | exists 6%Z | exists 7%Z | exists 8%Z];
    (split; [reflexivity|]); (split; [lia|]); split; reflexivity.
Qed.

Lemma index_out_of_range (i : Z) :
  ~ class_index i ->
  fault_classifier.index_to_fault i
  = Throw (Builtin (KeyError (str_of_int i))).
Proof.
  unfold class_index. intro H.
  unfold fault_classifier.index_to_fault.
  change data_preparation.INDEX_TO_FAULT
    with [(0, N); (1, PD); (2, D1); (3, D2); (4, T1); (5, T2);
          (6, T3); (7, DT); (8, S)]%Z.
  cbn [int_dict_get].
  repeat match goal with
  | |- context [(?k =? i)%Z] => destruct (Z.eqb_spec k i); [lia|]
  end.
  reflexivity.
Qed.

(** X18. The label index is a round trip: every fault type has an index
    between 0 and 8 in [FAULT_TO_INDEX], [INDEX_TO_FAULT] maps that index
    back to the fault type and [FAULT_LABELS] holds its name at that
    position; an index outside 0..8 is a [KeyError]. *)
Theorem fault_index_round_trip :
  (forall ft,
      exists i,
        data_preparation.fault_to_index (name ft) = Return i
        /\ class_index i
        /\ fault_classifier.index_to_fault i = Return ft
        /\ nth_error data_preparation.FAULT_LABELS (Z.to_nat i)
           = Some (name ft))
  /\ (forall i,
         class_index i
         \/ fault_classifier.index_to_fault i
            = Throw (Builtin (KeyError (str_of_int i)))).
Proof.
  split; [exact index_of_fault|].
  intro i. unfold class_index.
  destruct (Z_le_gt_dec 0 i) as [H0 | H0];
    [destruct (Z_le_gt_dec i 8) as [H8 | H8]; [left; lia|]|];
    right; apply index_out_of_range; unfold class_index; lia.
Qed.

Lemma extract_features_returns (r : GasReading) :
  data_preparation.extract_features r = Return (features_of r).
Proof. reflexivity. Qed.

Lemma auto_label_returns (r : GasReading)
  (service : NormativeDiagnosisService) :
  exists res,
    diagnose_all r = Ok res
    /\ data_preparation.auto_label r service
       = Return (name (consensus_fault res)).
Proof.
  destruct (ConsensusFacts.diagnose_all_spec r) as (res & _ & _ & Hres & _).
  exists res. split; [exact Hres|].
  unfold data_preparation.auto_label. rewrite Hres. reflexivity.
Qed.

Lemma collect_returns (service : option NormativeDiagnosisService)
  (samples : list sample.Sample) :
  exists labels,
    data_preparation.collect samples service
    = Return (map (fun s => features_of (sample.gas_reading s)) samples,
              labels, map sample.id samples)
    /\ Forall2 (labelled service) samples labels.
Proof.
  induction samples as [|s rest IH].
  - exists []. split; [reflexivity | constructor].
  - destruct IH as (labels & Hc & Hl).
    cbn [data_preparation.collect]. rewrite extract_features_returns.
    cbn [obind].
    destruct service as [sv|].
    + destruct (auto_label_returns (sample.gas_reading s) sv)
        as (res & Hres & Ha).
      rewrite Ha. cbn [obind]. rewrite Hc. cbn [obind].
      eexists. split; [reflexivity|].
      constructor; [exists res; split; [exact Hres | reflexivity] | exact Hl].
    + cbn [obind]. rewrite Hc. cbn [obind].
      eexists. split; [reflexivity|].
      constructor; [reflexivity | exact Hl].
Qed.

Lemma labels_to_indices (service : option NormativeDiagnosisService)
  (samples : list sample.Sample) (labels : list string) :
  Forall2 (labelled service) samples labels ->
  exists y,
    omapM data_preparation.fault_to_index labels = Return y
    /\ Forall2 (fun lbl i =>
                  exists ft,
                    lbl = name ft /\ class_index i
                    /\ fault_classifier.index_to_fault i = Return ft)
               labels y.
Proof.
  induction 1 as [|s lbl samples labels Hl _ IH].
  - exists []. split; [reflexivity | constructor].
  - destruct IH as (y & Hy & Hall).
    assert (Hft : exists ft, lbl = name ft).
    { destruct service; [destruct Hl as (res & _ & ->) | rewrite Hl];
        eexists; reflexivity. }
    destruct Hft as (ft & ->).
    destruct (index_of_fault ft) as (i & Hi & Hr & Hb & _).
    cbn [omapM]. rewrite Hi. cbn [obind]. rewrite Hy. cbn [obind].
    eexists. split; [reflexivity|].
    constructor; [|exact Hall].
    exists ft. split; [reflexivity | split; [exact Hr | exact Hb]].
Qed.

Lemma prepare_dataset_aux (samples : list sample.Sample)
  (service : option NormativeDiagnosisService) :
  exists ds,
    data_preparation.prepare_dataset samples service = Return ds
    /\ data_preparation.X ds
       = map (fun s => features_of (sample.gas_reading s)) samples
    /\ data_preparation.sample_ids ds = map sample.id samples
    /\ data_preparation.feature_names ds = data_preparation.FEATURE_NAMES
    /\ Forall2 (labelled service) samples
               (data_preparation.fault_labels ds)
    /\ Forall2 (fun lbl i =>
                  exists ft,
                    lbl = name ft /\ class_index i
                    /\ fault_classifier.index_to_fault i = Return ft)
               (data_preparation.fault_labels ds)
               (data_preparation.y ds).
Proof.
  destruct samples as [|s rest].
  - eexists. split; [reflexivity|]. cbn.
    repeat split; constructor.
  - destruct (collect_returns service (s :: rest)) as (labels & Hc & Hl).
    destruct (labels_to_indices Hl) as (y & Hy & Hall).
    unfold data_preparation.prepare_dataset. rewrite Hc. cbn [obind].
    rewrite Hy. cbn [obind].
    eexists. split; [reflexivity|].
    cbn [data_preparation.X data_preparation.y
         data_preparation.fault_labels data_preparation.feature_names
         data_preparation.sample_ids].
    repeat (split; [first [reflexivity | assumption]|]). assumption.
Qed.

(** X19. [prepare_dataset] never raises.  Its feature matrix holds, row
    by row, the nine concentrations of each sample in canonical order, its
    sample ids are those of the samples, and each sample has one label: the
    name of the consensus fault of its reading when a diagnosis service is
    given (N otherwise), encoded in [y] by the index, between 0 and 8, that
    [INDEX_TO_FAULT] decodes back to that fault. *)
Theorem prepare_dataset_returns (samples : list sample.Sample)
  (service : option NormativeDiagnosisService) :
  exists ds,
    data_preparation.prepare_dataset samples service = Return ds
    /\ data_preparation.X ds
       = map (fun s => features_of (sample.gas_reading s)) samples
    /\ data_preparation.sample_ids ds = map sample.id samples
    /\ data_preparation.feature_names ds = data_preparation.FEATURE_NAMES
    /\ Forall2 (labelled service) samples
               (data_preparation.fault_labels ds)
    /\ Forall2 (fun lbl i =>
                  exists ft,
                    lbl = name ft /\ class_index i
                    /\ fault_classifier.index_to_fault i = Return ft)
               (data_preparation.fault_labels ds)
               (data_preparation.y ds).
Proof.
  exact (prepare_dataset_aux samples service).
Qed.

Lemma index_of_normal (i : Z) :
  class_index i -> fault_classifier.index_to_fault i = Return N -> i = 0%Z.
Proof.
  unfold class_index. intros Hi H.
  assert (Hc : (i = 0 \/ i = 1 \/ i = 2 \/ i = 3 \/ i = 4 \/ i = 5
                \/ i = 6 \/ i = 7 \/ i = 8)%Z) by lia.
  destruct Hc as [-> | [-> | [-> | [-> | [-> | [-> | [-> | [-> | ->]]]]]]]];
    first [reflexivity | discriminate H].
Qed.

Lemma constant_labels_one_class (y : list Z) :
  Forall (fun i => i = 0%Z) y -> (distinct_labels y < 2)%nat.
Proof.
  unfold distinct_labels. induction 1 as [|i y -> Hy IH]; [cbn; lia|].
  cbn [nodup]. destruct (in_dec Z.eq_dec 0%Z y) as [_ | Hn]; [exact IH|].
  destruct y as [|j y']; [cbn; lia|].
  exfalso. apply Hn. inversion Hy; subst. now left.
Qed.

Lemma no_service_labels_zero (samples : list sample.Sample)
  (labels : list string) (y : list Z) :
  Forall2 (labelled None) samples labels ->
  Forall2 (fun lbl i =>
             exists ft,
               lbl = name ft /\ class_index i
               /\ fault_classifier.index_to_fault i = Return ft)
          labels y ->
  Forall (fun i => i = 0%Z) y.
Proof.
  intro Hl. revert y.
  induction Hl as [|s lbl samples labels Hs _ IH]; intros y Hy;
    inversion Hy; subst; constructor.
  - match goal with
    | H : exists ft, _ |- _ => destruct H as (ft & Hft & Hi & Hidx)
    end.
    unfold labelled in Hs. rewrite Hs in Hft.
    apply CounterFacts.name_inj in Hft.
    subst ft. exact (index_of_normal Hi Hidx).
  - apply IH. assumption.
Qed.

(** X20. A dataset prepared without a diagnosis service labels every
    sample N, so it has a single class and cannot be used for training:
    [train_all] rejects it with a [ValueError] before any call to the
    library, whatever the number of folds. *)
Theorem dataset_without_service_is_not_trainable
  (FittedPipeline : Type)
  (cross_val_score :
     Pipeline -> list (list Q) -> list Z -> StratifiedKFold
     -> result (list pyfloat.float))
  (fit : Pipeline -> list (list Q) -> list Z -> result FittedPipeline)
  (np_mean np_std : list pyfloat.float -> pyfloat.float)
  (samples : list sample.Sample) (n_folds : Z) :
  exists ds msg,
    data_preparation.prepare_dataset samples None = Return ds
    /\ Forall (fun i => i = 0%Z) (data_preparation.y ds)
    /\ model_trainer.train_all cross_val_score fit np_mean np_std n_folds
         (data_preparation.X ds) (data_preparation.y ds) []
       = (Raise (ValueError msg), []).
Proof.
  destruct (prepare_dataset_aux samples None)
    as (ds & Hds & _ & _ & _ & Hl & Hy).
  pose proof (no_service_labels_zero Hl Hy) as Hzero.
  exists ds. unfold model_trainer.train_all.
  destruct (_ <? n_folds)%Z; [eexists; repeat split; eassumption || reflexivity|].
  rewrite NumpyFacts.unique_length.
  pose proof (constant_labels_one_class Hzero) as Hone.
  replace (Z.of_nat (distinct_labels (data_preparation.y ds)) <? 2)%Z
    with true by (symmetry; apply Z.ltb_lt; lia).
  eexists. repeat split; eassumption || reflexivity.
Qed.

End DataFacts.

(** ** Arithmetic in binary64 *)

Module Binary64Facts.

Lemma pow2_nonpos (e : Z) :
  (e <= 0)%Z ->
  exists s, (0 < s)%Z /\ binary64.pow2 e == 1 / inject_Z s.
Proof.
  intro He. destruct e as [|p|p]; [| lia |].
  - exists 1%Z. split; [lia | reflexivity].
  - exists (2 ^ Z.pos p)%Z. split; [|reflexivity].
    apply Z.pow_pos_nonneg; lia.
Qed.

Lemma exponent_small (q : Q) (n : Z) :
  0 < q -> q <= inject_Z n -> (n <= 2 ^ 52)%Z ->
  (binary64.exponent q <= 52)%Z.
Proof.
  destruct q as [num den]. unfold Qlt, Qle, inject_Z, binary64.exponent.
  cbn [Qnum Qden]. intros Hpos Hle Hn.
  assert (Hk : (Z.log2 num <= 52 + Z.log2 (Z.pos den))%Z).
  { rewrite <- (Z.log2_mul_pow2 (Z.pos den) 52) by lia.
    apply Z.log2_le_mono. nia. }
  destruct (Qle_bool _ _); lia.
Qed.

(** Rounding to the nearest float keeps a number between 0 and an
    integer that is itself a float. *)
Lemma nearest_bounds (q : Q) (n : Z) :
  0 <= q -> q <= inject_Z n -> (n <= 2 ^ 52)%Z ->
  0 <= binary64.nearest q /\ binary64.nearest q <= inject_Z n.
Proof.
  intros H0 Hn Hsmall. unfold binary64.nearest.
  destruct (Qeq_bool q 0) eqn:Ez.
  - split; [apply Qle_refl|]. eapply Qle_trans; [exact H0 | exact Hn].
  - assert (Hpos : 0 < q).
    { apply Qle_lteq in H0. destruct H0 as [H0 | H0]; [exact H0|].
      symmetry in H0. apply Qeq_bool_iff in H0. congruence. }
    assert (Habs : Qabs q = q).
    { destruct q as [num den]. unfold Qabs. f_equal.
      apply Z.abs_eq. unfold Qlt in Hpos. cbn in Hpos. lia. }
    rewrite Habs. cbv zeta.
    replace (Qlt_bool q 0) with false
      by (symmetry; apply Qlt_bool_false; exact H0).
    pose proof (exponent_small Hpos Hn Hsmall) as He.
    destruct (@pow2_nonpos (binary64.exponent q - 52)) as (s & Hs & Hp);
      [lia|].
    assert (HS : 0 < inject_Z s) by (apply CounterFacts.inject_Z_pos, Hs).
    assert (Hd : q / binary64.pow2 (binary64.exponent q - 52)
                 == q * inject_Z s).
    { rewrite Hp. field. intro E. rewrite E in HS.
      exact (Qlt_irrefl 0 HS). }
    destruct (@ConsensusMore.round_half_even_bounds
                (q / binary64.pow2 (binary64.exponent q - 52)) 0 (n * s))
      as [Hl Hu].
    + rewrite Hd. change (inject_Z 0) with 0.
      apply Qmult_le_0_compat; [exact H0 | apply Qlt_le_weak, HS].
    + rewrite Hd, inject_Z_mult.
      apply Qmult_le_compat_r; [exact Hn | apply Qlt_le_weak, HS].
    + set (m := round_half_even _) in *. rewrite Hp.
      assert (Hm0 : 0 <= inject_Z m)
        by (change 0 with (inject_Z 0); rewrite <- Zle_Qle; exact Hl).
      assert (Hmn : inject_Z m <= inject_Z n * inject_Z s)
        by (rewrite <- inject_Z_mult, <- Zle_Qle; exact Hu).
      split.
      * apply Qmult_le_0_compat; [exact Hm0|].
        apply Qle_shift_div_l; [exact HS|]. rewrite Qmult_0_l.
        discriminate.
      * assert (E : inject_Z m * (1 / inject_Z s)
                    == inject_Z m / inject_Z s).
        { field. intro E. rewrite E in HS. exact (Qlt_irrefl 0 HS). }
        rewrite E. apply Qle_shift_div_r; [exact HS | exact Hmn].
Qed.

(** The percentage of [a] agreements out of [t] comparisons. *)
Lemma percentage_bounds (a t : Z) :
  (0 <= a <= t)%Z -> (0 < t)%Z ->
  exists q,
    binary64.int_truediv a t = Ok q
    /\ 0 <= binary64.round (binary64.mul q 100) 1
    /\ binary64.round (binary64.mul q 100) 1 <= 100.
Proof.
  intros Ha Ht. unfold binary64.int_truediv.
  replace (t =? 0)%Z with false by (symmetry; apply Z.eqb_neq; lia).
  eexists. split; [reflexivity|].
  assert (HT : 0 < inject_Z t) by (apply CounterFacts.inject_Z_pos, Ht).
  destruct (@nearest_bounds (inject_Z a / inject_Z t) 1) as [Q0 Q1].
  - apply Qle_shift_div_l; [exact HT|]. rewrite Qmult_0_l.
    change 0 with (inject_Z 0). rewrite <- Zle_Qle. lia.
  - apply Qle_shift_div_r; [exact HT|].
    change (inject_Z 1) with 1. rewrite Qmult_1_l, <- Zle_Qle. lia.
  - lia.
  - change (inject_Z 1) with 1 in Q1.
    unfold binary64.mul, binary64.round.
    destruct (@nearest_bounds
                (binary64.nearest (inject_Z a / inject_Z t) * 100) 100)
      as [M0 M1]; [lra | change (inject_Z 100) with 100; lra | lia |].
    change (inject_Z 100) with 100 in M1.
    destruct (ConsensusMore.round_1_bounds M0 M1) as [R0 R1].
    destruct (@nearest_bounds
                (Py.round
                   (binary64.nearest
                      (binary64.nearest (inject_Z a / inject_Z t) * 100))
                   1) 100)
      as [N0 N1]; [exact R0 | exact R1 | lia |].
    split; [exact N0 | exact N1].
Qed.

(** The percentages that exact arithmetic would round the other way. *)
Lemma percentage_of_23_in_80 :
  binary64.int_truediv 23 80 = Ok (binary64.nearest (23 # 80))
  /\ binary64.round (binary64.mul (binary64.nearest (23 # 80)) 100) 1
     == binary64.nearest (287 # 10)
  /\ Py.round ((23 # 80) * 100) 1 == 288 # 10.
Proof.
  split; [reflexivity|]. split; vm_compute; reflexivity.
Qed.

End Binary64Facts.

(** ** The fault classifier, persistence and the AI service *)

Module ServiceFacts.

Import DataFacts.

Lemma path_eqb_refl (p : Path) : path_eqb p p = true.
Proof.
  unfold path_eqb. destruct (list_eq_dec string_dec p p); congruence.
Qed.

Lemma path_eqb_neq (p q : Path) : p <> q -> path_eqb p q = false.
Proof.
  unfold path_eqb. destruct (list_eq_dec string_dec p q); congruence.
Qed.

Lemma fs_get_set_same (V : Type) (files : list (Path * V)) (p : Path)
  (v : V) :
  fs_get (fs_set files p v) p = Some v.
Proof.
  induction files as [|[q w] files IH]; cbn [fs_set fs_get].
  - now rewrite path_eqb_refl.
  - destruct (path_eqb q p) eqn:E; cbn [fs_get]; rewrite E;
      [reflexivity | exact IH].
Qed.

Lemma fs_get_set_other (V : Type) (files : list (Path * V)) (p q : Path)
  (v : V) :
  q <> p -> fs_get (fs_set files p v) q = fs_get files q.
Proof.
  intro Hne. induction files as [|[p' w] files IH]; cbn [fs_set fs_get].
  - rewrite path_eqb_neq; [reflexivity | congruence].
  - destruct (path_eqb p' p) eqn:E; cbn [fs_get].
    + unfold path_eqb in E.
      destruct (list_eq_dec string_dec p' p) as [-> |]; [|discriminate].
      rewrite (@path_eqb_neq p q) by congruence. reflexivity.
    + destruct (path_eqb p' q); [reflexivity | exact IH].
Qed.

Lemma index_in_range (i : Z) :
  class_index i ->
  exists ft,
    fault_classifier.index_to_fault i = Return ft
    /\ data_preparation.fault_to_index (name ft) = Return i.
Proof.
  unfold class_index. intro Hi.
  assert (Hc : (i = 0 \/ i = 1 \/ i = 2 \/ i = 3 \/ i = 4 \/ i = 5
                \/ i = 6 \/ i = 7 \/ i = 8)%Z) by lia.
  destruct Hc as [-> | [-> | [-> | [-> | [-> | [-> | [-> | [-> | ->]]]]]]]];
    eexists; split; reflexivity.
Qed.

Lemma class_index_dec (i : Z) : {class_index i} + {~ class_index i}.
Proof.
  unfold class_index.
  destruct (Z_le_gt_dec 0 i); [destruct (Z_le_gt_dec i 8)|];
    [left; lia | right; lia | right; lia].
Qed.

Lemma extract_all_features (readings : list GasReading) :
  omapM data_preparation.extract_features readings
  = Return (map features_of readings).
Proof.
  induction readings as [|r rs IH]; [reflexivity|].
  cbn [omapM map]. rewrite extract_features_returns. cbn [obind].
  rewrite IH. reflexivity.
Qed.

Lemma decode_all (preds : list Z) :
  (Forall class_index preds
   /\ exists fts,
        omapM fault_classifier.index_to_fault preds = Return fts
        /\ Forall2 (fun ft pred =>
                      data_preparation.fault_to_index (name ft)
                      = Return pred) fts preds)
  \/ (~ Forall class_index preds
      /\ exists key,
           omapM fault_classifier.index_to_fault preds
           = Throw (Builtin (KeyError key))).
Proof.
  induction preds as [|i preds IH].
  - left. split; [constructor|]. exists []. split; [reflexivity|constructor].
  - cbn [omapM]. destruct (class_index_dec i) as [Hi | Hi].
    + destruct (index_in_range Hi) as (ft & Hd & He). rewrite Hd.
      cbn [obind].
      destruct IH as [(Hall & fts & Hf & H2) | (Hn & key & Hk)].
      * left. split; [constructor; assumption|].
        exists (ft :: fts). rewrite Hf. split; [reflexivity|].
        constructor; assumption.
      * right. split; [intro H; inversion H; contradiction|].
        exists key. rewrite Hk. reflexivity.
    + right. split; [intro H; inversion H; contradiction|].
      rewrite (index_out_of_range Hi). eexists. reflexivity.
Qed.

Lemma fault_dict_set_keys (V : Type) (d : list (FaultType * V))
  (k : FaultType) (v : V) (x : FaultType) :
  In x (map fst (fault_dict_set d k v)) -> x = k \/ In x (map fst d).
Proof.
  induction d as [|[k' v'] d IH]; cbn [fault_dict_set map fst In].
  - intros [<- | []]. left. reflexivity.
  - destruct (FaultType_eqb k' k); cbn [map fst In].
    + intros [<- | H]; right; [left; reflexivity | right; exact H].
    + intros [<- | H]; [right; left; reflexivity|].
      destruct (IH H) as [-> | H']; [left; reflexivity | right; right; exact H'].
Qed.

Lemma fault_dict_set_nodup (V : Type) (d : list (FaultType * V))
  (k : FaultType) (v : V) :
  NoDup (map fst d) -> NoDup (map fst (fault_dict_set d k v)).
Proof.
  induction d as [|[k' v'] d IH]; cbn [fault_dict_set map fst]; intro Hd.
  - constructor; [intros [] | constructor].
  - inversion Hd as [|? ? Hnot Hrest]; subst.
    destruct (FaultType_eqb k' k) eqn:E; cbn [map fst].
    + constructor; assumption.
    + constructor; [|exact (IH Hrest)].
      intro Hin. destruct (fault_dict_set_keys _ _ _ _ Hin) as [-> | Hin'].
      * unfold FaultType_eqb in E.
        destruct (FaultType_eq_dec k k); [discriminate | congruence].
      * contradiction.
Qed.

Lemma fill_probabilities_keys (pairs : list (Z * Q))
  (d d' : list (FaultType * Q)) :
  fault_classifier.fill_probabilities pairs d = Return d' ->
  (NoDup (map fst d) -> NoDup (map fst d'))
  /\ (forall ft, In ft (map fst d') ->
        In ft (map fst d)
        \/ exists i, In i (map fst pairs)
                     /\ fault_classifier.index_to_fault i = Return ft).
Proof.
  revert d. induction pairs as [|[i p] pairs IH]; intros d H;
    cbn [fault_classifier.fill_probabilities] in H.
  - injection H as <-. split; [tauto | intros ft Hft; left; exact Hft].
  - destruct (fault_classifier.index_to_fault i) as [ft | e] eqn:Ei;
      cbn [obind] in H; [|discriminate].
    destruct (IH _ H) as [Hnd Hkeys]. split.
    + intro Hd. apply Hnd, fault_dict_set_nodup, Hd.
    + intros x Hx. destruct (Hkeys x Hx) as [Hin | (j & Hj & Hdj)].
      * destruct (fault_dict_set_keys _ _ _ _ Hin) as [-> | Hin'].
        -- right. exists i. split; [left; reflexivity | exact Ei].
        -- left. exact Hin'.
      * right. exists j. split; [right; exact Hj | exact Hdj].
Qed.

Section Oracles.

Variable FittedPipeline : Type.
Variable predict : FittedPipeline -> list (list Q) -> outcome (list Z).
Variable has_predict_proba : FittedPipeline -> bool.
Variable predict_proba :
  FittedPipeline -> list (list Q) -> outcome (list (list Q)).
Variable classes_ : FittedPipeline -> outcome (list Z).
Variable cross_val_score :
  Pipeline -> list (list Q) -> list Z -> StratifiedKFold
  -> result (list pyfloat.float).
Variable fit :
  Pipeline -> list (list Q) -> list Z -> result FittedPipeline.
Variable np_mean : list pyfloat.float -> pyfloat.float.
Variable np_std : list pyfloat.float -> pyfloat.float.
Variable File : Type.
Variable resolve : Path -> Path.
Variable joblib_dump : FittedPipeline -> File.
Variable joblib_load : File -> outcome FittedPipeline.
Variable mkdir : Path -> outcome unit.
Variable dump_fault : Path -> option (error * option File).

Local Abbreviation FaultClassifier :=
  (fault_classifier.FaultClassifier FittedPipeline).
Local Abbreviation World := (ai_service.World FittedPipeline File).
Local Abbreviation save_model :=
  (model_persistence.save_model resolve joblib_dump mkdir dump_fault).
Local Abbreviation load_model :=
  (model_persistence.load_model resolve joblib_load).
Local Abbreviation has_model :=
  (@ai_service.has_model FittedPipeline File resolve).
Local Abbreviation _get_classifier :=
  (@ai_service._get_classifier FittedPipeline File resolve joblib_load).

(** X21. [classify] asks the pipeline for the prediction of the one row
    holding the nine concentrations, and decodes its first entry: an index
    between 0 and 8 gives the fault type with that index, any other index
    is a [KeyError], no prediction at all an [IndexError], and an
    exception of the pipeline is passed on. *)
Theorem classify_decodes_prediction (self : FaultClassifier)
  (reading : GasReading) :
  match predict (fault_classifier._pipeline self) [features_of reading] with
  | Return (pred :: _) =>
      (class_index pred
       /\ exists ft,
            fault_classifier.classify predict self reading = Return ft
            /\ data_preparation.fault_to_index (name ft) = Return pred)
      \/ (~ class_index pred
          /\ fault_classifier.classify predict self reading
             = Throw (Builtin (KeyError (str_of_int pred))))
  | Return [] =>
      fault_classifier.classify predict self reading
      = Throw (Builtin IndexError)
  | Throw e => fault_classifier.classify predict self reading = Throw e
  end.
Proof.
  unfold fault_classifier.classify, fault_classifier._prepare_single.
  rewrite extract_features_returns. cbn [obind].
  destruct (predict _ _) as [[|pred rest] | e]; cbn [obind first];
    [reflexivity | | reflexivity].
  destruct (class_index_dec pred) as [Hi | Hi].
  - left. split; [exact Hi|].
    destruct (index_in_range Hi) as (ft & Hd & He).
    exists ft. split; assumption.
  - right. split; [exact Hi | apply index_out_of_range, Hi].
Qed.

(** X22. [classify_batch] returns the empty list for no readings,
    whatever the pipeline would answer; for one or more readings it asks
    for the predictions of all the rows at once and decodes each of them,
    failing with [KeyError] when some prediction is not an index between
    0 and 8. *)
Theorem classify_batch_decodes_predictions (self : FaultClassifier)
  (r : GasReading) (rs : list GasReading) :
  fault_classifier.classify_batch predict self [] = Return []
  /\ match predict (fault_classifier._pipeline self)
                   (map features_of (r :: rs)) with
     | Return preds =>
         (Forall class_index preds
          /\ exists fts,
               fault_classifier.classify_batch predict self (r :: rs)
               = Return fts
               /\ Forall2 (fun ft pred =>
                             data_preparation.fault_to_index (name ft)
                             = Return pred) fts preds)
         \/ (~ Forall class_index preds
             /\ exists key,
                  fault_classifier.classify_batch predict self (r :: rs)
                  = Throw (Builtin (KeyError key)))
     | Throw e =>
         fault_classifier.classify_batch predict self (r :: rs) = Throw e
     end.
Proof.
  split; [reflexivity|].
  unfold fault_classifier.classify_batch.
  rewrite extract_all_features. cbn [obind].
  destruct (predict _ _) as [preds | e]; cbn [obind]; [|reflexivity].
  exact (decode_all preds).
Qed.

(** X30. [classify_with_probabilities] predicts and decodes before it
    looks for [predict_proba]: whenever [classify] fails it fails in the
    same way; when [classify] returns a fault and the pipeline has no
    [predict_proba] it raises [AttributeError]; and when it returns, its
    fault is the one [classify] returns, and its dictionary has no key
    twice and only keys that are the fault type of an index in the
    pipeline's [classes_]. *)
Theorem classify_with_probabilities_agrees_with_classify
  (self : FaultClassifier) (reading : GasReading) :
  match fault_classifier.classify predict self reading with
  | Throw e =>
      fault_classifier.classify_with_probabilities
        predict has_predict_proba predict_proba classes_ self reading
      = Throw e
  | Return f =>
      if has_predict_proba (fault_classifier._pipeline self)
      then match fault_classifier.classify_with_probabilities
                   predict has_predict_proba predict_proba classes_
                   self reading with
           | Return (f', prob_dict) =>
               f' = f
               /\ NoDup (map fst prob_dict)
               /\ exists classes,
                    classes_ (fault_classifier._pipeline self)
                    = Return classes
                    /\ Forall (fun ft =>
                                 exists i,
                                   In i classes
                                   /\ fault_classifier.index_to_fault i
                                      = Return ft)
                              (map fst prob_dict)
           | Throw _ => True
           end
      else exists msg,
             fault_classifier.classify_with_probabilities
               predict has_predict_proba predict_proba classes_
               self reading
             = Throw (AttributeError msg)
  end.
Proof.
  unfold fault_classifier.classify,
    fault_classifier.classify_with_probabilities,
    fault_classifier._prepare_single.
  rewrite extract_features_returns. cbn [obind].
  destruct (predict _ _) as [[|pred rest] | e]; cbn [obind first];
    [reflexivity | | reflexivity].
  destruct (fault_classifier.index_to_fault pred) as [f | e];
    cbn [obind]; [|reflexivity].
  destruct (has_predict_proba _); cbn [negb];
    [|eexists; reflexivity].
  destruct (predict_proba _ _) as [[|probas rows] | e];
    cbn [obind first]; [exact I | | exact I].
  destruct (classes_ _) as [classes | e]; cbn [obind]; [|exact I].
  destruct (fault_classifier.fill_probabilities (combine classes probas) [])
    as [prob_dict | e] eqn:E; cbn [obind]; [|exact I].
  destruct (fill_probabilities_keys _ _ E) as [Hnd Hkeys].
  split; [reflexivity|]. split; [apply Hnd; constructor|].
  exists classes. split; [reflexivity|].
  apply Forall_forall. intros ft Hft.
  destruct (Hkeys ft Hft) as [[] | (i & Hi & Hd)].
  exists i. split; [|exact Hd].
  apply in_map_iff in Hi. destruct Hi as ([j p] & <- & Hjp).
  exact (in_combine_l _ _ _ _ Hjp).
Qed.



(** A save touches the destination only, whether it succeeds or not. *)
Lemma save_model_elsewhere
  (model : model_trainer.TrainedModel FittedPipeline) (path : Path)
  (files : list (Path * File)) (location : Path) :
  location <> resolve path ->
  fs_get (snd (save_model model path files)) location
  = fs_get files location.
Proof.
  intro Hne. unfold model_persistence.save_model.
  destruct (mkdir _); [|reflexivity].
  destruct (dump_fault path) as [[e [truncated|]]|]; cbn [snd];
    [apply fs_get_set_other, Hne | reflexivity
     | apply fs_get_set_other, Hne].
Qed.



Local Abbreviation train :=
  (ai_service.train cross_val_score fit np_mean np_std resolve
     joblib_dump mkdir dump_fault).
Local Abbreviation classify :=
  (ai_service.classify predict resolve joblib_load).
Local Abbreviation classify_with_proba :=
  (ai_service.classify_with_proba
     predict has_predict_proba predict_proba classes_ resolve joblib_load).
Local Abbreviation diagnose :=
  (unified_diagnosis_service.diagnose
     predict has_predict_proba predict_proba classes_ resolve joblib_load).
Local Abbreviation compare :=
  (unified_diagnosis_service.compare
     predict has_predict_proba predict_proba classes_ resolve joblib_load).

(** X25. A call to [train] that succeeds leaves the best model's
    pipeline as the classifier in memory, and when asked to save its dump
    as the file at the model path (otherwise the files are untouched), so
    [has_model] answers yes afterwards.  A call that fails leaves the
    service object as it was, without the new classifier, and every file
    other than the one at the model path as it was; without saving it
    leaves all the files as they were. *)
Theorem train_installs_best_model
  (samples : option (list sample.Sample)) (save : bool) (w : World) :
  let model_file :=
    resolve (ai_service._model_dir (ai_service.service w)
             ++ [ai_service.DEFAULT_MODEL_NAME]) in
  match train samples save w with
  | (Return res, w') =>
      ai_service._classifier (ai_service.service w')
      = Some (fault_classifier.mkFaultClassifier
                (model_trainer.pipeline (model_trainer.best_model res)))
      /\ (if save
          then fs_get (ai_service.files w') model_file
               = Some (joblib_dump
                         (model_trainer.pipeline
                            (model_trainer.best_model res)))
          else ai_service.files w' = ai_service.files w)
      /\ has_model w' = (Return true, w')
  | (Throw e, w') =>
      ai_service.service w' = ai_service.service w
      /\ (forall location,
             location = model_file
             \/ fs_get (ai_service.files w') location
                = fs_get (ai_service.files w) location)
      /\ (if save then True else ai_service.files w' = ai_service.files w)
  end.
Proof.
  cbv zeta.
  unfold ai_service.train, ai_service.mbind at 1, ai_service.prepare_data.
  destruct (data_preparation.prepare_dataset _ _) as [ds | e];
    [|split; [reflexivity|split; [now right | now destruct save]]].
  unfold ai_service.mbind at 1, ai_service.run_train_all.
  destruct (model_trainer.train_all _ _ _ _ _ _ _ _) as [[res | e] t];
    cbn [of_result];
    [|split; [reflexivity|split; [now right | now destruct save]]].
  destruct save.
  - unfold ai_service.mbind at 1, ai_service.mbind at 1,
      ai_service.model_path, ai_service.mbind at 1,
      ai_service.run_save_model.
    cbn [ai_service.service ai_service.files ai_service.calls].
    pose proof (fun location =>
                  @save_model_elsewhere (model_trainer.best_model res)
                    (ai_service._model_dir (ai_service.service w)
                     ++ [ai_service.DEFAULT_MODEL_NAME])
                    (ai_service.files w) location) as Helse.
    unfold model_persistence.save_model in *.
    destruct (mkdir _);
      [|split; [reflexivity|split; [now right | exact I]]].
    destruct (dump_fault _) as [[e [truncated|]]|]; cbn [snd] in Helse.
    + split; [reflexivity|]. split; [|exact I]. intro location.
      destruct (list_eq_dec string_dec location
                  (resolve (ai_service._model_dir (ai_service.service w)
                            ++ [ai_service.DEFAULT_MODEL_NAME])))
        as [E | E]; [left; exact E | right; apply Helse, E].
    + split; [reflexivity|]. split; [now right | exact I].
    + unfold ai_service.mbind, ai_service.set_classifier, ai_service.mret,
        ai_service.has_model.
      cbn [ai_service.service ai_service.files ai_service.calls
           ai_service._classifier ai_service._model_dir].
      split; [reflexivity|]. split; [apply fs_get_set_same | reflexivity].
  - unfold ai_service.mbind, ai_service.set_classifier, ai_service.mret,
      ai_service.has_model.
    cbn [ai_service.service ai_service.files ai_service.calls
         ai_service._classifier ai_service._model_dir].
    repeat split.
Qed.

Lemma ServiceFacts_has_model (w : World) :
  exists b, has_model w = (Return b, w).
Proof.
  unfold ai_service.has_model.
  destruct (ai_service._classifier _); [now exists true|].
  eexists. reflexivity.
Qed.

Lemma get_classifier_keeps_files (w : World) :
  ai_service.files (snd (_get_classifier w)) = ai_service.files w.
Proof.
  unfold ai_service._get_classifier.
  destruct (ai_service._classifier _); [reflexivity|].
  destruct (path_exists _ _ _); [|reflexivity].
  unfold ai_service.mbind.
  destruct (fault_classifier.from_file _ _ _ _); reflexivity.
Qed.

Lemma classify_keeps_files (reading : GasReading) (w : World) :
  ai_service.files (snd (classify reading w)) = ai_service.files w.
Proof.
  unfold ai_service.classify, ai_service.mbind, ai_service.mlift.
  pose proof (get_classifier_keeps_files w) as H.
  destruct (ai_service._get_classifier _ _ w) as [[c | e] w1]; exact H.
Qed.

Lemma classify_with_proba_keeps_files (reading : GasReading) (w : World) :
  ai_service.files (snd (classify_with_proba reading w))
  = ai_service.files w.
Proof.
  unfold ai_service.classify_with_proba, ai_service.mbind,
    ai_service.mlift.
  pose proof (get_classifier_keeps_files w) as H.
  destruct (ai_service._get_classifier _ _ w) as [[c | e] w1]; exact H.
Qed.

Lemma runtime_error_is_handled (e : error) :
  unified_diagnosis_service.runtime_or_attribute_error e = false ->
  unified_diagnosis_service.runtime_error e = false.
Proof. destruct e; cbn; congruence. Qed.

(** The shape of every unified diagnosis. *)
Lemma diagnose_cases (s : sample.Sample) (w : World) :
  match diagnose s w with
  | (Return d, w') =>
      unified_diagnosis_service.sample_ d = s
      /\ normative_diagnosis_service.diagnose_all (sample.gas_reading s)
         = Ok (unified_diagnosis_service.normative d)
      /\ ai_service.files w' = ai_service.files w
      /\ match unified_diagnosis_service.ai_fault d with
         | Some f =>
             unified_diagnosis_service.agree d
             = Some (FaultType_eqb
                       (normative_diagnosis_service.consensus_fault
                          (unified_diagnosis_service.normative d)) f)
         | None =>
             unified_diagnosis_service.agree d = None
             /\ unified_diagnosis_service.ai_probabilities d = None
         end
  | (Throw e, w') =>
      unified_diagnosis_service.runtime_error e = false
      /\ ai_service.files w' = ai_service.files w
  end.
Proof.
  destruct (ConsensusFacts.diagnose_all_spec (sample.gas_reading s))
    as (n & _ & _ & Hn & _).
  unfold unified_diagnosis_service.diagnose.
  unfold ai_service.mbind at 1, ai_service.mlift. rewrite Hn.
  cbn [of_result]. unfold ai_service.mbind at 1.
  destruct (ServiceFacts_has_model w) as [b Hb]. rewrite Hb.
  destruct b.
  - unfold ai_service.mbind at 1, ai_service.try_except at 1,
      ai_service.mbind at 1.
    pose proof (classify_with_proba_keeps_files (sample.gas_reading s) w)
      as F1.
    destruct (classify_with_proba (sample.gas_reading s) w)
      as [[r | e] w1]; cbn [snd] in F1.
    + cbn. repeat split; assumption.
    + destruct (unified_diagnosis_service.runtime_or_attribute_error e)
        eqn:He.
      * unfold ai_service.try_except, ai_service.mbind at 1.
        pose proof (classify_keeps_files (sample.gas_reading s) w1) as F2.
        destruct (classify (sample.gas_reading s) w1) as [[f | e2] w2];
          cbn [snd] in F2.
        -- cbn. repeat split; congruence.
        -- destruct (unified_diagnosis_service.runtime_error e2) eqn:He2.
           ++ cbn. repeat split; congruence.
           ++ split; [exact He2 | congruence].
      * split; [apply runtime_error_is_handled, He | exact F1].
  - cbn. repeat split; assumption.
Qed.

(** X26. Whatever the classifier does, a unified diagnosis that returns
    holds the sample, the normative result of its reading, and an
    agreement flag that is absent exactly when the AI fault is absent (and
    then there are no probabilities either) and otherwise tells whether the
    consensus fault equals the AI fault.  When it raises, the exception is
    never a [RuntimeError].  The model files are never changed. *)
Theorem unified_diagnose_invariants (s : sample.Sample) (w : World) :
  match diagnose s w with
  | (Return d, w') =>
      unified_diagnosis_service.sample_ d = s
      /\ normative_diagnosis_service.diagnose_all (sample.gas_reading s)
         = Ok (unified_diagnosis_service.normative d)
      /\ ai_service.files w' = ai_service.files w
      /\ match unified_diagnosis_service.ai_fault d with
         | Some f =>
             unified_diagnosis_service.agree d
             = Some (FaultType_eqb
                       (normative_diagnosis_service.consensus_fault
                          (unified_diagnosis_service.normative d)) f)
         | None =>
             unified_diagnosis_service.agree d = None
             /\ unified_diagnosis_service.ai_probabilities d = None
         end
  | (Throw e, w') =>
      unified_diagnosis_service.runtime_error e = false
      /\ ai_service.files w' = ai_service.files w
  end.
Proof. exact (diagnose_cases s w). Qed.

(** X27. Without a model, neither in memory nor on disk, the unified
    diagnosis is the normative diagnosis alone: no AI fault, no
    probabilities, no agreement flag, and nothing is changed. *)
Theorem unified_diagnose_without_model (s : sample.Sample) (w : World) :
  has_model w = (Return false, w) ->
  exists n,
    normative_diagnosis_service.diagnose_all (sample.gas_reading s) = Ok n
    /\ diagnose s w
       = (Return {| unified_diagnosis_service.sample_ := s;
                    unified_diagnosis_service.normative := n;
                    unified_diagnosis_service.ai_fault := None;
                    unified_diagnosis_service.ai_probabilities := None;
                    unified_diagnosis_service.agree := None |}, w).
Proof.
  intro Hno.
  destruct (ConsensusFacts.diagnose_all_spec (sample.gas_reading s))
    as (n & _ & _ & Hn & _).
  exists n. split; [exact Hn|].
  unfold unified_diagnosis_service.diagnose.
  unfold ai_service.mbind at 1, ai_service.mlift. rewrite Hn.
  cbn [of_result]. unfold ai_service.mbind at 1. rewrite Hno.
  reflexivity.
Qed.

Lemma classify_cached (reading : GasReading) (w : World)
  (c : FaultClassifier) :
  ai_service._classifier (ai_service.service w) = Some c ->
  classify reading w = (fault_classifier.classify predict c reading, w).
Proof.
  intro Hc. unfold ai_service.classify, ai_service.mbind,
    ai_service._get_classifier, ai_service.mlift.
  rewrite Hc. reflexivity.
Qed.

Lemma classify_with_proba_cached (reading : GasReading) (w : World)
  (c : FaultClassifier) :
  ai_service._classifier (ai_service.service w) = Some c ->
  has_predict_proba (fault_classifier._pipeline c) = false ->
  classify_with_proba reading w
  = (match fault_classifier.classify predict c reading with
     | Return _ =>
         Throw (AttributeError
                  ("El modelo no soporta predict_proba. "
                   ++ "Use classify() en su lugar."))
     | Throw e => Throw e
     end, w).
Proof.
  intros Hc Hp. unfold ai_service.classify_with_proba, ai_service.mbind,
    ai_service._get_classifier, ai_service.mlift.
  rewrite Hc. f_equal.
  unfold fault_classifier.classify_with_probabilities,
    fault_classifier.classify.
  destruct (fault_classifier._prepare_single reading) as [X | e];
    cbn [obind]; [|reflexivity].
  destruct (predict (fault_classifier._pipeline c) X) as [preds | e];
    cbn [obind]; [|reflexivity].
  destruct (first preds) as [pred | e]; cbn [obind]; [|reflexivity].
  destruct (fault_classifier.index_to_fault pred) as [f | e];
    cbn [obind]; [|reflexivity].
  rewrite Hp. reflexivity.
Qed.

Lemma diagnose_cached_without_proba (s : sample.Sample) (w : World)
  (c : FaultClassifier)
  (n : normative_diagnosis_service.NormativeDiagnosisResult) :
  ai_service._classifier (ai_service.service w) = Some c ->
  has_predict_proba (fault_classifier._pipeline c) = false ->
  normative_diagnosis_service.diagnose_all (sample.gas_reading s) = Ok n ->
  diagnose s w
  = match fault_classifier.classify predict c (sample.gas_reading s) with
    | Return f =>
        (Return
           {| unified_diagnosis_service.sample_ := s;
              unified_diagnosis_service.normative := n;
              unified_diagnosis_service.ai_fault := Some f;
              unified_diagnosis_service.ai_probabilities := None;
              unified_diagnosis_service.agree :=
                Some (FaultType_eqb
                        (normative_diagnosis_service.consensus_fault n) f)
           |}, w)
    | Throw e =>
        if unified_diagnosis_service.runtime_error e
        then (Return
                {| unified_diagnosis_service.sample_ := s;
                   unified_diagnosis_service.normative := n;
                   unified_diagnosis_service.ai_fault := None;
                   unified_diagnosis_service.ai_probabilities := None;
                   unified_diagnosis_service.agree := None |}, w)
        else (Throw e, w)
    end.
Proof.
  intros Hc Hp Hn.
  unfold unified_diagnosis_service.diagnose.
  unfold ai_service.mbind at 1, ai_service.mlift. rewrite Hn.
  cbn [of_result]. unfold ai_service.mbind at 1.
  unfold ai_service.has_model at 1. rewrite Hc.
  unfold ai_service.mbind at 1, ai_service.try_except at 1,
    ai_service.mbind at 1.
  rewrite (@classify_with_proba_cached (sample.gas_reading s) w c Hc Hp).
  destruct (fault_classifier.classify predict c (sample.gas_reading s))
    as [f | e] eqn:Ec.
  - cbn [unified_diagnosis_service.runtime_or_attribute_error].
    unfold ai_service.try_except, ai_service.mbind at 1.
    rewrite (@classify_cached (sample.gas_reading s) w c Hc), Ec.
    reflexivity.
  - destruct (unified_diagnosis_service.runtime_or_attribute_error e)
      eqn:He.
    + unfold ai_service.try_except, ai_service.mbind at 1.
      rewrite (@classify_cached (sample.gas_reading s) w c Hc), Ec.
      destruct (unified_diagnosis_service.runtime_error e); reflexivity.
    + rewrite (@runtime_error_is_handled e He). reflexivity.
Qed.

(** X28. With a classifier in memory whose pipeline has no
    [predict_proba], the unified diagnosis falls back to plain
    classification: it carries the fault that [classify] returns, without
    probabilities; a [RuntimeError] of [classify] gives the diagnosis
    without AI part, and any other exception is passed on. *)
Theorem unified_diagnose_falls_back (s : sample.Sample) (w : World)
  (c : FaultClassifier) :
  ai_service._classifier (ai_service.service w) = Some c ->
  has_predict_proba (fault_classifier._pipeline c) = false ->
  exists n,
    normative_diagnosis_service.diagnose_all (sample.gas_reading s) = Ok n
    /\ match fault_classifier.classify predict c (sample.gas_reading s) with
       | Return f =>
           diagnose s w
           = (Return
                {| unified_diagnosis_service.sample_ := s;
                   unified_diagnosis_service.normative := n;
                   unified_diagnosis_service.ai_fault := Some f;
                   unified_diagnosis_service.ai_probabilities := None;
                   unified_diagnosis_service.agree :=
                     Some (FaultType_eqb
                             (normative_diagnosis_service.consensus_fault n)
                             f) |}, w)
       | Throw e =>
           if unified_diagnosis_service.runtime_error e
           then diagnose s w
                = (Return
                     {| unified_diagnosis_service.sample_ := s;
                        unified_diagnosis_service.normative := n;
                        unified_diagnosis_service.ai_fault := None;
                        unified_diagnosis_service.ai_probabilities := None;
                        unified_diagnosis_service.agree := None |}, w)
           else diagnose s w = (Throw e, w)
       end.
Proof.
  intros Hc Hp.
  destruct (ConsensusFacts.diagnose_all_spec (sample.gas_reading s))
    as (n & _ & _ & Hn & _).
  exists n. split; [exact Hn|].
  rewrite (diagnose_cached_without_proba s w Hc Hp Hn).
  destruct (fault_classifier.classify predict c (sample.gas_reading s))
    as [f | e]; [reflexivity|].
  destruct (unified_diagnosis_service.runtime_error e); reflexivity.
Qed.

Lemma diagnose_batch_cases (samples : list sample.Sample) :
  forall w : World,
    match unified_diagnosis_service.diagnose_batch
            predict has_predict_proba predict_proba classes_
            resolve joblib_load samples w with
    | (Return ds, w') =>
        List.length ds = List.length samples
        /\ ai_service.files w' = ai_service.files w
    | (Throw e, w') =>
        unified_diagnosis_service.runtime_error e = false
        /\ ai_service.files w' = ai_service.files w
    end.
Proof.
  unfold unified_diagnosis_service.diagnose_batch.
  induction samples as [|s rest IH]; intro w; [split; reflexivity|].
  cbn [ai_service.mmapM]. unfold ai_service.mbind at 1.
  pose proof (diagnose_cases s w) as Hd.
  destruct (diagnose s w) as [[d | e] w1].
  - destruct Hd as (_ & _ & F1 & _).
    unfold ai_service.mbind at 1. specialize (IH w1).
    destruct (ai_service.mmapM _ rest w1) as [[ds | e] w2].
    + destruct IH as [L F2]. cbn. split; congruence.
    + destruct IH as [R F2]. split; congruence.
  - exact Hd.
Qed.

Lemma filter_length_bound (A : Type) (f : A -> bool) (l : list A) :
  (List.length (filter f l) <= List.length l)%nat.
Proof.
  induction l as [|x l IH]; [reflexivity|].
  cbn [filter]. destruct (f x); cbn [List.length]; lia.
Qed.

(** X29. A comparison that returns has one detail per sample; its total
    counts the details that carry an agreement flag, agreements and
    disagreements are non-negative and add up to the total, and the
    percentage is 0 when nothing is comparable and otherwise the float
    quotient of agreements by total, times 100 in floats, rounded to one
    decimal; it lies between 0 and 100.  A comparison that raises never
    raises [RuntimeError]. *)
Theorem compare_counts (samples : list sample.Sample) (w : World) :
  match compare samples w with
  | (Return sm, w') =>
      List.length (unified_diagnosis_service.details sm)
      = List.length samples
      /\ unified_diagnosis_service.total sm
         = Z.of_nat
             (List.length
                (filter unified_diagnosis_service.is_comparable
                        (unified_diagnosis_service.details sm)))
      /\ (unified_diagnosis_service.agreements sm
          + unified_diagnosis_service.disagreements sm
          = unified_diagnosis_service.total sm)%Z
      /\ (0 <= unified_diagnosis_service.agreements sm)%Z
      /\ (0 <= unified_diagnosis_service.disagreements sm)%Z
      /\ (unified_diagnosis_service.total sm
          <= Z.of_nat (List.length samples))%Z
      /\ 0 <= unified_diagnosis_service.agreement_pct sm
      /\ unified_diagnosis_service.agreement_pct sm <= 100
      /\ ((unified_diagnosis_service.total sm = 0%Z
           /\ unified_diagnosis_service.agreement_pct sm = 0)
          \/ ((0 < unified_diagnosis_service.total sm)%Z
              /\ exists q,
                   binary64.int_truediv
                     (unified_diagnosis_service.agreements sm)
                     (unified_diagnosis_service.total sm)
                   = Ok q
                   /\ unified_diagnosis_service.agreement_pct sm
                      = binary64.round (binary64.mul q 100) 1))
  | (Throw e, w') => unified_diagnosis_service.runtime_error e = false
  end.
Proof.
  unfold unified_diagnosis_service.compare, ai_service.mbind at 1.
  pose proof (diagnose_batch_cases samples w) as Hb.
  destruct (unified_diagnosis_service.diagnose_batch _ _ _ _ _ _ samples w)
    as [[ds | e] w1]; [|apply Hb].
  destruct Hb as [Hlen _]. cbv zeta.
  set (comparable := filter unified_diagnosis_service.is_comparable ds).
  set (agreeing := filter unified_diagnosis_service.agrees comparable).
  pose proof (filter_length_bound
                unified_diagnosis_service.is_comparable ds) as B1.
  pose proof (filter_length_bound
                unified_diagnosis_service.agrees comparable) as B2.
  fold comparable in B1. fold agreeing in B2.
  destruct (Z.gtb_spec (Z.of_nat (List.length comparable)) 0) as [Hpos | Hz].
  - destruct (@Binary64Facts.percentage_bounds
                (Z.of_nat (List.length agreeing))
                (Z.of_nat (List.length comparable)))
      as (q & Hq & R0 & R1); [lia | lia |].
    rewrite Hq.
    cbn [of_result obind].
    unfold ai_service.mbind, ai_service.mlift, ai_service.mret.
    cbn [unified_diagnosis_service.total unified_diagnosis_service.agreements
         unified_diagnosis_service.disagreements
         unified_diagnosis_service.agreement_pct
         unified_diagnosis_service.details].
    repeat (split; [first [assumption | reflexivity | lia]|]).
    right. split; [lia|]. exists q. split; [exact Hq | reflexivity].
  - unfold ai_service.mbind, ai_service.mlift, ai_service.mret.
    cbn [unified_diagnosis_service.total unified_diagnosis_service.agreements
         unified_diagnosis_service.disagreements
         unified_diagnosis_service.agreement_pct
         unified_diagnosis_service.details].
    repeat (split; [first [assumption | reflexivity | lia | discriminate]|]).
    left. split; [lia | reflexivity].
Qed.

End Oracles.

End ServiceFacts.

(** ** Instances of the further properties *)

Module MoreSamples.

Lemma ratios_defined_and_nonnegative_witness :
  Forall (fun ratio => exists q, ratio NORMAL_READING = Ok q /\ 0 <= q)
         ratio_functions.
Proof.
  apply ReadingFacts.ratios_defined_and_nonnegative. reflexivity.
Defined.

Lemma duval_percentages_in_range_witness :
  (exists a b c,
      gas_ratios.duval_triangle_percentages ARCING_READING = Ok (a, b, c)
      /\ percentage a /\ percentage b /\ percentage c)
  /\ (exists a b c d e,
         gas_ratios.duval_pentagon_percentages ARCING_READING
         = Ok (a, b, c, d, e)
         /\ percentage a /\ percentage b /\ percentage c
         /\ percentage d /\ percentage e).
Proof.
  apply ReadingFacts.duval_percentages_in_range. reflexivity.
Defined.

Lemma ieee_normal_iff_within_condition_2_witness :
  exists res,
    ieee_c57_104.diagnose NORMAL_READING = Ok res /\ fault_type res = N.
Proof.
  destruct (ClassifierFacts.ieee_normal_iff_within_condition_2
              NORMAL_READING) as (res & Hres & Hiff).
  exists res. split; [exact Hres|]. apply Hiff.
  unfold within_condition_2. repeat split; discriminate.
Defined.

Lemma iec_normal_iff_unmapped_pattern_witness :
  exists res,
    iec_60599.diagnose ETHYLENE_ONLY = Ok res /\ fault_type res = N.
Proof.
  destruct (ClassifierFacts.iec_normal_iff_unmapped_pattern ETHYLENE_ONLY)
    as (r1 & r2 & r5 & res & H1 & H2 & H5 & Hres & Hiff & _).
  exists res. split; [exact Hres|]. apply Hiff.
  vm_compute in H1, H2, H5.
  injection H1 as <-. injection H2 as <-. injection H5 as <-.
  repeat split; discriminate.
Defined.

Lemma duval_triangle_gate_on_gases_witness :
  exists res,
    duval_triangle.diagnose ZERO_READING = Ok res
    /\ ((ch4 ZERO_READING == 0 /\ c2h4 ZERO_READING == 0
         /\ c2h2 ZERO_READING == 0
         /\ fault_type res = N /\ applicable res = Some (VBool false))
        \/ (~ (ch4 ZERO_READING == 0 /\ c2h4 ZERO_READING == 0
               /\ c2h2 ZERO_READING == 0)
            /\ In (fault_type res) triangle_zones
            /\ applicable res = Some (VBool true))).
Proof.
  apply ClassifierFacts.duval_triangle_gate_on_gases. reflexivity.
Defined.

Lemma duval_pentagon_gate_on_gases_witness :
  exists res,
    duval_pentagon.diagnose ETHYLENE_ONLY = Ok res
    /\ ((h2 ETHYLENE_ONLY == 0 /\ ch4 ETHYLENE_ONLY == 0
         /\ c2h6 ETHYLENE_ONLY == 0
         /\ fault_type res = N /\ applicable res = Some (VBool false))
        \/ (~ (h2 ETHYLENE_ONLY == 0 /\ ch4 ETHYLENE_ONLY == 0
               /\ c2h6 ETHYLENE_ONLY == 0)
            /\ In (fault_type res) pentagon_zones
            /\ applicable res = Some (VBool true))).
Proof.
  apply ClassifierFacts.duval_pentagon_gate_on_gases. reflexivity.
Defined.

Lemma compute_consensus_unanimous_witness :
  exists pct,
    normative_diagnosis_service._compute_consensus
      [mkMethodResult "Rogers" T2 "" []; mkMethodResult "Dornenburg" T2 "" []]
    = Ok (T2, [(name T2, 2%Z)], pct)
    /\ pct == 100.
Proof.
  apply (@ConsensusMore.compute_consensus_unanimous
           [mkMethodResult "Rogers" T2 "" [];
            mkMethodResult "Dornenburg" T2 "" []] T2).
  - discriminate.
  - intros mr [<- | [<- | []]]; reflexivity.
Defined.

Lemma train_all_success_trace_witness :
  exists res trace cv,
    sample_session.train_all 3 sample_session.X sample_session.y []
    = (Ok res, trace)
    /\ trace = flat_map (fun p => [CrossValScore (snd p) cv; Fit (snd p)])
                        model_trainer._build_pipelines
    /\ (2 <= n_splits cv)%Z.
Proof.
  destruct (sample_session.train_all 3 sample_session.X sample_session.y [])
    as [[res | e] trace] eqn:E.
  - destruct (TrainerMore.train_all_success_trace
                sample_session.cross_val_score sample_session.fit
                sample_session.mean sample_session.std
                3 sample_session.X sample_session.y E)
      as (cv & Ht & Hs & _).
    exists res, trace, cv. repeat split; assumption.
  - vm_compute in E. discriminate E.
Defined.

Lemma train_all_best_is_first_maximum_witness :
  exists res trace before after,
    sample_session.train_all 3 sample_session.X sample_session.y []
    = (Ok res, trace)
    /\ map (@model_trainer.name Pipeline)
           (before ++ model_trainer.best_model res :: after)
       = ["Random Forest"; "SVM"; "KNN"; "MLP"]%string
    /\ model_trainer.name (model_trainer.best_model res) = "SVM"%string
    /\ Forall (fun m =>
                 pyfloat.lt (model_trainer.cv_accuracy m)
                            (model_trainer.cv_accuracy
                               (model_trainer.best_model res))
                 = true) before.
Proof.
  destruct (sample_session.train_all 3 sample_session.X sample_session.y [])
    as [[res | e] trace] eqn:E.
  - destruct (@TrainerMore.train_all_best_is_first_maximum
                _ sample_session.cross_val_score sample_session.fit
                sample_session.mean sample_session.std
                3 sample_session.X sample_session.y res trace E)
      as (before & after & Hn & _ & Hb & _).
    + vm_compute in E. injection E as <- <-.
      repeat constructor; discriminate.
    + exists res, trace, before, after.
      split; [reflexivity|]. split; [exact Hn|]. split; [|exact Hb].
      vm_compute in E. injection E as <- <-. reflexivity.
  - vm_compute in E. discriminate E.
Defined.

Lemma evaluate_rejects_empty_or_negative_labels_witness :
  (exists msg,
      sample_session.evaluate 3 [] sample_session.X [] []
      = (Raise (ValueError msg), []))
  /\ (exists msg,
         sample_session.evaluate 3 [] sample_session.X [0; -1; 2]%Z []
         = (Raise (ValueError msg), [])).
Proof.
  split.
  - apply (TrainerMore.evaluate_rejects_empty_or_negative_labels
             sample_session.cross_val_predict sample_session.metrics
             3 "sample" [] sample_session.X (y:=[])).
    left. reflexivity.
  - apply (TrainerMore.evaluate_rejects_empty_or_negative_labels
             sample_session.cross_val_predict sample_session.metrics
             3 "sample" [] sample_session.X (y:=[0; -1; 2]%Z)).
    right. apply Exists_cons_tl, Exists_cons_hd. reflexivity.
Defined.

Lemma unified_diagnose_without_model_witness :
  exists n,
    normative_diagnosis_service.diagnose_all NORMAL_READING = Ok n
    /\ sample_classifier.diagnose
         (sample_classifier.a_sample NORMAL_READING 1)
         sample_classifier.world_without_model
       = (Return
            {| unified_diagnosis_service.sample_ :=
                 sample_classifier.a_sample NORMAL_READING 1;
               unified_diagnosis_service.normative := n;
               unified_diagnosis_service.ai_fault := None;
               unified_diagnosis_service.ai_probabilities := None;
               unified_diagnosis_service.agree := None |},
          sample_classifier.world_without_model).
Proof.
  apply (ServiceFacts.unified_diagnose_without_model
           sample_classifier.predict sample_classifier.has_predict_proba
           sample_classifier.predict_proba sample_classifier.classes_
           sample_classifier.resolve sample_classifier.joblib_load
           (sample_classifier.a_sample NORMAL_READING 1)).
  reflexivity.
Defined.

Lemma unified_diagnose_falls_back_witness :
  exists n,
    normative_diagnosis_service.diagnose_all NORMAL_READING = Ok n
    /\ sample_classifier.diagnose
         (sample_classifier.a_sample NORMAL_READING 1)
         sample_classifier.world_cached_without_proba
       = (Return
            {| unified_diagnosis_service.sample_ :=
                 sample_classifier.a_sample NORMAL_READING 1;
               unified_diagnosis_service.normative := n;
               unified_diagnosis_service.ai_fault := Some T1;
               unified_diagnosis_service.ai_probabilities := None;
               unified_diagnosis_service.agree :=
                 Some (FaultType_eqb
                         (normative_diagnosis_service.consensus_fault n)
                         T1) |},
          sample_classifier.world_cached_without_proba).
Proof.
  exact (ServiceFacts.unified_diagnose_falls_back
           sample_classifier.predict sample_classifier.has_predict_proba
           sample_classifier.predict_proba sample_classifier.classes_
           sample_classifier.resolve sample_classifier.joblib_load
           (sample_classifier.a_sample NORMAL_READING 1)
           sample_classifier.world_cached_without_proba
           (c:=fault_classifier.mkFaultClassifier 14%Z)
           eq_refl eq_refl).
Defined.


(** A model file that joblib cannot load: [has_model] answers yes, and
    getting the classifier raises what joblib raised. *)
Lemma unreadable_model_file :
  ai_service.has_model sample_classifier.resolve
    sample_classifier.world_with_truncated_file
  = (Return true, sample_classifier.world_with_truncated_file)
  /\ ai_service._get_classifier sample_classifier.resolve
       sample_classifier.joblib_load
       sample_classifier.world_with_truncated_file
     = (Throw EOFError, sample_classifier.world_with_truncated_file).
Proof. split; reflexivity. Qed.

End MoreSamples.
